(** * dtr/src/mrc.c: reading the MRC tomography format

    A shallow embedding of [mrc_read] and [mrc_is_mrcfile].

    The C function [mrc_read] is a sequence of stdio calls on one stream,
    writes to the caller's [ControlContext] and calls to [image_add]; it is
    embedded as a computation in a state monad whose state holds the
    objects the function touches (the stream, the header [mrc], the array
    [ext], the two per-plane buffers, the context) and the trace of the
    calls it makes.  Behaviour the C standard leaves undefined (a stdio
    call on a null stream, an access outside an object) ends the
    computation with [Ub].

    Data model: LP64 ([int] and [unsigned] are 32 bits, [size_t] and
    [long] are 64 bits); signed 32-bit arithmetic wraps (two's
    complement); the [float] and [double] fields are abstracted by real
    numbers. *)

From Stdlib Require Import ZArith Lia String Ascii Reals Lra.
From stdpp Require Import base list.

Open Scope Z_scope.

(** ** Machine integers *)

Definition to_u16 (z : Z) : Z := z mod 2 ^ 16.
Definition to_i16 (z : Z) : Z := (z + 2 ^ 15) mod 2 ^ 16 - 2 ^ 15.
Definition to_u32 (z : Z) : Z := z mod 2 ^ 32.
Definition to_i32 (z : Z) : Z := (z + 2 ^ 31) mod 2 ^ 32 - 2 ^ 31.
Definition to_u64 (z : Z) : Z := z mod 2 ^ 64.
Definition to_i64 (z : Z) : Z := (z + 2 ^ 63) mod 2 ^ 64 - 2 ^ 63.

Definition is_i16 (z : Z) : Prop := - 2 ^ 15 <= z < 2 ^ 15.
Definition is_u16 (z : Z) : Prop := 0 <= z < 2 ^ 16.
Definition is_i32 (z : Z) : Prop := - 2 ^ 31 <= z < 2 ^ 31.

Definition byte_val (b : Byte.byte) : Z := Z.of_N (Byte.to_N b).

(** ** Outcomes *)

(** What the C standard leaves undefined and the function can run into. *)
Inductive undefined : Set :=
| NullStream     (* a stdio call on the null stream *)
| NullBuffer     (* an access through a null pointer from malloc *)
| OutOfBounds.   (* an access outside the object pointed into *)

Inductive result (A : Type) : Type :=
| Ok (a : A)
| Ub (u : undefined).
Arguments Ok {A} a.
Arguments Ub {A} u.

(** ** Strings of the C library *)

(** A C string is modelled by the characters before its terminator. *)
Definition char_val (c : ascii) : Z := Z.of_nat (nat_of_ascii c).

Definition strlen (s : string) : Z := Z.of_nat (String.length s).

(** [strcmp]: the difference of the first two characters that differ, the
    terminator counting as 0. *)
Fixpoint strcmp (a b : string) : Z :=
  match a, b with
  | EmptyString, EmptyString => 0
  | EmptyString, String d _ => 0 - char_val d
  | String c _, EmptyString => char_val c
  | String c a', String d b' =>
      if Ascii.eqb c d then strcmp a' b' else char_val c - char_val d
  end.

Fixpoint string_drop (n : nat) (s : string) : string :=
  match n, s with
  | O, _ => s
  | S n', EmptyString => EmptyString
  | S n', String _ s' => string_drop n' s'
  end.

(** [p + off] for a pointer [p] to the first character of [s] and an
    offset of type [size_t]: defined while the result points into the
    string or at its terminator. *)
Definition ptr_add (s : string) (off : Z) : option string :=
  if off <=? strlen s then Some (string_drop (Z.to_nat off) s) else None.

(** [unsigned int mrc_is_mrcfile(const char *filename)] *)
Definition mrc_is_mrcfile (filename : string) : result Z :=
  match ptr_add filename (to_u64 (strlen filename - 4)) with
  | None => Ub OutOfBounds
  | Some suffix => if strcmp suffix ".mrc" =? 0 then Ok 1 else Ok 0
  end.

(** The string has no character 0 inside. *)
Fixpoint cstring (s : string) : bool :=
  match s with
  | EmptyString => true
  | String c s' => negb (Ascii.eqb c zero) && cstring s'
  end.

(** ** Samples *)

(** The value [mrc_read] stores in [uimage[k]] for the sample [s] it finds
    in [image[k]]: 0 when [s < 0], else [s] converted to [uint16_t]. *)
Definition clip16 (s : Z) : Z := if s <? 0 then 0 else to_u16 s.

(** ** Data of mrc.h, control.h and utils.h *)

(** Modelled from the spec: [MRCHeader] of mrc.h, which is not among the
    sources.  The fields are the ones [mrc_read] uses; the spec gives
    each of them the type [int32]. *)
Record MRCHeader : Set := {
  nx : Z; ny : Z; nz : Z;
  mode : Z;
  nxstart : Z; nystart : Z;
  numintegers : Z; numfloats : Z;
  next : Z }.

(** Modelled from the spec: [MRCExtHeader] of mrc.h, the fields
    [mrc_read] uses; floating-point in the source, real numbers here. *)
Record MRCExtHeader : Type := {
  a_tilt : R;
  tilt_axis : R;
  magnification : R;
  voltage : R;
  pixel_size : R }.

(** [ctx->fmode]: mrc.c names one enumerator of control.h. *)
Inductive FormulationMode : Set :=
| FORMULATION_PIXELSIZE
| FORMULATION_other (tag : Z).

(** The fields of [ControlContext] that [mrc_read] reads or writes. *)
Record ControlContext : Type := {
  ctx_filename : string;
  ctx_fmode : FormulationMode;
  ctx_camera_length : R;
  ctx_lambda : R;
  ctx_omega : R;
  ctx_pixel_size : R }.

(** What the sources do not fix: the layout of the two structures of
    mrc.h, the byte order of the host, and the two functions of utils.h
    that [mrc_read] calls. *)
Record Platform : Type := {
  sizeof_MRCHeader : nat;
  decode_MRCHeader : list Byte.byte -> MRCHeader;
  sizeof_MRCExtHeader : nat;
  decode_MRCExtHeader : list Byte.byte -> MRCExtHeader;
  big_endian : bool;
  lambda : R -> R;
  deg2rad : R -> R }.

(** [MRCExtHeader ext[1024]] *)
Definition EXT_CAPACITY : Z := 1024.

(** The largest request malloc can serve (PTRDIFF_MAX). *)
Definition MALLOC_MAX : Z := 2 ^ 63 - 1.

(** ** The machine *)

Inductive buffer : Set :=
| Bmrc              (* &mrc *)
| Bext (i : Z)      (* &ext[i] *)
| Bimage.           (* image *)

(** The calls [mrc_read] makes, and its accesses to the array [ext]: an
    [fread] into [&ext[i]], and the evaluation of an [ext[i].field].  The
    format strings are given without their final newline. *)
Inductive event : Type :=
| Efopen (path : string)
| Efread (dst : buffer) (size : Z)
| Efseek (offset : Z)
| Efclose
| Eprintf (fmt : string)
| Efprintf_stderr (fmt : string)
| Eext_load (i : Z)
| Eimage_add (uimage : list Z) (width height : Z) (tilt : R)
             (ctx : ControlContext).

Record stream : Set := { content : list Byte.byte; pos : Z }.

(** The contents of objects before the program has written them: the
    automatic variables [mrc] and [ext], and each block from malloc. *)
Record indeterminate : Type := {
  ind_mrc : nat -> Byte.byte;
  ind_ext : nat -> nat -> Byte.byte;
  ind_image : Z -> nat -> Byte.byte;
  ind_uimage : Z -> nat -> Byte.byte }.

Record state : Type := {
  fs : string -> option (list Byte.byte);   (* the files that can be opened *)
  ind : indeterminate;
  fh : option stream;                       (* FILE *fh, None for NULL *)
  mrc : list Byte.byte;                     (* MRCHeader mrc *)
  ext : list (list Byte.byte);              (* MRCExtHeader ext[1024] *)
  image : option (list Byte.byte);          (* int16_t *image *)
  uimage : option (list Z);                 (* uint16_t *uimage *)
  ctx : ControlContext;                     (* *ctx *)
  trace : list event }.

Definition set_fh (v : option stream) (s : state) : state :=
  {| fs := fs s; ind := ind s; fh := v; mrc := mrc s; ext := ext s;
     image := image s; uimage := uimage s; ctx := ctx s; trace := trace s |}.
Definition set_mrc (v : list Byte.byte) (s : state) : state :=
  {| fs := fs s; ind := ind s; fh := fh s; mrc := v; ext := ext s;
     image := image s; uimage := uimage s; ctx := ctx s; trace := trace s |}.
Definition set_ext (v : list (list Byte.byte)) (s : state) : state :=
  {| fs := fs s; ind := ind s; fh := fh s; mrc := mrc s; ext := v;
     image := image s; uimage := uimage s; ctx := ctx s; trace := trace s |}.
Definition set_image (v : option (list Byte.byte)) (s : state) : state :=
  {| fs := fs s; ind := ind s; fh := fh s; mrc := mrc s; ext := ext s;
     image := v; uimage := uimage s; ctx := ctx s; trace := trace s |}.
Definition set_uimage (v : option (list Z)) (s : state) : state :=
  {| fs := fs s; ind := ind s; fh := fh s; mrc := mrc s; ext := ext s;
     image := image s; uimage := v; ctx := ctx s; trace := trace s |}.
Definition set_ctx (v : ControlContext) (s : state) : state :=
  {| fs := fs s; ind := ind s; fh := fh s; mrc := mrc s; ext := ext s;
     image := image s; uimage := uimage s; ctx := v; trace := trace s |}.
Definition set_trace (v : list event) (s : state) : state :=
  {| fs := fs s; ind := ind s; fh := fh s; mrc := mrc s; ext := ext s;
     image := image s; uimage := uimage s; ctx := ctx s; trace := v |}.

Definition set_fmode (v : FormulationMode) (c : ControlContext) :=
  {| ctx_filename := ctx_filename c; ctx_fmode := v;
     ctx_camera_length := ctx_camera_length c; ctx_lambda := ctx_lambda c;
     ctx_omega := ctx_omega c; ctx_pixel_size := ctx_pixel_size c |}.
Definition set_camera_length (v : R) (c : ControlContext) :=
  {| ctx_filename := ctx_filename c; ctx_fmode := ctx_fmode c;
     ctx_camera_length := v; ctx_lambda := ctx_lambda c;
     ctx_omega := ctx_omega c; ctx_pixel_size := ctx_pixel_size c |}.
Definition set_lambda (v : R) (c : ControlContext) :=
  {| ctx_filename := ctx_filename c; ctx_fmode := ctx_fmode c;
     ctx_camera_length := ctx_camera_length c; ctx_lambda := v;
     ctx_omega := ctx_omega c; ctx_pixel_size := ctx_pixel_size c |}.
Definition set_omega (v : R) (c : ControlContext) :=
  {| ctx_filename := ctx_filename c; ctx_fmode := ctx_fmode c;
     ctx_camera_length := ctx_camera_length c; ctx_lambda := ctx_lambda c;
     ctx_omega := v; ctx_pixel_size := ctx_pixel_size c |}.
Definition set_pixel_size (v : R) (c : ControlContext) :=
  {| ctx_filename := ctx_filename c; ctx_fmode := ctx_fmode c;
     ctx_camera_length := ctx_camera_length c; ctx_lambda := ctx_lambda c;
     ctx_omega := ctx_omega c; ctx_pixel_size := v |}.

(** The state monad with undefined behaviour. *)
Definition M (A : Type) : Type := state -> result A * state.

Definition ret {A} (a : A) : M A := fun s => (Ok a, s).

Definition bind {A B} (c : M A) (k : A -> M B) : M B :=
  fun s => match c s with
           | (Ok a, s') => k a s'
           | (Ub u, s') => (Ub u, s')
           end.

Declare Scope mrc_scope.
Delimit Scope mrc_scope with mrc.
Notation "x <- c ;; k" := (bind c (fun x => k))
  (at level 100, c at next level, right associativity) : mrc_scope.
Notation "c ;; k" := (bind c (fun _ => k))
  (at level 100, right associativity) : mrc_scope.
Open Scope mrc_scope.

Definition gets {A} (f : state -> A) : M A := fun s => (Ok (f s), s).
Definition modify (f : state -> state) : M unit := fun s => (Ok tt, f s).
Definition undef {A} (u : undefined) : M A := fun s => (Ub u, s).
Definition emit (e : event) : M unit :=
  modify (fun s => set_trace (trace s ++ [e]) s).

(** [for (i = start; i < start + n; i++) body] *)
Fixpoint for_ (n : nat) (i : Z) (body : Z -> M unit) : M unit :=
  match n with
  | O => ret tt
  | S n' => body i ;; for_ n' (i + 1) body
  end.

(** ** stdio and malloc *)

(** The bytes one [fread] of [size] bytes moves: what the stream has left
    from its position on, [size] bytes at most. *)
Definition transfer (size : Z) (st : stream) : list Byte.byte :=
  take (Z.to_nat size) (drop (Z.to_nat (pos st)) (content st)).

(** The stream after that [fread]. *)
Definition advance (size : Z) (st : stream) : stream :=
  {| content := content st;
     pos := pos st + Z.of_nat (length (transfer size st)) |}.

(** The object [buf] after that [fread] into it: a short read moves the
    bytes there are and leaves the rest of the object as it was. *)
Definition filled (buf : list Byte.byte) (size : Z) (st : stream)
  : list Byte.byte :=
  transfer size st ++ drop (length (transfer size st)) buf.

(** [fread(dst, size, 1, fh)] into the object [buf].  The number of items
    read, the value of the call, is dropped by every call in mrc.c. *)
Definition fread (dst : buffer) (buf : list Byte.byte) (size : Z)
  : M (list Byte.byte) :=
  emit (Efread dst size) ;;
  f <- gets fh ;;
  match f with
  | None => undef NullStream
  | Some st =>
      if (length buf <? length (transfer size st))%nat then undef OutOfBounds
      else
        modify (set_fh (Some (advance size st))) ;;
        ret (filled buf size st)
  end.

(** [fseek(fh, offset, SEEK_SET)]: fails, leaving the position, on a
    negative offset; the value of the call is dropped. *)
Definition fseek (offset : Z) : M unit :=
  emit (Efseek offset) ;;
  f <- gets fh ;;
  match f with
  | None => undef NullStream
  | Some st =>
      if offset <? 0 then ret tt
      else modify (set_fh (Some {| content := content st; pos := offset |}))
  end.

Definition fclose : M unit :=
  emit Efclose ;;
  f <- gets fh ;;
  match f with
  | None => undef NullStream
  | Some _ => modify (set_fh None)
  end.

(** [malloc(size)]: a block of [size] indeterminate bytes, or NULL. *)
Definition malloc (junk : nat -> Byte.byte) (size : Z)
  : option (list Byte.byte) :=
  if size <=? MALLOC_MAX then Some (junk <$> seq 0 (Z.to_nat size))
  else None.

(** ** Reading a trace *)

(** One call of [image_add]. *)
Record Emitted : Type := {
  em_image : list Z;
  em_width : Z;
  em_height : Z;
  em_tilt : R;
  em_ctx : ControlContext }.

(** The calls of [image_add] in a trace, in order. *)
Fixpoint emitted (t : list event) : list Emitted :=
  match t with
  | [] => []
  | Eimage_add us w h tilt c :: t' =>
      {| em_image := us; em_width := w; em_height := h;
         em_tilt := tilt; em_ctx := c |} :: emitted t'
  | _ :: t' => emitted t'
  end.

(** The index of [ext] an event accesses. *)
Definition ext_index (e : event) : option Z :=
  match e with
  | Efread (Bext i) _ => Some i
  | Eext_load i => Some i
  | _ => None
  end.

(** The indices of [ext] a trace accesses, in order. *)
Definition ext_accesses (t : list event) : list Z := omap ext_index t.

(** Every access to [ext] in the trace is inside the array. *)
Definition ext_in_bounds (t : list event) : Prop :=
  Forall (fun i => 0 <= i < EXT_CAPACITY) (ext_accesses t).

(** The reads from the stream in a trace, in order. *)
Definition reads (t : list event) : list buffer :=
  omap (fun e => match e with Efread dst _ => Some dst | _ => None end) t.

(** [m] keeps the property [I] of the state, however it ends. *)
Definition preserves {A} (I : state -> Prop) (m : M A) : Prop :=
  forall s, I s -> I (snd (m s)).

(** The accesses to [ext] so far are inside the array. *)
Definition ext_safe (s : state) : Prop := ext_in_bounds (trace s).

Section MrcRead.

Variable pf : Platform.

Definition sample16 (b0 b1 : Byte.byte) : Z :=
  to_i16 (if big_endian pf then 256 * byte_val b0 + byte_val b1
          else byte_val b0 + 256 * byte_val b1).

Definition word16 (b0 b1 : Byte.byte) : Z :=
  if big_endian pf then 256 * byte_val b0 + byte_val b1
  else byte_val b0 + 256 * byte_val b1.

(** The samples of a block of bytes read as an array of [int16_t]. *)
Fixpoint samples (bs : list Byte.byte) : list Z :=
  match bs with
  | b0 :: b1 :: bs' => sample16 b0 b1 :: samples bs'
  | _ => []
  end.

(** A block of bytes read as an array of [uint16_t]. *)
Fixpoint words (bs : list Byte.byte) : list Z :=
  match bs with
  | b0 :: b1 :: bs' => word16 b0 b1 :: words bs'
  | _ => []
  end.

(** [mrc] as the structure it is. *)
Definition hdr (s : state) : MRCHeader := decode_MRCHeader pf (mrc s).

(** [fh = fopen(ctx->filename, "rb")] *)
Definition fopen : M unit :=
  path <- gets (fun s => ctx_filename (ctx s)) ;;
  emit (Efopen path) ;;
  modify (fun s =>
    set_fh (match fs s path with
            | Some bs => Some {| content := bs; pos := 0 |}
            | None => None
            end) s).

(** [fread(&mrc, sizeof(MRCHeader), 1, fh)] *)
Definition fread_mrc : M unit :=
  buf <- gets mrc ;;
  buf' <- fread Bmrc buf (Z.of_nat (sizeof_MRCHeader pf)) ;;
  modify (set_mrc buf').

(** The element [ext[i]], when [i] is an index of the array. *)
Definition ext_elem (i : Z) (s : state) : option (list Byte.byte) :=
  if (0 <=? i) && (i <? EXT_CAPACITY) then ext s !! Z.to_nat i else None.

(** [fread(&ext[i], extsize, 1, fh)].  The element [ext[i]] is taken as
    accessed whatever [extsize] is. *)
Definition fread_ext (extsize : Z) (i : Z) : M unit :=
  e <- gets (ext_elem i) ;;
  match e with
  | None => emit (Efread (Bext i) extsize) ;; undef OutOfBounds
  | Some buf =>
      buf' <- fread (Bext i) buf extsize ;;
      modify (fun s => set_ext (<[Z.to_nat i := buf']> (ext s)) s)
  end.

(** [ext[i].field] *)
Definition ext_field (i : Z) (field : MRCExtHeader -> R) : M R :=
  emit (Eext_load i) ;;
  e <- gets (ext_elem i) ;;
  match e with
  | None => undef OutOfBounds
  | Some buf => ret (field (decode_MRCExtHeader pf buf))
  end.

(** [image[k]] *)
Definition image_at (k : Z) : M Z :=
  im <- gets image ;;
  match im with
  | None => undef NullBuffer
  | Some bs =>
      if k <? 0 then undef OutOfBounds
      else match bs !! Z.to_nat (2 * k), bs !! Z.to_nat (2 * k + 1) with
           | Some b0, Some b1 => ret (sample16 b0 b1)
           | _, _ => undef OutOfBounds
           end
  end.

(** [uimage[k] = v] *)
Definition uimage_set (k : Z) (v : Z) : M unit :=
  um <- gets uimage ;;
  match um with
  | None => undef NullBuffer
  | Some us =>
      if (0 <=? k) && (k <? Z.of_nat (length us))
      then modify (set_uimage (Some (<[Z.to_nat k := v]> us)))
      else undef OutOfBounds
  end.

(** The body of the two loops over [x] and [y] (lines 92 to 96). *)
Definition clip_at (x y : Z) : M unit :=
  h <- gets hdr ;;
  let k := to_i32 (x + to_i32 (nx h * y)) in
  s <- image_at k ;;
  if s <? 0 then uimage_set k 0
  else (s' <- image_at k ;; uimage_set k (to_u16 s')).

(** [for (x...) for (y...)] (lines 89 to 99) *)
Definition clip_loops : M unit :=
  h <- gets hdr ;;
  for_ (Z.to_nat (nx h)) 0 (fun x =>
    h <- gets hdr ;;
    for_ (Z.to_nat (ny h)) 0 (fun y => clip_at x y)).

(** [mrc.next + sizeof(MRCHeader) + mrc.nx*mrc.ny*2*i], as the [long]
    that [fseek] receives. *)
Definition plane_offset (h : MRCHeader) (i : Z) : Z :=
  to_i64 (to_u64 (to_u64 (to_u64 (next h) + Z.of_nat (sizeof_MRCHeader pf))
                  + to_u32 (to_u32 (to_i32 (to_i32 (nx h * ny h) * 2)) * i))).

(** [mrc.ny * mrc.nx * sizeof(uint16_t)], a [size_t] *)
Definition plane_alloc (h : MRCHeader) : Z :=
  to_u64 (to_u64 (to_i32 (ny h * nx h)) * 2).

(** [mrc.nx*mrc.ny*2], an [int], as the [size_t] that [fread] receives *)
Definition plane_size (h : MRCHeader) : Z :=
  to_u64 (to_i32 (to_i32 (nx h * ny h) * 2)).

(** [fread(image, mrc.nx*mrc.ny*2, 1, fh)] *)
Definition fread_image : M unit :=
  h <- gets hdr ;;
  im <- gets image ;;
  match im with
  | None => emit (Efread Bimage (plane_size h)) ;; undef NullBuffer
  | Some buf =>
      buf' <- fread Bimage buf (plane_size h) ;;
      modify (set_image (Some buf'))
  end.

(** [image_add(ctx->images, uimage, mrc.nx, mrc.ny, tilt, ctx)] *)
Definition image_add (tilt : R) : M unit :=
  h <- gets hdr ;;
  um <- gets uimage ;;
  c <- gets ctx ;;
  match um with
  | None => undef NullBuffer
  | Some us => emit (Eimage_add us (nx h) (ny h) tilt c)
  end.

(** The choice of [ctx->lambda] for the plane [i] (lines 78 to 82). *)
Definition set_wavelength (i : Z) : M unit :=
  v <- ext_field i voltage ;;
  if Req_dec_T v 0
  then modify (fun s => set_ctx (set_lambda (lambda pf 200000) (ctx s)) s)
  else
    v' <- ext_field i voltage ;;
    modify (fun s => set_ctx (set_lambda (lambda pf (1000 * v')) (ctx s)) s).

(** The body of the loop over the planes (lines 72 to 102). *)
Definition plane_body (i : Z) : M unit :=
  h <- gets hdr ;;
  modify (fun s => set_image (malloc (ind_image (ind s) i) (plane_alloc h)) s) ;;
  modify (fun s =>
    set_uimage (words <$> malloc (ind_uimage (ind s) i) (plane_alloc h)) s) ;;
  _ <- ext_field i a_tilt ;;
  _ <- ext_field i tilt_axis ;;
  _ <- ext_field i magnification ;;
  emit (Eprintf "Image #%3i: tilt=%f deg omega=%f deg L=%f m") ;;
  m <- ext_field i magnification ;;
  modify (fun s => set_ctx (set_camera_length m (ctx s)) s) ;;
  set_wavelength i ;;
  ta <- ext_field i tilt_axis ;;
  modify (fun s => set_ctx (set_omega (deg2rad pf ta) (ctx s)) s) ;;
  ps <- ext_field i pixel_size ;;
  modify (fun s => set_ctx (set_pixel_size ps (ctx s)) s) ;;
  fseek (plane_offset h i) ;;
  fread_image ;;
  clip_loops ;;
  modify (set_image None) ;;
  t <- ext_field i a_tilt ;;
  image_add (deg2rad pf t).

(** [extsize = 4*mrc.numintegers + 4*mrc.numfloats], an [unsigned int] *)
Definition extsize (h : MRCHeader) : Z :=
  to_u32 (to_i32 (to_i32 (4 * numintegers h) + to_i32 (4 * numfloats h))).

(** [int mrc_read(ControlContext *ctx)] *)
Definition mrc_read : M Z :=
  fopen ;;
  fread_mrc ;;
  h <- gets hdr ;;
  emit (Eprintf "%i images in series") ;;
  if negb (mode h =? 1) then
    emit (Efprintf_stderr "MR: Unknown MRC image mode (must be 16-bit signed)") ;;
    fclose ;;
    ret (-1)
  else if negb (nxstart h =? 0) || negb (nystart h =? 0) then
    fclose ;;
    emit (Efprintf_stderr "MR: Image origin must be at zero: found at %i,%i") ;;
    ret (-1)
  else if extsize h >? Z.of_nat (sizeof_MRCExtHeader pf) then
    fclose ;;
    emit (Efprintf_stderr "MR: MRC extended header is too big - tweak mrc.h") ;;
    ret (-1)
  else
    for_ (Z.to_nat (to_u32 (nz h))) 0 (fread_ext (extsize h)) ;;
    _ <- ext_field 0 pixel_size ;;
    emit (Eprintf "pixel_size = %f m^-1") ;;
    modify (fun s => set_ctx (set_fmode FORMULATION_PIXELSIZE (ctx s)) s) ;;
    for_ (Z.to_nat (to_u32 (nz h))) 0 plane_body ;;
    fclose ;;
    ret 0.

(** The state in which [mrc_read] is entered. *)
Definition start (files : string -> option (list Byte.byte))
    (junk : indeterminate) (c : ControlContext) : state :=
  {| fs := files; ind := junk; fh := None;
     mrc := ind_mrc junk <$> seq 0 (sizeof_MRCHeader pf);
     ext := (fun i => ind_ext junk i <$> seq 0 (sizeof_MRCExtHeader pf))
              <$> seq 0 (Z.to_nat EXT_CAPACITY);
     image := None; uimage := None; ctx := c; trace := [] |}.

(** ** What the loops compute *)

(** The state [clip_at x y] ends in when both buffers are there. *)
Definition clip_write (s : state) (x y : Z) : state :=
  match image s, uimage s with
  | Some ib, Some us =>
      let k := Z.to_nat (x + nx (hdr s) * y) in
      set_uimage (Some (<[k := clip16 (samples ib !!! k)]> us)) s
  | _, _ => s
  end.

(** The states of the two loops: the header, the block read and a
    buffer of [n] samples. *)
Definition clip_inv (h : MRCHeader) (ib : list Byte.byte) (n : nat)
    (s : state) : Prop :=
  hdr s = h /\ image s = Some ib /\
  exists us, uimage s = Some us /\ length us = n.

(** The cells the two loops have written when the outer one is at [x]
    and the inner one at [y]. *)
Definition written (w x y : Z) (k : nat) : bool :=
  (Z.of_nat k mod w <? x)
  || ((Z.of_nat k mod w =? x) && (Z.of_nat k / w <? y)).

(** The buffer [uimage] at that point, [us] being what malloc gave. *)
Definition clipped (w x y : Z) (ib : list Byte.byte) (us : list Z) : list Z :=
  imap (fun k u => if written w x y k then clip16 (samples ib !!! k) else u) us.

(** ** The loops as functions of the state *)

(** The state after [fread_ext xs i], when the stream and [ext[i]] are
    there. *)
Definition ext_done (xs : Z) (s : state) (i : Z) : state :=
  match fh s, ext_elem i s with
  | Some st, Some buf =>
      set_ext (<[Z.to_nat i := filled buf xs st]> (ext s))
        (set_fh (Some (advance xs st))
           (set_trace (trace s ++ [Efread (Bext i) xs]) s))
  | _, _ => s
  end.

(** The wavelength chosen for a slice of voltage [v]. *)
Definition slice_lambda (v : R) : R :=
  if Req_dec_T v 0 then lambda pf 200000 else lambda pf (1000 * v).

(** The context after the assignments of one plane. *)
Definition slice_ctx (e : MRCExtHeader) (c : ControlContext) : ControlContext :=
  set_pixel_size (pixel_size e)
    (set_omega (deg2rad pf (tilt_axis e))
       (set_lambda (slice_lambda (voltage e))
          (set_camera_length (magnification e) c))).

(** The stream after [fseek(fh, offset, SEEK_SET)]. *)
Definition sought (offset : Z) (st : stream) : stream :=
  if offset <? 0 then st else {| content := content st; pos := offset |}.

(** The block [image] of the plane [i] after its [fread]. *)
Definition plane_bytes (junk : indeterminate) (h : MRCHeader) (i : Z)
    (st : stream) : list Byte.byte :=
  filled (ind_image junk i <$> seq 0 (Z.to_nat (plane_alloc h)))
         (plane_size h) (sought (plane_offset h i) st).

(** The calls and accesses of one turn of the loop over the planes. *)
Definition plane_events (h : MRCHeader) (e : MRCExtHeader) (i : Z)
    (us : list Z) (c : ControlContext) : list event :=
  [Eext_load i; Eext_load i; Eext_load i;
   Eprintf "Image #%3i: tilt=%f deg omega=%f deg L=%f m";
   Eext_load i; Eext_load i]
  ++ (if Req_dec_T (voltage e) 0 then [] else [Eext_load i])
  ++ [Eext_load i; Eext_load i;
      Efseek (plane_offset h i); Efread Bimage (plane_size h);
      Eext_load i;
      Eimage_add us (nx h) (ny h) (deg2rad pf (a_tilt e)) c].

(** The state after [plane_body i], when the stream and [ext[i]] are
    there. *)
Definition plane_done (s : state) (i : Z) : state :=
  match fh s, ext_elem i s with
  | Some st, Some buf =>
      let h := hdr s in
      let e := decode_MRCExtHeader pf buf in
      let us := clip16 <$> samples (plane_bytes (ind s) h i st) in
      let c := slice_ctx e (ctx s) in
      set_trace (trace s ++ plane_events h e i us c)
        (set_ctx c
           (set_uimage (Some us)
              (set_image None
                 (set_fh (Some (advance (plane_size h)
                                  (sought (plane_offset h i) st))) s))))
  | _, _ => s
  end.

(** The array [ext] as declared: 1024 elements of the size of the
    structure. *)
Definition ext_shaped (s : state) : Prop :=
  length (ext s) = Z.to_nat EXT_CAPACITY /\
  Forall (fun b => length b = sizeof_MRCExtHeader pf) (ext s).

(** The states of the second loop on the file of contents [bytes]: the
    stream is open on it, [mrc] and [ext] are as the loop found them, and
    so are the two fields of the context the loop does not assign. *)
Definition plane_inv (s0 : state) (bytes : list Byte.byte) (s : state) : Prop :=
  mrc s = mrc s0 /\ ext s = ext s0 /\ ind s = ind s0 /\
  ctx_filename (ctx s) = ctx_filename (ctx s0) /\
  ctx_fmode (ctx s) = ctx_fmode (ctx s0) /\
  exists st, fh s = Some st /\ content st = bytes.

(** ** The run as a function of the file *)

(** The object [mrc] once the primary header is read from a file of
    contents [bytes]. *)
Definition header_mem (junk : indeterminate) (bytes : list Byte.byte)
  : list Byte.byte :=
  filled (ind_mrc junk <$> seq 0 (sizeof_MRCHeader pf))
         (Z.of_nat (sizeof_MRCHeader pf)) {| content := bytes; pos := 0 |}.

(** The primary header as [mrc_read] sees it. *)
Definition header (junk : indeterminate) (bytes : list Byte.byte) : MRCHeader :=
  decode_MRCHeader pf (header_mem junk bytes).

(** The state once the file is open and the primary header read. *)
Definition opened (files : string -> option (list Byte.byte))
    (junk : indeterminate) (c : ControlContext) (bytes : list Byte.byte)
  : state :=
  set_mrc (header_mem junk bytes)
    (set_fh (Some (advance (Z.of_nat (sizeof_MRCHeader pf))
                     {| content := bytes; pos := 0 |}))
       (set_trace [Efopen (ctx_filename c);
                   Efread Bmrc (Z.of_nat (sizeof_MRCHeader pf));
                   Eprintf "%i images in series"]
          (start files junk c))).

(** The state at an early return: the stream closed, a message on the
    standard error stream ([close_first] tells which comes first). *)
Definition rejected (close_first : bool) (msg : string) (s : state) : state :=
  set_fh None
    (set_trace (trace s ++ (if close_first
                            then [Efclose; Efprintf_stderr msg]
                            else [Efprintf_stderr msg; Efclose])) s).

(** The state after the first loop, over the extended headers. *)
Definition ext_loaded (s : state) : state :=
  foldl (ext_done (extsize (hdr s))) s (seqZ 0 (to_u32 (nz (hdr s)))).

(** The state between the two loops (lines 66 to 68). *)
Definition calibrated (s : state) : state :=
  set_ctx (set_fmode FORMULATION_PIXELSIZE (ctx s))
    (set_trace (trace s ++ [Eext_load 0; Eprintf "pixel_size = %f m^-1"]) s).

(** The state after the second loop, over the planes. *)
Definition planes_done (s : state) : state :=
  foldl plane_done s (seqZ 0 (to_u32 (nz (hdr s)))).

(** The state at the final return. *)
Definition finished (s : state) : state :=
  set_fh None (set_trace (trace s ++ [Efclose]) s).

(** The state [mrc_read] returns 0 in. *)
Definition decoded (files : string -> option (list Byte.byte))
    (junk : indeterminate) (c : ControlContext) (bytes : list Byte.byte)
  : state :=
  finished (planes_done (calibrated (ext_loaded (opened files junk c bytes)))).

(** The element [ext[i]] after the first loop: what the [i]-th read of
    [xs] bytes after the primary header finds. *)
Definition ext_record (junk : indeterminate) (xs : Z) (bytes : list Byte.byte)
    (i : Z) : list Byte.byte :=
  filled (ind_ext junk (Z.to_nat i) <$> seq 0 (sizeof_MRCExtHeader pf)) xs
         {| content := bytes;
            pos := Z.of_nat (sizeof_MRCHeader pf) + i * xs |}.

(** The call of [image_add] for the plane [i] of the file. *)
Definition plane_of (junk : indeterminate) (c : ControlContext)
    (bytes : list Byte.byte) (i : Z) : Emitted :=
  let h := header junk bytes in
  let e := decode_MRCExtHeader pf (ext_record junk (extsize h) bytes i) in
  {| em_image :=
       clip16 <$> samples (plane_bytes junk h i {| content := bytes; pos := 0 |});
     em_width := nx h;
     em_height := ny h;
     em_tilt := deg2rad pf (a_tilt e);
     em_ctx := slice_ctx e (set_fmode FORMULATION_PIXELSIZE c) |}.

(** The states of the first loop on the file of contents [bytes] once [j]
    records of [xs] bytes are read. *)
Definition ext_inv (junk : indeterminate) (bytes : list Byte.byte)
    (xs : Z) (j : Z) (s : state) : Prop :=
  fh s = Some {| content := bytes;
                 pos := Z.min (Z.of_nat (sizeof_MRCHeader pf) + j * xs)
                              (Z.of_nat (length bytes)) |} /\
  ext_shaped s /\
  emitted (trace s) = [] /\
  (forall i, 0 <= i < j ->
     ext s !! Z.to_nat i = Some (ext_record junk xs bytes i)) /\
  (forall i, j <= i < EXT_CAPACITY ->
     ext s !! Z.to_nat i
     = Some (ind_ext junk (Z.to_nat i) <$> seq 0 (sizeof_MRCExtHeader pf))).

End MrcRead.


(** ** Well-formed files *)

(** The primary headers [mrc_read] goes through: the three checks pass,
    the planes are counted by [ext] and a plane fits a buffer. *)
Definition valid_header (pf : Platform) (h : MRCHeader) : Prop :=
  mode h = 1 /\ nxstart h = 0 /\ nystart h = 0 /\
  extsize h <= Z.of_nat (sizeof_MRCExtHeader pf) /\
  0 <= nz h <= EXT_CAPACITY /\
  0 <= nx h /\ 0 <= ny h /\ 2 * (nx h * ny h) < 2 ^ 31 /\
  0 <= next h < 2 ^ 31 /\ Z.of_nat (sizeof_MRCHeader pf) < 2 ^ 31.

(** The file holds every record its primary header announces. *)
Definition complete (pf : Platform) (h : MRCHeader) (bytes : list Byte.byte)
  : Prop :=
  Z.of_nat (sizeof_MRCHeader pf) + nz h * extsize h <= Z.of_nat (length bytes) /\
  next h + Z.of_nat (sizeof_MRCHeader pf) + 2 * (nx h * ny h) * nz h
    <= Z.of_nat (length bytes) /\
  2 * (nx h * ny h) * nz h < 2 ^ 32.

(** Modelled from the spec: of [lambda] of utils.c, which is not among
    the sources, the spec says that the wavelength decreases
    monotonically as the voltage increases. *)
Definition lambda_decreasing (pf : Platform) : Prop :=
  forall V1 V2 : R, (0 < V1)%R -> (V1 <= V2)%R -> (lambda pf V2 <= lambda pf V1)%R.

(** ** A platform to run the model on *)

Definition byte_of (z : Z) : Byte.byte :=
  match Byte.of_N (Z.to_N (z mod 256)) with
  | Some b => b
  | None => Byte.x00
  end.

Definition byte_at (bs : list Byte.byte) (k : nat) : Z :=
  match bs !! k with
  | Some b => byte_val b
  | None => 0
  end.

(** Four bytes in little-endian order. *)
Definition le_u32 (bs : list Byte.byte) (off : nat) : Z :=
  byte_at bs off + 2 ^ 8 * byte_at bs (off + 1)
  + 2 ^ 16 * byte_at bs (off + 2) + 2 ^ 24 * byte_at bs (off + 3).

Definition le_i32 (bs : list Byte.byte) (off : nat) : Z := to_i32 (le_u32 bs off).

Definition u32_bytes (z : Z) : list Byte.byte :=
  [byte_of z; byte_of (z / 2 ^ 8); byte_of (z / 2 ^ 16); byte_of (z / 2 ^ 24)].

Definition i16_bytes (z : Z) : list Byte.byte :=
  [byte_of z; byte_of (z / 2 ^ 8)].

(** The real number of a finite IEEE 754 binary32 word; the infinities and
    the NaNs, which have none, are sent to 0. *)
Definition binary32 (w : Z) : R :=
  let sign := if Z.testbit w 31 then (-1)%R else 1%R in
  let e := (w / 2 ^ 23) mod 2 ^ 8 in
  let m := w mod 2 ^ 23 in
  if e =? 0 then (sign * IZR m * powerRZ 2 (-149))%R
  else if e =? 255 then 0%R
  else (sign * IZR (2 ^ 23 + m) * powerRZ 2 (e - 150))%R.

Definition le_f32 (bs : list Byte.byte) (off : nat) : R := binary32 (le_u32 bs off).

(** Modelled from the spec: [lambda] of utils.c, which is not among the
    sources.  The spec calls it a fixed electron-wavelength relation of
    the accelerating voltage in volts; the relation taken here is the
    relativistic one, h / sqrt (2 m e V (1 + e V / (2 m c^2))). *)
Definition electron_wavelength (V : R) : R :=
  let m := 9.110e-31%R in
  let h := 6.625e-34%R in
  let e := 1.60e-19%R in
  let c := 2.998e8%R in
  (h / sqrt (2 * m * e * V * (1 + e * V / (2 * m * c * c))))%R.

(** The nine fields of the primary header packed in their order, the
    five fields of the extended header likewise, little-endian. *)
Definition sample_platform : Platform :=
  {| sizeof_MRCHeader := 36;
     decode_MRCHeader bs :=
       {| nx := le_i32 bs 0; ny := le_i32 bs 4; nz := le_i32 bs 8;
          mode := le_i32 bs 12;
          nxstart := le_i32 bs 16; nystart := le_i32 bs 20;
          numintegers := le_i32 bs 24; numfloats := le_i32 bs 28;
          next := le_i32 bs 32 |};
     sizeof_MRCExtHeader := 20;
     decode_MRCExtHeader bs :=
       {| a_tilt := le_f32 bs 0; pixel_size := le_f32 bs 4;
          tilt_axis := le_f32 bs 8; magnification := le_f32 bs 12;
          voltage := le_f32 bs 16 |};
     big_endian := false;
     lambda := electron_wavelength;
     deg2rad := fun d => (d * PI / 180)%R |}.

(** A primary header in that layout. *)
Definition header_bytes (h : MRCHeader) : list Byte.byte :=
  u32_bytes (nx h) ++ u32_bytes (ny h) ++ u32_bytes (nz h)
  ++ u32_bytes (mode h) ++ u32_bytes (nxstart h) ++ u32_bytes (nystart h)
  ++ u32_bytes (numintegers h) ++ u32_bytes (numfloats h)
  ++ u32_bytes (next h).

(** Two planes of 2 by 2 samples; two floats (the tilt angle and the pixel
    size) in each extended header. *)
Definition sample_header : MRCHeader :=
  {| nx := 2; ny := 2; nz := 2; mode := 1; nxstart := 0; nystart := 0;
     numintegers := 0; numfloats := 2; next := 16 |}.

(** What follows the primary header in the sample files: two extended
    headers (tilt 10.0, pixel size 1.0; tilt 20.0, pixel size 1.0), then
    two planes. *)
Definition sample_body : list Byte.byte :=
  u32_bytes 0x41200000 ++ u32_bytes 0x3F800000
  ++ u32_bytes 0x41A00000 ++ u32_bytes 0x3F800000
  ++ i16_bytes 1 ++ i16_bytes (-2) ++ i16_bytes 3 ++ i16_bytes (-4)
  ++ i16_bytes 5 ++ i16_bytes 6 ++ i16_bytes (-7) ++ i16_bytes 8.

Definition file_of (h : MRCHeader) : list Byte.byte :=
  header_bytes h ++ sample_body.

Definition sample_file : list Byte.byte := file_of sample_header.

(** The same file with another mode, origin, size of extended header or
    count of planes. *)
Definition mode2_file : list Byte.byte :=
  file_of {| nx := 2; ny := 2; nz := 2; mode := 2; nxstart := 0; nystart := 0;
             numintegers := 0; numfloats := 2; next := 16 |}.

Definition origin_file : list Byte.byte :=
  file_of {| nx := 2; ny := 2; nz := 2; mode := 1; nxstart := 0; nystart := 5;
             numintegers := 0; numfloats := 2; next := 16 |}.

Definition bigext_file : list Byte.byte :=
  file_of {| nx := 2; ny := 2; nz := 2; mode := 1; nxstart := 0; nystart := 0;
             numintegers := 3; numfloats := 3; next := 48 |}.

Definition crowded_file : list Byte.byte :=
  file_of {| nx := 2; ny := 2; nz := 1025; mode := 1; nxstart := 0; nystart := 0;
             numintegers := 0; numfloats := 2; next := 8200 |}.

(** The same file without its last byte. *)
Definition truncated_file : list Byte.byte := take 67 sample_file.


(** Indeterminate bytes: all bits set. *)
Definition sample_junk : indeterminate :=
  {| ind_mrc := fun _ => Byte.xff; ind_ext := fun _ _ => Byte.xff;
     ind_image := fun _ _ => Byte.xff; ind_uimage := fun _ _ => Byte.xff |}.

Definition sample_ctx : ControlContext :=
  {| ctx_filename := "scan.mrc"; ctx_fmode := FORMULATION_other 0;
     ctx_camera_length := 0; ctx_lambda := 0; ctx_omega := 0;
     ctx_pixel_size := 0 |}.

(** A file system with the one file [bytes] under the name of the sample
    context. *)
Definition only (bytes : list Byte.byte) (path : string)
  : option (list Byte.byte) :=
  if String.eqb path "scan.mrc" then Some bytes else None.

(** A file system without any file. *)
Definition no_file (path : string) : option (list Byte.byte) := None.

(** A state of the second loop, the first plane of the sample file read
    into [image]. *)
Definition sample_block : list Byte.byte :=
  i16_bytes 1 ++ i16_bytes (-2) ++ i16_bytes 3 ++ i16_bytes (-4).


(** An extended header in the layout of the sample platform whose voltage
    is the binary32 word [w], and a state with it in [ext[0]]. *)
Definition voltage_record (w : Z) : list Byte.byte :=
  u32_bytes 0 ++ u32_bytes 0 ++ u32_bytes 0 ++ u32_bytes 0 ++ u32_bytes w.

Definition voltage_state (w : Z) : state :=
  set_ext [voltage_record w]
    (start sample_platform (only sample_file) sample_junk sample_ctx).

(** ** Reading a trace: the calls on the stream *)

(** The calls of stdio on the stream in a trace, in order. *)
Definition io_calls (t : list event) : list event :=
  omap (fun e => match e with
                 | Efopen _ | Efread _ _ | Efseek _ | Efclose => Some e
                 | _ => None
                 end) t.

Section MrcReadTraces.

Variable pf : Platform.

(** The events of the turn [i] of the second loop on the file of contents
    [bytes]. *)
Definition plane_trace (junk : indeterminate) (c : ControlContext)
    (bytes : list Byte.byte) (i : Z) : list event :=
  let h := header pf junk bytes in
  let p := plane_of pf junk c bytes i in
  plane_events pf h
    (decode_MRCExtHeader pf (ext_record pf junk (extsize h) bytes i))
    i (em_image p) (em_ctx p).

(** The context after [n] turns of the second loop. *)
Definition ctx_after (junk : indeterminate) (c : ControlContext)
    (bytes : list Byte.byte) (n : Z) : ControlContext :=
  if n <=? 0 then set_fmode FORMULATION_PIXELSIZE c
  else em_ctx (plane_of pf junk c bytes (n - 1)).

End MrcReadTraces.

(** ** More sample files *)

(** The sample file with a negative count of integers, a negative width,
    and a negative width and height. *)
Definition negext_file : list Byte.byte :=
  file_of {| nx := 2; ny := 2; nz := 2; mode := 1; nxstart := 0; nystart := 0;
             numintegers := -1; numfloats := 0; next := 16 |}.

Definition negwidth_file : list Byte.byte :=
  file_of {| nx := -2; ny := 2; nz := 2; mode := 1; nxstart := 0; nystart := 0;
             numintegers := 0; numfloats := 2; next := 16 |}.

Definition negboth_file : list Byte.byte :=
  file_of {| nx := -2; ny := -2; nz := 2; mode := 1; nxstart := 0; nystart := 0;
             numintegers := 0; numfloats := 2; next := 16 |}.

(** The sample file with a negative offset of the pixel data. *)
Definition seekless_file : list Byte.byte :=
  file_of {| nx := 2; ny := 2; nz := 2; mode := 1; nxstart := 0; nystart := 0;
             numintegers := 0; numfloats := 2; next := -100 |}.

(** ** Headers [mrc_read] goes through *)

(** The primary headers on which [mrc_read] reaches its last line: the
    three checks pass, the planes are counted by [ext], the dimensions
    are not negative and a plane fits a buffer.  Nothing is asked of
    [next]. *)
Definition checked_header (pf : Platform) (h : MRCHeader) : Prop :=
  mode h = 1 /\ nxstart h = 0 /\ nystart h = 0 /\
  extsize h <= Z.of_nat (sizeof_MRCExtHeader pf) /\
  0 <= nz h <= EXT_CAPACITY /\
  0 <= nx h /\ 0 <= ny h /\ 2 * (nx h * ny h) < 2 ^ 31.

(** The call of [image_add] [p] has the shape of the plane [i] of the
    file: the dimensions of the header, as many samples, and the tilt
    angle of the extended header of the same index. *)
Definition plane_shaped (pf : Platform) (junk : indeterminate)
    (bytes : list Byte.byte) (i : Z) (p : Emitted) : Prop :=
  let h := header pf junk bytes in
  em_width p = nx h /\ em_height p = ny h /\
  Z.of_nat (length (em_image p)) = nx h * ny h /\
  em_tilt p
  = deg2rad pf (a_tilt (decode_MRCExtHeader pf
                          (ext_record pf junk (extsize h) bytes i))).

(** A file of 1025 planes of 2 by 2 samples that holds all it announces:
    the primary header, 1025 extended headers of two floats, 1025
    planes. *)
Definition overfull_file : list Byte.byte :=
  header_bytes {| nx := 2; ny := 2; nz := 1025; mode := 1; nxstart := 0;
                  nystart := 0; numintegers := 0; numfloats := 2;
                  next := 8200 |}
  ++ concat (replicate 1025 (u32_bytes 0x41200000 ++ u32_bytes 0x3F800000))
  ++ concat (replicate 1025 sample_block).

(** The sample file with a count of integers of 2^30: the size of an
    extended header is 2^32 + 8 bytes. *)
Definition wrapext_file : list Byte.byte :=
  file_of {| nx := 2; ny := 2; nz := 2; mode := 1; nxstart := 0; nystart := 0;
             numintegers := 2 ^ 30; numfloats := 2; next := 16 |}.
(** * Properties *)

(** ** Machine integers *)

Lemma to_i32_id z : is_i32 z -> to_i32 z = z.
Proof.
  unfold is_i32, to_i32. intros H.
  rewrite Z.mod_small by lia. lia.
Qed.

Lemma to_u32_id z : 0 <= z < 2 ^ 32 -> to_u32 z = z.
Proof. unfold to_u32. intros H. now apply Z.mod_small. Qed.

Lemma to_u64_id z : 0 <= z < 2 ^ 64 -> to_u64 z = z.
Proof. unfold to_u64. intros H. now apply Z.mod_small. Qed.

Lemma to_i64_id z : - 2 ^ 63 <= z < 2 ^ 63 -> to_i64 z = z.
Proof.
  unfold to_i64. intros H. rewrite Z.mod_small by lia. lia.
Qed.

Lemma to_u16_id z : is_u16 z -> to_u16 z = z.
Proof. unfold is_u16, to_u16. intros H. now apply Z.mod_small. Qed.

Lemma to_i16_range z : is_i16 (to_i16 z).
Proof.
  unfold is_i16, to_i16.
  pose proof (Z.mod_pos_bound (z + 2 ^ 15) (2 ^ 16) ltac:(lia)). lia.
Qed.

Lemma to_u32_range z : 0 <= to_u32 z < 2 ^ 32.
Proof. unfold to_u32. apply Z.mod_pos_bound. lia. Qed.

Lemma to_u32_of_i32 z :
  is_i32 z -> to_u32 z = if z <? 0 then z + 2 ^ 32 else z.
Proof.
  unfold is_i32, to_u32. intros H. destruct (Z.ltb_spec z 0).
  - symmetry. apply (Z.mod_unique_pos _ _ (-1)); lia.
  - apply Z.mod_small. lia.
Qed.

(** ** The clipping of one sample *)

Lemma clip16_max s : is_i16 s -> clip16 s = Z.max s 0.
Proof.
  unfold clip16, is_i16. intros H. destruct (Z.ltb_spec s 0).
  - lia.
  - rewrite to_u16_id by (unfold is_u16; lia). lia.
Qed.


(** ** The monad *)

Lemma bind_ok {A B} (c : M A) (k : A -> M B) s a s' :
  c s = (Ok a, s') -> bind c k s = k a s'.
Proof. unfold bind. now intros ->. Qed.

Lemma bind_ub {A B} (c : M A) (k : A -> M B) s u s' :
  c s = (Ub u, s') -> bind c k s = (Ub u, s').
Proof. unfold bind. now intros ->. Qed.

(** The rule of the counted loop: an invariant indexed by the counter. *)
Lemma for_inv (I : Z -> state -> Prop) body n :
  forall i s,
    (forall j s', i <= j < i + Z.of_nat n -> I j s' ->
                  exists s'', body j s' = (Ok tt, s'') /\ I (j + 1) s'') ->
    I i s ->
    exists s', for_ n i body s = (Ok tt, s') /\ I (i + Z.of_nat n) s'.
Proof.
  induction n as [|n IH]; intros i s Hbody HI.
  - exists s. replace (i + Z.of_nat 0) with i by lia. now split.
  - destruct (Hbody i s ltac:(lia) HI) as (s1 & Hstep & HI1).
    destruct (IH (i + 1) s1) as (s2 & Hrest & HI2); [|assumption|].
    { intros j s' Hj. apply Hbody. lia. }
    exists s2. split.
    + change (for_ (S n) i body) with (body i ;; for_ n (i + 1) body).
      now rewrite (bind_ok _ _ _ _ _ Hstep).
    + now replace (i + Z.of_nat (S n)) with (i + 1 + Z.of_nat n) by lia.
Qed.

Section MrcReadFacts.

Variable pf : Platform.

(** ** Buffers of samples *)

Lemma samples_lookup (bs : list Byte.byte) (k : nat) b0 b1 :
  bs !! (2 * k)%nat = Some b0 -> bs !! (2 * k + 1)%nat = Some b1 ->
  samples pf bs !! k = Some (sample16 pf b0 b1).
Proof.
  revert bs. induction k as [|k IH]; intros bs H0 H1.
  - destruct bs as [|c0 [|c1 bs]]; simpl in *; congruence.
  - destruct bs as [|c0 [|c1 bs]]; try discriminate.
    replace (2 * S k)%nat with (S (S (2 * k))) in H0 by lia.
    replace (2 * S k + 1)%nat with (S (S (2 * k + 1))) in H1 by lia.
    simpl in H0, H1. simpl samples. simpl. apply IH; assumption.
Qed.

Lemma length_samples (n : nat) :
  forall bs : list Byte.byte, length bs = (2 * n)%nat -> length (samples pf bs) = n.
Proof.
  induction n as [|n IH]; intros bs H.
  - destruct bs; [reflexivity | discriminate].
  - destruct bs as [|c0 [|c1 bs]]; simpl in H; try lia.
    simpl. f_equal. apply IH. lia.
Qed.

Lemma length_words (n : nat) :
  forall bs : list Byte.byte, length bs = (2 * n)%nat -> length (words pf bs) = n.
Proof.
  induction n as [|n IH]; intros bs H.
  - destruct bs; [reflexivity | discriminate].
  - destruct bs as [|c0 [|c1 bs]]; simpl in H; try lia.
    simpl. f_equal. apply IH. lia.
Qed.

Lemma samples_in_range (bs : list Byte.byte) (k : nat) v :
  samples pf bs !! k = Some v -> is_i16 v.
Proof.
  revert bs. induction k as [|k IH]; intros bs H;
    destruct bs as [|c0 [|c1 bs]]; try discriminate; simpl in H.
  - injection H as <-. apply to_i16_range.
  - eapply IH, H.
Qed.

(** ** The two loops over a plane *)

Lemma set_uimage_same s v : uimage s = v -> set_uimage v s = s.
Proof. destruct s. simpl. now intros ->. Qed.


Lemma clip_at_ok h ib n s x y :
  length ib = (2 * n)%nat -> Z.of_nat n = nx h * ny h -> nx h * ny h < 2 ^ 31 ->
  0 <= x < nx h -> 0 <= y < ny h ->
  clip_inv pf h ib n s ->
  clip_at pf x y s = (Ok tt, clip_write pf s x y)
  /\ clip_inv pf h ib n (clip_write pf s x y).
Proof.
  intros Hib Hn Hsmall Hx Hy (Hh & Him & us & Hum & Hus).
  assert (Hk : 0 <= x + nx h * y < nx h * ny h) by nia.
  assert (Hy' : 0 <= nx h * y < 2 ^ 31) by nia.
  set (k := Z.to_nat (x + nx h * y)).
  assert (Hkn : (k < n)%nat) by lia.
  destruct (lookup_lt_is_Some_2 ib (2 * k)%nat ltac:(lia)) as [b0 Hb0].
  destruct (lookup_lt_is_Some_2 ib (2 * k + 1)%nat ltac:(lia)) as [b1 Hb1].
  pose proof (samples_lookup _ _ _ _ Hb0 Hb1) as Hs.
  unfold clip_write. rewrite Him, Hum, Hh. fold k.
  rewrite list_lookup_total_alt, Hs. simpl default.
  split.
  - unfold clip_at, bind, gets, image_at, uimage_set. rewrite Hh.
    rewrite (to_i32_id (nx h * y)) by (unfold is_i32; lia).
    rewrite to_i32_id by (unfold is_i32; lia).
    unfold bind, gets. rewrite Him.
    destruct (Z.ltb_spec (x + nx h * y) 0); [lia|].
    replace (Z.to_nat (2 * (x + nx h * y))) with (2 * k)%nat by lia.
    replace (Z.to_nat (2 * (x + nx h * y) + 1)) with (2 * k + 1)%nat by lia.
    rewrite Hb0, Hb1. unfold ret, clip16.
    destruct (sample16 pf b0 b1 <? 0).
    + rewrite Hum.
      destruct (Z.leb_spec 0 (x + nx h * y)); [|lia].
      destruct (Z.ltb_spec (x + nx h * y) (Z.of_nat (length us))); [|lia].
      reflexivity.
    + rewrite Him.
      destruct (Z.ltb_spec (x + nx h * y) 0); [lia|].
      rewrite Hb0, Hb1, Hum.
      destruct (Z.leb_spec 0 (x + nx h * y)); [|lia].
      destruct (Z.ltb_spec (x + nx h * y) (Z.of_nat (length us))); [|lia].
      reflexivity.
  - split; [assumption|]. split; [assumption|].
    eexists. split; [reflexivity|]. now rewrite length_insert.
Qed.


Lemma clipped_step w ny' x y ib (us0 : list Z) :
  0 <= x < w -> 0 <= y < ny' -> Z.of_nat (length us0) = w * ny' ->
  <[Z.to_nat (x + w * y) :=
      clip16 (samples pf ib !!! Z.to_nat (x + w * y))]> (clipped pf w x y ib us0)
  = clipped pf w x (y + 1) ib us0.
Proof.
  intros Hx Hy Hlen. apply list_eq. intros k.
  unfold clipped. rewrite list_lookup_insert, length_imap, !list_lookup_imap.
  destruct (decide _) as [[<- Hlt]|Hne].
  - destruct (lookup_lt_is_Some_2 us0 _ Hlt) as [u ->]. simpl.
    unfold written. rewrite Z2Nat.id by nia.
    replace ((x + w * y) mod w) with x
      by (apply (Z.mod_unique_pos _ _ y); lia).
    replace ((x + w * y) / w) with y
      by (apply (Z.div_unique_pos _ _ _ x); lia).
    rewrite Z.eqb_refl. destruct (Z.ltb_spec y (y + 1)); [|lia].
    simpl. now rewrite orb_true_r.
  - destruct (us0 !! k) as [u|] eqn:Hu; [|reflexivity]. simpl. f_equal.
    assert (Hk : (k < length us0)%nat) by (apply lookup_lt_is_Some; eauto).
    assert (Hw : written w x y k = written w x (y + 1) k); [|now rewrite Hw].
    unfold written. f_equal.
    destruct (Z.eqb_spec (Z.of_nat k mod w) x) as [Hm|]; [|reflexivity].
    simpl.
    destruct (Z.ltb_spec (Z.of_nat k / w) y), (Z.ltb_spec (Z.of_nat k / w) (y + 1));
      try reflexivity; try lia.
    exfalso. apply Hne.
    assert (Hq : Z.of_nat k / w = y) by lia.
    pose proof (Z.div_mod (Z.of_nat k) w ltac:(lia)) as Hdm.
    rewrite Hq, Hm in Hdm.
    split; [lia | rewrite ?length_imap; lia].
Qed.

Lemma clipped_next_column w ny' x ib (us0 : list Z) :
  0 <= x < w -> Z.of_nat (length us0) = w * ny' ->
  clipped pf w x ny' ib us0 = clipped pf w (x + 1) 0 ib us0.
Proof.
  intros Hx Hlen. apply list_eq. intros k.
  unfold clipped. rewrite !list_lookup_imap.
  destruct (us0 !! k) as [u|] eqn:Hu; [|reflexivity]. simpl. f_equal.
  assert (Hk : (k < length us0)%nat) by (apply lookup_lt_is_Some; eauto).
  assert (Hw : written w x ny' k = written w (x + 1) 0 k); [|now rewrite Hw].
  unfold written.
  pose proof (Z.mod_pos_bound (Z.of_nat k) w ltac:(lia)).
  assert (0 <= Z.of_nat k / w < ny').
  { split; [apply Z.div_pos; lia|]. apply Z.div_lt_upper_bound; lia. }
  destruct (Z.ltb_spec (Z.of_nat k mod w) x), (Z.ltb_spec (Z.of_nat k mod w) (x + 1)),
    (Z.eqb_spec (Z.of_nat k mod w) x), (Z.eqb_spec (Z.of_nat k mod w) (x + 1)),
    (Z.ltb_spec (Z.of_nat k / w) ny'), (Z.ltb_spec (Z.of_nat k / w) 0);
    simpl; try reflexivity; lia.
Qed.

Lemma written_start w k : 0 <= w -> written w 0 0 k = false.
Proof.
  intros Hw. unfold written.
  assert (0 <= Z.of_nat k mod w).
  { destruct (Z.eq_dec w 0) as [->|].
    - rewrite Z.mod_0_r. lia.
    - apply Z.mod_pos_bound. lia. }
  assert (0 <= Z.of_nat k / w).
  { destruct (Z.eq_dec w 0) as [->|].
    - now rewrite Z.div_0_r.
    - apply Z.div_pos; lia. }
  destruct (Z.ltb_spec (Z.of_nat k mod w) 0); [lia|].
  destruct (Z.ltb_spec (Z.of_nat k / w) 0); [lia|].
  now rewrite andb_false_r.
Qed.

Lemma clipped_start w ib (us0 : list Z) :
  0 <= w -> clipped pf w 0 0 ib us0 = us0.
Proof.
  intros Hw. apply list_eq. intros k. unfold clipped.
  rewrite list_lookup_imap.
  destruct (us0 !! k) as [u|]; [|reflexivity]. simpl.
  now rewrite written_start.
Qed.

Lemma clipped_end w ny' ib (us0 : list Z) :
  0 <= w -> Z.of_nat (length us0) = w * ny' ->
  length (samples pf ib) = length us0 ->
  clipped pf w w 0 ib us0 = clip16 <$> samples pf ib.
Proof.
  intros Hw Hlen Hsm. apply list_eq. intros k. unfold clipped.
  rewrite list_lookup_imap, list_lookup_fmap.
  destruct (us0 !! k) as [u|] eqn:Hu.
  - assert (Hk : (k < length us0)%nat) by (apply lookup_lt_is_Some; eauto).
    destruct (lookup_lt_is_Some_2 (samples pf ib) k ltac:(lia)) as [v Hv].
    rewrite list_lookup_total_alt, Hv. simpl. f_equal.
    assert (Hwk : 0 < w) by (destruct (Z.eq_dec w 0) as [->|]; lia).
    unfold written.
    pose proof (Z.mod_pos_bound (Z.of_nat k) w Hwk).
    destruct (Z.ltb_spec (Z.of_nat k mod w) w); [reflexivity | lia].
  - apply lookup_ge_None in Hu.
    rewrite (proj2 (lookup_ge_None _ _)) by lia. reflexivity.
Qed.

(** The inner loop, over [y], for the column [x]. *)
Lemma clip_column_ok h ib us0 s x :
  hdr pf s = h -> image s = Some ib ->
  uimage s = Some (clipped pf (nx h) x 0 ib us0) ->
  length ib = (2 * length us0)%nat ->
  Z.of_nat (length us0) = nx h * ny h -> nx h * ny h < 2 ^ 31 ->
  0 <= x < nx h -> 0 <= ny h ->
  for_ (Z.to_nat (ny h)) 0 (clip_at pf x) s
  = (Ok tt, set_uimage (Some (clipped pf (nx h) (x + 1) 0 ib us0)) s).
Proof.
  intros Hh Him Hum Hib Hn Hsmall Hx Hny.
  destruct (for_inv
    (fun y s' => s' = set_uimage (Some (clipped pf (nx h) x y ib us0)) s)
    (clip_at pf x) (Z.to_nat (ny h)) 0 s) as (s' & Hrun & Hs').
  - intros y s1 Hy ->.
    destruct (clip_at_ok h ib (length us0) (set_uimage (Some (clipped pf (nx h) x y ib us0)) s) x y)
      as [Hstep _]; try assumption; try lia.
    { unfold clip_inv. split; [exact Hh|]. split; [exact Him|].
      eexists. split; [reflexivity|].
      unfold clipped. apply length_imap. }
    eexists. split; [exact Hstep|].
    unfold clip_write. simpl image. simpl uimage. rewrite Him.
    change (hdr pf (set_uimage _ s)) with (hdr pf s). rewrite Hh.
    rewrite (clipped_step (nx h) (ny h)) by (try assumption; lia).
    reflexivity.
  - symmetry. now apply set_uimage_same.
  - rewrite Hrun. f_equal. rewrite Hs'. rewrite Z2Nat.id by assumption.
    simpl. rewrite (clipped_next_column (nx h) (ny h)) by assumption.
    reflexivity.
Qed.

(** The two loops clip the whole plane. *)
Lemma clip_loops_ok h ib us0 s :
  hdr pf s = h -> image s = Some ib -> uimage s = Some us0 ->
  length ib = (2 * length us0)%nat ->
  Z.of_nat (length us0) = nx h * ny h -> nx h * ny h < 2 ^ 31 ->
  0 <= nx h -> 0 <= ny h ->
  clip_loops pf s = (Ok tt, set_uimage (Some (clip16 <$> samples pf ib)) s).
Proof.
  intros Hh Him Hum Hib Hn Hsmall Hnx Hny.
  unfold clip_loops. unfold bind at 1. unfold gets at 1. rewrite Hh.
  destruct (for_inv
    (fun x s' => s' = set_uimage (Some (clipped pf (nx h) x 0 ib us0)) s)
    (fun x => h0 <- gets (hdr pf) ;; for_ (Z.to_nat (ny h0)) 0 (fun y => clip_at pf x y))
    (Z.to_nat (nx h)) 0 s) as (s' & Hrun & Hs').
  - intros x s1 Hx ->. eexists. split.
    + unfold bind at 1. unfold gets at 1.
      change (hdr pf (set_uimage _ s)) with (hdr pf s). rewrite Hh.
      apply (clip_column_ok h ib us0); try assumption; try reflexivity; lia.
    + reflexivity.
  - rewrite clipped_start by assumption. symmetry. now apply set_uimage_same.
  - rewrite Hrun, Hs'. rewrite Z2Nat.id by assumption. simpl.
    rewrite (clipped_end (nx h) (ny h)); try assumption; [reflexivity|].
    apply length_samples. assumption.
Qed.

End MrcReadFacts.

(** ** The calls, one by one *)

Ltac norm_state :=
  cbn [fs ind fh mrc ext image uimage ctx trace
       set_fh set_mrc set_ext set_image set_uimage set_ctx set_trace].

Section MrcReadSteps.

Variable pf : Platform.

Lemma length_transfer size st : (length (transfer size st) <= Z.to_nat size)%nat.
Proof. unfold transfer. rewrite length_take. lia. Qed.

Lemma length_filled buf size st :
  (length (transfer size st) <= length buf)%nat ->
  length (filled buf size st) = length buf.
Proof.
  intros H. unfold filled. rewrite length_app, length_drop. lia.
Qed.

Lemma fread_ok dst buf size s st :
  fh s = Some st -> (Z.to_nat size <= length buf)%nat ->
  fread dst buf size s
  = (Ok (filled buf size st),
     set_fh (Some (advance size st))
       (set_trace (trace s ++ [Efread dst size]) s)).
Proof.
  intros Hfh Hsize. unfold fread, bind, emit, modify, gets, ret.
  simpl. rewrite Hfh.
  pose proof (length_transfer size st).
  destruct (Nat.ltb_spec (length buf) (length (transfer size st))); [lia|].
  reflexivity.
Qed.

Lemma fread_null dst buf size s :
  fh s = None ->
  fread dst buf size s
  = (Ub NullStream, set_trace (trace s ++ [Efread dst size]) s).
Proof.
  intros Hfh. unfold fread, bind, emit, modify, gets, undef.
  simpl. now rewrite Hfh.
Qed.

Lemma fseek_ok offset s st :
  fh s = Some st ->
  fseek offset s
  = (Ok tt, set_fh (Some (sought offset st))
              (set_trace (trace s ++ [Efseek offset]) s)).
Proof.
  intros Hfh. unfold fseek, sought, bind, emit, modify, gets, ret.
  simpl. rewrite Hfh. destruct (offset <? 0); [|reflexivity].
  rewrite <- Hfh. destruct s; reflexivity.
Qed.

Lemma fclose_ok s st :
  fh s = Some st ->
  fclose s = (Ok tt, set_fh None (set_trace (trace s ++ [Efclose]) s)).
Proof.
  intros Hfh. unfold fclose, bind, emit, modify, gets. simpl.
  now rewrite Hfh.
Qed.

Lemma ext_field_ok i field s buf :
  ext_elem i s = Some buf ->
  ext_field pf i field s
  = (Ok (field (decode_MRCExtHeader pf buf)),
     set_trace (trace s ++ [Eext_load i]) s).
Proof.
  intros He. unfold ext_field, bind, emit, modify, gets, ret.
  change (ext_elem i (set_trace _ s)) with (ext_elem i s).
  now rewrite He.
Qed.

Lemma ext_field_out i field s :
  ext_elem i s = None ->
  ext_field pf i field s
  = (Ub OutOfBounds, set_trace (trace s ++ [Eext_load i]) s).
Proof.
  intros He. unfold ext_field, bind, emit, modify, gets, undef.
  change (ext_elem i (set_trace _ s)) with (ext_elem i s).
  now rewrite He.
Qed.

Lemma fread_ext_ok xs i s st buf :
  fh s = Some st -> ext_elem i s = Some buf ->
  (Z.to_nat xs <= length buf)%nat ->
  fread_ext xs i s = (Ok tt, ext_done xs s i).
Proof.
  intros Hfh He Hxs. unfold fread_ext, ext_done.
  unfold bind at 1. unfold gets at 1. rewrite He, Hfh.
  rewrite (bind_ok _ _ _ _ _ (fread_ok _ _ _ _ _ Hfh Hxs)).
  reflexivity.
Qed.

Lemma fread_ext_out xs i s :
  ext_elem i s = None ->
  fread_ext xs i s
  = (Ub OutOfBounds, set_trace (trace s ++ [Efread (Bext i) xs]) s).
Proof.
  intros He. unfold fread_ext.
  unfold bind at 1. unfold gets at 1. now rewrite He.
Qed.

Lemma set_wavelength_ok i s buf :
  ext_elem i s = Some buf ->
  set_wavelength pf i s
  = (Ok tt,
     set_ctx (set_lambda (slice_lambda pf (voltage (decode_MRCExtHeader pf buf)))
                (ctx s))
       (set_trace
          (trace s ++ [Eext_load i]
           ++ (if Req_dec_T (voltage (decode_MRCExtHeader pf buf)) 0
               then [] else [Eext_load i])) s)).
Proof.
  intros He. unfold set_wavelength, slice_lambda.
  rewrite (bind_ok _ _ _ _ _ (ext_field_ok _ _ _ _ He)).
  destruct (Req_dec_T _ 0).
  - unfold modify. reflexivity.
  - erewrite bind_ok; [|apply ext_field_ok; exact He].
    unfold modify. simpl trace. rewrite <- app_assoc. reflexivity.
Qed.

Lemma plane_sizes h :
  0 <= nx h -> 0 <= ny h -> 2 * (nx h * ny h) < 2 ^ 31 ->
  plane_alloc h = 2 * (nx h * ny h) /\ plane_size h = 2 * (nx h * ny h).
Proof.
  intros Hx Hy Hsmall. unfold plane_alloc, plane_size.
  assert (0 <= nx h * ny h) by nia.
  replace (ny h * nx h) with (nx h * ny h) by lia.
  rewrite (to_i32_id (nx h * ny h)) by (unfold is_i32; lia).
  rewrite (to_i32_id (nx h * ny h * 2)) by (unfold is_i32; lia).
  rewrite (to_u64_id (nx h * ny h)) by lia.
  rewrite !to_u64_id by lia. lia.
Qed.

Lemma malloc_ok junk size :
  0 <= size <= MALLOC_MAX ->
  malloc junk size = Some (junk <$> seq 0 (Z.to_nat size)).
Proof.
  intros H. unfold malloc. destruct (Z.leb_spec size MALLOC_MAX); [reflexivity|lia].
Qed.

(** One turn of the loop over the planes. *)
Lemma plane_body_ok h i s st buf :
  hdr pf s = h -> fh s = Some st -> ext_elem i s = Some buf ->
  0 <= nx h -> 0 <= ny h -> 2 * (nx h * ny h) < 2 ^ 31 ->
  plane_body pf i s = (Ok tt, plane_done pf s i).
Proof.
  intros Hh Hfh He Hx Hy Hsmall.
  destruct (plane_sizes h Hx Hy Hsmall) as [Halloc Hsize].
  assert (Hp : 0 <= nx h * ny h) by nia.
  unfold plane_body, plane_done. rewrite Hfh, He.
  unfold bind at 1. unfold gets at 1. rewrite Hh.
  unfold bind at 1. unfold modify at 1.
  unfold bind at 1. unfold modify at 1.
  rewrite !malloc_ok by (rewrite Halloc; unfold MALLOC_MAX; lia).
  norm_state.
  do 3 (erewrite bind_ok; [|apply ext_field_ok; exact He]; norm_state).
  unfold bind at 1. unfold emit at 1. unfold modify at 1. norm_state.
  erewrite bind_ok; [|apply ext_field_ok; exact He]. norm_state.
  unfold bind at 1. unfold modify at 1. norm_state.
  erewrite bind_ok; [|apply set_wavelength_ok; exact He]. norm_state.
  erewrite bind_ok; [|apply ext_field_ok; exact He]. norm_state.
  unfold bind at 1. unfold modify at 1. norm_state.
  erewrite bind_ok; [|apply ext_field_ok; exact He]. norm_state.
  unfold bind at 1. unfold modify at 1. norm_state.
  erewrite bind_ok; [|apply fseek_ok; exact Hfh]. norm_state.
  erewrite bind_ok.
  2:{ unfold fread_image. unfold bind at 1. unfold gets at 1.
      change (hdr pf _) with (hdr pf s). rewrite Hh.
      unfold bind at 1. unfold gets at 1. norm_state.
      erewrite bind_ok.
      2:{ apply fread_ok; [reflexivity|].
          rewrite length_fmap, length_seq, Halloc, Hsize. lia. }
      reflexivity. }
  norm_state.
  erewrite bind_ok.
  2:{ eapply (clip_loops_ok pf h);
        [exact Hh | reflexivity | reflexivity | | | lia | assumption | assumption].
      - rewrite length_filled.
        + rewrite length_fmap, length_seq.
          rewrite (length_words pf (Z.to_nat (nx h * ny h)))
            by (rewrite length_fmap, length_seq, Halloc; lia).
          rewrite Halloc. lia.
        + pose proof (length_transfer (plane_size h)
                        (sought (plane_offset pf h i) st)).
          rewrite length_fmap, length_seq, Halloc. rewrite Hsize in *. lia.
      - rewrite (length_words pf (Z.to_nat (nx h * ny h)))
          by (rewrite length_fmap, length_seq, Halloc; lia).
        lia. }
  norm_state.
  unfold bind at 1. unfold modify at 1. norm_state.
  erewrite bind_ok; [|apply ext_field_ok; exact He]. norm_state.
  unfold image_add, bind, gets, emit, modify. norm_state.
  unfold hdr. norm_state. fold (hdr pf s). rewrite Hh.
  unfold plane_events, plane_bytes, slice_ctx.
  rewrite <- !app_assoc. reflexivity.
Qed.

End MrcReadSteps.

(** ** The run *)

Section MrcReadRun.

Variable pf : Platform.

Lemma for_app (body : Z -> M unit) n m :
  forall i s,
    for_ (n + m) i body s
    = (for_ n i body ;; for_ m (i + Z.of_nat n) body) s.
Proof.
  induction n as [|n IH]; intros i s.
  - simpl. unfold bind, ret. now replace (i + Z.of_nat 0) with i by lia.
  - change (for_ (S n + m) i body) with (body i ;; for_ (n + m) (i + 1) body).
    change (for_ (S n) i body) with (body i ;; for_ n (i + 1) body).
    unfold bind.
    destruct (body i s) as [[[]|u] s1]; [|reflexivity].
    rewrite IH. unfold bind.
    now replace (i + 1 + Z.of_nat n) with (i + Z.of_nat (S n)) by lia.
Qed.

(** What the first loop leaves alone. *)
Lemma ext_done_frame xs s i :
  mrc (ext_done xs s i) = mrc s /\ ctx (ext_done xs s i) = ctx s /\
  ind (ext_done xs s i) = ind s /\ fs (ext_done xs s i) = fs s /\
  image (ext_done xs s i) = image s /\
  uimage (ext_done xs s i) = uimage s.
Proof.
  unfold ext_done. destruct (fh s), (ext_elem i s); repeat split.
Qed.

Lemma ext_elem_in s i :
  ext_shaped pf s -> 0 <= i < EXT_CAPACITY ->
  exists buf, ext_elem i s = Some buf /\ length buf = sizeof_MRCExtHeader pf.
Proof.
  intros [Hlen Hall] Hi. unfold ext_elem.
  destruct (Z.leb_spec 0 i); [|lia]. destruct (Z.ltb_spec i EXT_CAPACITY); [|lia].
  simpl. destruct (lookup_lt_is_Some_2 (ext s) (Z.to_nat i) ltac:(lia)) as [buf Hb].
  exists buf. split; [assumption|].
  rewrite Forall_lookup in Hall. eapply Hall, Hb.
Qed.

Lemma ext_elem_out s i : EXT_CAPACITY <= i -> ext_elem i s = None.
Proof.
  intros Hi. unfold ext_elem.
  destruct (Z.ltb_spec i EXT_CAPACITY); [lia|]. now rewrite andb_false_r.
Qed.

Lemma ext_done_shaped xs s i st :
  fh s = Some st -> ext_shaped pf s -> 0 <= i < EXT_CAPACITY ->
  xs <= Z.of_nat (sizeof_MRCExtHeader pf) ->
  ext_shaped pf (ext_done xs s i)
  /\ fh (ext_done xs s i) = Some (advance xs st).
Proof.
  intros Hfh Hsh Hi Hxs.
  destruct (ext_elem_in s i Hsh Hi) as (buf & He & Hlen).
  unfold ext_done. rewrite Hfh, He. split; [|reflexivity].
  destruct Hsh as [Hl Hall]. split; norm_state.
  - now rewrite length_insert.
  - apply Forall_insert; [assumption|].
    rewrite length_filled; [assumption|].
    pose proof (length_transfer xs st). lia.
Qed.

(** The first loop, while the counter stays inside the array. *)
Lemma ext_loop_ok xs n s st :
  fh s = Some st -> ext_shaped pf s ->
  Z.of_nat n <= EXT_CAPACITY -> xs <= Z.of_nat (sizeof_MRCExtHeader pf) ->
  for_ n 0 (fread_ext xs) s
  = (Ok tt, foldl (ext_done xs) s (seqZ 0 (Z.of_nat n)))
  /\ ext_shaped pf (foldl (ext_done xs) s (seqZ 0 (Z.of_nat n)))
  /\ exists st', fh (foldl (ext_done xs) s (seqZ 0 (Z.of_nat n))) = Some st'
                 /\ content st' = content st.
Proof.
  intros Hfh Hsh Hn Hxs.
  destruct (for_inv
    (fun j s' => s' = foldl (ext_done xs) s (seqZ 0 j) /\ ext_shaped pf s'
                 /\ exists st', fh s' = Some st' /\ content st' = content st)
    (fread_ext xs) n 0 s) as (s' & Hrun & Hs' & Hsh' & Hfh').
  - intros j s1 Hj (Hs1 & Hsh1 & st1 & Hfh1 & Hc1).
    destruct (ext_elem_in s1 j Hsh1 ltac:(lia)) as (buf & He & Hlen).
    destruct (ext_done_shaped xs s1 j st1 Hfh1 Hsh1 ltac:(lia) Hxs) as [Hsh2 Hfh2].
    exists (ext_done xs s1 j). split; [|split; [|split]].
    + eapply fread_ext_ok; eauto. lia.
    + rewrite seqZ_app by lia. rewrite foldl_app. simpl. now rewrite <- Hs1.
    + assumption.
    + eexists. split; [exact Hfh2|]. exact Hc1.
  - split; [reflexivity|]. split; [assumption|]. eauto.
  - rewrite Hrun. simpl in Hs'. subst s'. auto.
Qed.


(** What the second loop leaves alone. *)
Lemma plane_done_frame s i :
  mrc (plane_done pf s i) = mrc s /\ ext (plane_done pf s i) = ext s /\
  ind (plane_done pf s i) = ind s /\ fs (plane_done pf s i) = fs s.
Proof.
  unfold plane_done. destruct (fh s), (ext_elem i s); repeat split.
Qed.

Lemma plane_done_fh s i st buf :
  fh s = Some st -> ext_elem i s = Some buf ->
  fh (plane_done pf s i)
  = Some (advance (plane_size (hdr pf s))
            (sought (plane_offset pf (hdr pf s) i) st)).
Proof. intros Hfh He. unfold plane_done. now rewrite Hfh, He. Qed.

Lemma content_sought offset st : content (sought offset st) = content st.
Proof. unfold sought. now destruct (offset <? 0). Qed.

Lemma plane_inv_step s0 bytes s i :
  ext_shaped pf s0 -> 0 <= i < EXT_CAPACITY ->
  plane_inv s0 bytes s -> plane_inv s0 bytes (plane_done pf s i).
Proof.
  intros Hsh Hi (Hm & He & Hi' & Hf & Hfm & st & Hfh & Hc).
  destruct (plane_done_frame s i) as (Hm1 & He1 & Hi1 & _).
  assert (Hsh' : ext_shaped pf s) by (unfold ext_shaped; now rewrite He).
  destruct (ext_elem_in s i Hsh' Hi) as (buf & Hb & _).
  split; [congruence|]. split; [congruence|]. split; [congruence|].
  split; [|split].
  - unfold plane_done. now rewrite Hfh, Hb.
  - unfold plane_done. now rewrite Hfh, Hb.
  - eexists. split; [eapply plane_done_fh; eauto|].
    simpl. now rewrite content_sought.
Qed.

(** The second loop, while the counter stays inside the array. *)
Lemma plane_loop_ok n s bytes :
  ext_shaped pf s -> plane_inv s bytes s -> Z.of_nat n <= EXT_CAPACITY ->
  0 <= nx (hdr pf s) -> 0 <= ny (hdr pf s) ->
  2 * (nx (hdr pf s) * ny (hdr pf s)) < 2 ^ 31 ->
  for_ n 0 (plane_body pf) s
  = (Ok tt, foldl (plane_done pf) s (seqZ 0 (Z.of_nat n)))
  /\ plane_inv s bytes (foldl (plane_done pf) s (seqZ 0 (Z.of_nat n))).
Proof.
  intros Hsh Hinv Hn Hx Hy Hsmall.
  destruct (for_inv
    (fun j s' => s' = foldl (plane_done pf) s (seqZ 0 j) /\ plane_inv s bytes s')
    (plane_body pf) n 0 s) as (s' & Hrun & Hs' & Hinv').
  - intros j s1 Hj (Hs1 & Hinv1).
    pose proof Hinv1 as (Hm & He & Hi & _ & _ & st & Hfh & Hc).
    assert (Hsh1 : ext_shaped pf s1) by (unfold ext_shaped; now rewrite He).
    destruct (ext_elem_in s1 j Hsh1 ltac:(lia)) as (buf & Hb & _).
    assert (Hh : hdr pf s1 = hdr pf s) by (unfold hdr; now rewrite Hm).
    exists (plane_done pf s1 j). split; [|split].
    + eapply plane_body_ok; eauto; rewrite Hh; assumption.
    + rewrite seqZ_app by lia. rewrite foldl_app. simpl. now rewrite <- Hs1.
    + apply plane_inv_step; [assumption | lia | assumption].
  - split; [reflexivity | assumption].
  - rewrite Hrun. simpl in Hs'. subst s'. auto.
Qed.

(** The file is opened and the primary header read. *)
Lemma prefix_ok {A} (k : M A) files junk c bytes :
  files (ctx_filename c) = Some bytes ->
  (fopen ;; fread_mrc pf ;; k) (start pf files junk c)
  = k (set_mrc (header_mem pf junk bytes)
         (set_fh (Some (advance (Z.of_nat (sizeof_MRCHeader pf))
                          {| content := bytes; pos := 0 |}))
            (set_trace [Efopen (ctx_filename c);
                        Efread Bmrc (Z.of_nat (sizeof_MRCHeader pf))]
               (start pf files junk c)))).
Proof.
  intros Hfile.
  unfold fopen, bind at 1 2 3. unfold gets at 1, emit at 1, modify at 1 2.
  norm_state. change (ctx (start pf files junk c)) with c.
  change (fs (start pf files junk c)) with files. rewrite Hfile.
  unfold fread_mrc. unfold bind at 1 2 3. unfold gets at 1.
  erewrite fread_ok; [|reflexivity|].
  2:{ norm_state. simpl mrc. rewrite length_fmap, length_seq. lia. }
  unfold modify. reflexivity.
Qed.

(** The file cannot be opened. *)
Lemma prefix_null {A} (k : M A) files junk c :
  files (ctx_filename c) = None ->
  (fopen ;; fread_mrc pf ;; k) (start pf files junk c)
  = (Ub NullStream,
     set_trace [Efopen (ctx_filename c);
                Efread Bmrc (Z.of_nat (sizeof_MRCHeader pf))]
       (start pf files junk c)).
Proof.
  intros Hfile.
  unfold fopen, bind at 1 2 3. unfold gets at 1, emit at 1, modify at 1 2.
  norm_state. change (ctx (start pf files junk c)) with c.
  change (fs (start pf files junk c)) with files. rewrite Hfile.
  unfold fread_mrc. unfold bind at 1 2 3. unfold gets at 1.
  erewrite fread_null; [|reflexivity]. reflexivity.
Qed.

End MrcReadRun.

(** ** The outcomes of [mrc_read] *)

Section MrcReadOutcomes.

Variable pf : Platform.
Variable files : string -> option (list Byte.byte).
Variable junk : indeterminate.
Variable c : ControlContext.
Variable bytes : list Byte.byte.
Hypothesis Hfile : files (ctx_filename c) = Some bytes.

Let h := header pf junk bytes.
Let s1 := opened pf files junk c bytes.

Lemma opened_hdr : hdr pf s1 = h.
Proof. reflexivity. Qed.

Lemma opened_shaped : ext_shaped pf s1.
Proof.
  split; unfold s1, opened, start; norm_state.
  - now rewrite length_fmap, length_seq.
  - apply Forall_fmap, Forall_forall. intros i _. simpl.
    now rewrite length_fmap, length_seq.
Qed.

(** The first check fails. *)
Lemma run_rejected_mode :
  mode h <> 1 ->
  mrc_read pf (start pf files junk c)
  = (Ok (-1),
     rejected false "MR: Unknown MRC image mode (must be 16-bit signed)" s1).
Proof.
  intros Hmode. unfold mrc_read. rewrite (prefix_ok pf _ _ _ _ _ Hfile).
  unfold bind at 1. unfold gets at 1. fold h.
  change (hdr pf _) with h.
  unfold bind at 1. unfold emit at 1, modify at 1. norm_state.
  destruct (Z.eqb_spec (mode h) 1) as [|_]; [contradiction|]. cbn [negb].
  unfold bind at 1. unfold emit at 1, modify at 1. norm_state.
  erewrite bind_ok; [|eapply fclose_ok; reflexivity].
  unfold ret, rejected. norm_state. simpl. reflexivity.
Qed.

(** The second check fails. *)
Lemma run_rejected_origin :
  mode h = 1 -> nxstart h <> 0 \/ nystart h <> 0 ->
  mrc_read pf (start pf files junk c)
  = (Ok (-1),
     rejected true "MR: Image origin must be at zero: found at %i,%i" s1).
Proof.
  intros Hmode Horigin. unfold mrc_read. rewrite (prefix_ok pf _ _ _ _ _ Hfile).
  unfold bind at 1. unfold gets at 1.
  change (hdr pf _) with h.
  unfold bind at 1. unfold emit at 1, modify at 1. norm_state.
  rewrite Hmode. cbn [negb Z.eqb Pos.eqb].
  assert (Hb : negb (nxstart h =? 0) || negb (nystart h =? 0) = true).
  { destruct (Z.eqb_spec (nxstart h) 0), (Z.eqb_spec (nystart h) 0);
      simpl; try reflexivity. tauto. }
  rewrite Hb.
  erewrite bind_ok; [|eapply fclose_ok; reflexivity].
  unfold bind, emit, modify, ret, rejected. norm_state.
  rewrite <- ?app_assoc. reflexivity.
Qed.

(** The third check fails. *)
Lemma run_rejected_size :
  mode h = 1 -> nxstart h = 0 -> nystart h = 0 ->
  extsize h > Z.of_nat (sizeof_MRCExtHeader pf) ->
  mrc_read pf (start pf files junk c)
  = (Ok (-1),
     rejected true "MR: MRC extended header is too big - tweak mrc.h" s1).
Proof.
  intros Hmode Hx Hy Hsize. unfold mrc_read.
  rewrite (prefix_ok pf _ _ _ _ _ Hfile).
  unfold bind at 1. unfold gets at 1.
  change (hdr pf _) with h.
  unfold bind at 1. unfold emit at 1, modify at 1. norm_state.
  rewrite Hmode, Hx, Hy. cbn [negb orb Z.eqb Pos.eqb].
  destruct (Z.gtb_spec (extsize h) (Z.of_nat (sizeof_MRCExtHeader pf))); [|lia].
  erewrite bind_ok; [|eapply fclose_ok; reflexivity].
  unfold bind, emit, modify, ret, rejected. norm_state.
  rewrite <- ?app_assoc. reflexivity.
Qed.


Lemma ext_loop_frame xs l :
  forall s, mrc (foldl (ext_done xs) s l) = mrc s
            /\ ctx (foldl (ext_done xs) s l) = ctx s
            /\ ind (foldl (ext_done xs) s l) = ind s.
Proof.
  induction l as [|i l IH]; intros s; [now repeat split|].
  simpl. destruct (IH (ext_done xs s i)) as (-> & -> & ->).
  destruct (ext_done_frame xs s i) as (-> & -> & -> & _). now repeat split.
Qed.

Lemma ext_loaded_hdr : hdr pf (ext_loaded pf s1) = h.
Proof.
  destruct (ext_loop_frame (extsize (hdr pf s1)) (seqZ 0 (to_u32 (nz (hdr pf s1)))) s1)
    as (Hm & _).
  unfold hdr at 1. unfold ext_loaded. now rewrite Hm.
Qed.

(** The three checks pass and the counters stay inside [ext]. *)
Lemma run_decoded :
  mode h = 1 -> nxstart h = 0 -> nystart h = 0 ->
  extsize h <= Z.of_nat (sizeof_MRCExtHeader pf) ->
  to_u32 (nz h) <= EXT_CAPACITY ->
  0 <= nx h -> 0 <= ny h -> 2 * (nx h * ny h) < 2 ^ 31 ->
  mrc_read pf (start pf files junk c) = (Ok 0, decoded pf files junk c bytes).
Proof.
  intros Hmode Hxs Hys Hsize Hnz Hnx Hny Hsmall. unfold mrc_read.
  rewrite (prefix_ok pf _ _ _ _ _ Hfile).
  unfold bind at 1. unfold gets at 1.
  change (hdr pf _) with h.
  unfold bind at 1. unfold emit at 1, modify at 1. norm_state.
  rewrite Hmode, Hxs, Hys. cbn [negb orb Z.eqb Pos.eqb].
  destruct (Z.gtb_spec (extsize h) (Z.of_nat (sizeof_MRCExtHeader pf))); [lia|].
  pose proof (to_u32_range (nz h)) as Hu.
  change (set_trace _ _) with s1.
  destruct (ext_loop_ok pf (extsize h) (Z.to_nat (to_u32 (nz h))) s1
              (advance (Z.of_nat (sizeof_MRCHeader pf)) {| content := bytes; pos := 0 |}))
    as (Hext & Hsh & st2 & Hfh2 & Hc2);
    [reflexivity | apply opened_shaped | lia | lia |].
  rewrite Z2Nat.id in * by lia.
  rewrite (bind_ok _ _ _ _ _ Hext).
  fold (ext_loaded pf s1) in *. change (foldl _ s1 _) with (ext_loaded pf s1) in *.
  set (s2 := ext_loaded pf s1) in *.
  destruct (ext_elem_in pf s2 0 Hsh ltac:(unfold EXT_CAPACITY; lia)) as (buf0 & He0 & _).
  erewrite bind_ok; [|apply ext_field_ok; exact He0].
  unfold bind at 1. unfold emit at 1, modify at 1. norm_state.
  unfold bind at 1. unfold modify at 1. norm_state.
  rewrite <- app_assoc. simpl app.
  change (set_ctx _ _) with (calibrated s2).
  set (s3 := calibrated s2).
  assert (Hh3 : hdr pf s3 = h) by apply ext_loaded_hdr.
  destruct (plane_loop_ok pf (Z.to_nat (to_u32 (nz h))) s3 bytes) as (Hpl & Hinv);
    [exact Hsh | | lia | rewrite Hh3; assumption ..|].
  { repeat split. exists st2. split; [exact Hfh2|exact Hc2]. }
  rewrite Z2Nat.id in * by lia.
  rewrite (bind_ok _ _ _ _ _ Hpl).
  destruct Hinv as (_ & _ & _ & _ & _ & st4 & Hfh4 & _).
  erewrite bind_ok; [|eapply fclose_ok; exact Hfh4].
  unfold ret, decoded, finished, planes_done.
  change (calibrated (ext_loaded pf (opened pf files junk c bytes))) with s3.
  rewrite Hh3. reflexivity.
Qed.

End MrcReadOutcomes.

(** ** Streams and traces *)

Lemma emitted_app t1 t2 : emitted (t1 ++ t2) = emitted t1 ++ emitted t2.
Proof.
  induction t1 as [|e t1 IH]; [reflexivity|].
  destruct e; simpl; now rewrite IH.
Qed.

Lemma drop_clamped (bytes : list Byte.byte) a :
  0 <= a ->
  drop (Z.to_nat (Z.min a (Z.of_nat (length bytes)))) bytes
  = drop (Z.to_nat a) bytes.
Proof.
  intros Ha. destruct (Z.le_gt_cases a (Z.of_nat (length bytes))).
  - now rewrite Z.min_l.
  - rewrite Z.min_r by lia. rewrite !drop_ge by lia. reflexivity.
Qed.

Lemma transfer_clamped size bytes a :
  0 <= a ->
  transfer size {| content := bytes; pos := Z.min a (Z.of_nat (length bytes)) |}
  = transfer size {| content := bytes; pos := a |}.
Proof. intros Ha. unfold transfer. simpl. now rewrite drop_clamped. Qed.

Lemma advance_clamped size bytes a :
  0 <= a -> 0 <= size ->
  advance size {| content := bytes; pos := Z.min a (Z.of_nat (length bytes)) |}
  = {| content := bytes; pos := Z.min (a + size) (Z.of_nat (length bytes)) |}.
Proof.
  intros Ha Hs. unfold advance. rewrite transfer_clamped by assumption.
  simpl. f_equal. unfold transfer. simpl.
  rewrite length_take, length_drop. lia.
Qed.

Lemma filled_clamped buf size bytes a :
  0 <= a ->
  filled buf size {| content := bytes; pos := Z.min a (Z.of_nat (length bytes)) |}
  = filled buf size {| content := bytes; pos := a |}.
Proof. intros Ha. unfold filled. now rewrite transfer_clamped. Qed.

(** A read that the file covers moves no indeterminate byte. *)
Lemma filled_complete buf size bytes a :
  0 <= a -> 0 <= size -> a + size <= Z.of_nat (length bytes) ->
  filled buf size {| content := bytes; pos := a |}
  = take (Z.to_nat size) (drop (Z.to_nat a) bytes) ++ drop (Z.to_nat size) buf.
Proof.
  intros Ha Hs Hlen. unfold filled, transfer. simpl.
  rewrite length_take, length_drop. do 2 f_equal. lia.
Qed.

Lemma sought_at offset st :
  0 <= offset -> sought offset st = {| content := content st; pos := offset |}.
Proof. intros H. unfold sought. destruct (Z.ltb_spec offset 0); [lia|reflexivity]. Qed.


(** ** What the two loops read *)

Section MrcReadContents.

Variable pf : Platform.
Variable junk : indeterminate.
Variable bytes : list Byte.byte.

Let len := Z.of_nat (length bytes).
Let hsize := Z.of_nat (sizeof_MRCHeader pf).

Lemma ext_inv_step xs j s :
  0 <= xs <= Z.of_nat (sizeof_MRCExtHeader pf) -> 0 <= j < EXT_CAPACITY ->
  ext_inv pf junk bytes xs j s -> ext_inv pf junk bytes xs (j + 1) (ext_done xs s j).
Proof.
  intros Hxs Hj (Hfh & Hsh & Hem & Hlo & Hhi).
  destruct (ext_done_shaped pf xs s j _ Hfh Hsh Hj ltac:(lia)) as [Hsh' Hfh'].
  assert (He : ext_elem j s
               = Some (ind_ext junk (Z.to_nat j) <$> seq 0 (sizeof_MRCExtHeader pf))).
  { unfold ext_elem. destruct (Z.leb_spec 0 j); [|lia].
    destruct (Z.ltb_spec j EXT_CAPACITY); [|lia]. simpl. apply Hhi. lia. }
  assert (Hlenj : (Z.to_nat j < length (ext s))%nat) by (destruct Hsh as [-> _]; lia).
  split; [|split; [|split; [|split]]].
  - rewrite Hfh'. rewrite advance_clamped by (unfold hsize; lia).
    do 2 f_equal. lia.
  - assumption.
  - unfold ext_done. rewrite Hfh, He. norm_state.
    rewrite emitted_app, Hem. reflexivity.
  - intros i Hi. unfold ext_done. rewrite Hfh, He. norm_state.
    destruct (Z.eq_dec i j) as [->|Hne].
    + rewrite list_lookup_insert_eq by assumption. f_equal.
      unfold ext_record. apply filled_clamped. unfold hsize. lia.
    + rewrite list_lookup_insert_ne by lia. apply Hlo. lia.
  - intros i Hi. unfold ext_done. rewrite Hfh, He. norm_state.
    rewrite list_lookup_insert_ne by lia. apply Hhi. lia.
Qed.

Lemma ext_inv_loop xs (n : nat) s :
  0 <= xs <= Z.of_nat (sizeof_MRCExtHeader pf) -> Z.of_nat n <= EXT_CAPACITY ->
  ext_inv pf junk bytes xs 0 s -> ext_inv pf junk bytes xs (Z.of_nat n) (foldl (ext_done xs) s (seqZ 0 (Z.of_nat n))).
Proof.
  intros Hxs. induction n as [|n IH]; intros Hn H0; [exact H0|].
  rewrite seqZ_S, foldl_app. simpl foldl.
  replace (Z.of_nat (S n)) with (Z.of_nat n + 1) by lia.
  apply ext_inv_step; [assumption | lia |]. apply IH; [lia | assumption].
Qed.

Lemma opened_ext_inv files c xs :
  ext_inv pf junk bytes xs 0 (opened pf files junk c bytes).
Proof.
  split; [|split; [|split; [|split]]].
  - unfold opened. norm_state. f_equal.
    replace 0 with (Z.min 0 (Z.of_nat (length bytes))) at 1 by lia.
    rewrite advance_clamped by lia. f_equal. unfold hsize, len. lia.
  - apply opened_shaped.
  - reflexivity.
  - intros i Hi. lia.
  - intros i Hi. unfold opened, start. norm_state.
    rewrite list_lookup_fmap, lookup_seq_lt by (unfold EXT_CAPACITY in *; lia).
    reflexivity.
Qed.


Lemma emitted_plane_events h e i us c :
  emitted (plane_events pf h e i us c)
  = [{| em_image := us; em_width := nx h; em_height := ny h;
        em_tilt := deg2rad pf (a_tilt e); em_ctx := c |}].
Proof. unfold plane_events. now destruct (Req_dec_T (voltage e) 0). Qed.

Lemma slice_ctx_same e c1 c2 :
  ctx_filename c1 = ctx_filename c2 -> ctx_fmode c1 = ctx_fmode c2 ->
  slice_ctx pf e c1 = slice_ctx pf e c2.
Proof.
  intros Hf Hm. unfold slice_ctx, set_pixel_size, set_omega, set_lambda,
    set_camera_length. simpl. now rewrite Hf, Hm.
Qed.

Variable files : string -> option (list Byte.byte).
Variable c : ControlContext.

Let h := header pf junk bytes.
Let s3 := calibrated (ext_loaded pf (opened pf files junk c bytes)).

Hypothesis Hxs : extsize h <= Z.of_nat (sizeof_MRCExtHeader pf).
Hypothesis Hnz : to_u32 (nz h) <= EXT_CAPACITY.

Lemma extsize_nonneg : 0 <= extsize h.
Proof. unfold extsize. apply to_u32_range. Qed.

Lemma calibrated_facts :
  hdr pf s3 = h /\ ext_shaped pf s3 /\ plane_inv s3 bytes s3 /\
  ind s3 = junk /\ ctx s3 = set_fmode FORMULATION_PIXELSIZE c /\
  emitted (trace s3) = [] /\
  (forall i, 0 <= i < to_u32 (nz h) ->
     ext_elem i s3 = Some (ext_record pf junk (extsize h) bytes i)).
Proof.
  pose proof (to_u32_range (nz h)) as Hu.
  pose proof extsize_nonneg as Hx0.
  pose proof (ext_inv_loop (extsize h) (Z.to_nat (to_u32 (nz h)))
                (opened pf files junk c bytes) ltac:(lia) ltac:(lia)
                (opened_ext_inv files c (extsize h)))
    as (Hfh & Hsh & Hem & Hlo & _).
  rewrite Z2Nat.id in * by lia.
  change (foldl _ _ _) with (ext_loaded pf (opened pf files junk c bytes)) in *.
  destruct (ext_loop_frame (extsize h) (seqZ 0 (to_u32 (nz h)))
              (opened pf files junk c bytes)) as (Hm & Hc & Hi).
  change (foldl _ _ _) with (ext_loaded pf (opened pf files junk c bytes)) in *.
  split; [apply ext_loaded_hdr|]. split; [exact Hsh|]. split.
  { repeat split. eexists. split; [exact Hfh|reflexivity]. }
  split; [exact Hi|]. split.
  { unfold s3, calibrated. norm_state. now rewrite Hc. }
  split.
  { unfold s3, calibrated. norm_state. rewrite emitted_app, Hem. reflexivity. }
  intros i Hi'. unfold ext_elem.
  destruct (Z.leb_spec 0 i); [|lia]. destruct (Z.ltb_spec i EXT_CAPACITY); [|lia].
  simpl. apply Hlo. lia.
Qed.

Hypothesis Hoff : forall i, 0 <= i < to_u32 (nz h) -> 0 <= plane_offset pf h i.

Lemma plane_step_emitted s j :
  0 <= j < to_u32 (nz h) -> plane_inv s3 bytes s ->
  emitted (trace (plane_done pf s j))
  = emitted (trace s) ++ [plane_of pf junk c bytes j].
Proof.
  intros Hj (Hm & He & Hi & Hf & Hfm & st & Hfh & Hc).
  destruct calibrated_facts as (Hh3 & _ & _ & Hi3 & Hc3 & _ & Hlo).
  assert (Hb : ext_elem j s = Some (ext_record pf junk (extsize h) bytes j)).
  { rewrite <- (Hlo j Hj). unfold ext_elem. now rewrite He. }
  assert (Hh : hdr pf s = h) by (rewrite <- Hh3; unfold hdr; now rewrite Hm).
  unfold plane_done. rewrite Hfh, Hb, Hh. norm_state.
  rewrite emitted_app, emitted_plane_events. do 2 f_equal.
  unfold plane_of. fold h. f_equal.
  - rewrite Hi, Hi3. unfold plane_bytes.
    rewrite !sought_at by (apply Hoff; assumption). simpl content.
    now rewrite Hc.
  - apply slice_ctx_same; rewrite <- Hc3; assumption.
Qed.

Lemma plane_loop_emitted (n : nat) :
  Z.of_nat n <= to_u32 (nz h) ->
  emitted (trace (foldl (plane_done pf) s3 (seqZ 0 (Z.of_nat n))))
  = plane_of pf junk c bytes <$> seqZ 0 (Z.of_nat n)
  /\ plane_inv s3 bytes (foldl (plane_done pf) s3 (seqZ 0 (Z.of_nat n))).
Proof.
  destruct calibrated_facts as (_ & Hsh & Hinv & _ & _ & Hem & _).
  induction n as [|n IH]; intros Hn.
  - simpl. split; assumption.
  - destruct IH as [IHe IHi]; [lia|].
    rewrite seqZ_S, foldl_app, fmap_app. simpl foldl. split.
    + rewrite plane_step_emitted by (assumption || lia). rewrite IHe.
      reflexivity.
    + apply plane_inv_step; [assumption | lia | assumption].
Qed.

(** The calls of [image_add] of a run that returns 0. *)
Lemma decoded_emitted :
  emitted (trace (decoded pf files junk c bytes))
  = plane_of pf junk c bytes <$> seqZ 0 (to_u32 (nz h)).
Proof.
  pose proof (to_u32_range (nz h)) as Hu.
  destruct calibrated_facts as (Hh3 & _).
  destruct (plane_loop_emitted (Z.to_nat (to_u32 (nz h))) ltac:(lia)) as [He _].
  rewrite Z2Nat.id in He by lia.
  unfold decoded, finished, planes_done. norm_state.
  fold s3. rewrite Hh3, emitted_app, He. simpl. now rewrite app_nil_r.
Qed.

End MrcReadContents.

(** ** Well-formed files *)

Section MrcReadFiles.

Variable pf : Platform.

Lemma plane_offset_nonneg h i :
  0 <= next h < 2 ^ 31 -> Z.of_nat (sizeof_MRCHeader pf) < 2 ^ 31 ->
  0 <= plane_offset pf h i.
Proof.
  intros Hnext Hsize. unfold plane_offset.
  pose proof (to_u32_range (to_u32 (to_i32 (to_i32 (nx h * ny h) * 2)) * i)).
  rewrite (to_u64_id (next h)) by lia.
  rewrite (to_u64_id (next h + _)) by lia.
  rewrite to_u64_id by lia. rewrite to_i64_id by lia. lia.
Qed.

Lemma plane_offset_exact h i :
  0 <= next h < 2 ^ 31 -> Z.of_nat (sizeof_MRCHeader pf) < 2 ^ 31 ->
  0 <= nx h -> 0 <= ny h -> 2 * (nx h * ny h) < 2 ^ 31 ->
  0 <= i -> 2 * (nx h * ny h) * i < 2 ^ 32 ->
  plane_offset pf h i
  = next h + Z.of_nat (sizeof_MRCHeader pf) + 2 * (nx h * ny h) * i.
Proof.
  intros Hnext Hsize Hx Hy Hsmall Hi Hfit. unfold plane_offset.
  assert (0 <= nx h * ny h) by nia.
  assert (0 <= 2 * (nx h * ny h) * i) by nia.
  rewrite (to_i32_id (nx h * ny h)) by (unfold is_i32; lia).
  rewrite (to_i32_id (nx h * ny h * 2)) by (unfold is_i32; lia).
  rewrite (to_u32_id (nx h * ny h * 2)) by lia.
  rewrite (to_u32_id (nx h * ny h * 2 * i)) by lia.
  rewrite (to_u64_id (next h)) by lia.
  rewrite (to_u64_id (next h + _)) by lia.
  rewrite to_u64_id by lia. rewrite to_i64_id by lia. lia.
Qed.

Lemma valid_header_u32 h :
  valid_header pf h -> to_u32 (nz h) = nz h.
Proof.
  intros (_ & _ & _ & _ & Hnz & _). apply to_u32_id.
  unfold EXT_CAPACITY in Hnz. lia.
Qed.


(** The image of a plane that the file holds whole: the samples of the
    file, clipped. *)
Lemma plane_of_complete junk c bytes i :
  let h := header pf junk bytes in
  valid_header pf h -> complete pf h bytes -> 0 <= i < nz h ->
  em_image (plane_of pf junk c bytes i)
  = clip16 <$> samples pf
      (take (Z.to_nat (2 * (nx h * ny h)))
         (drop (Z.to_nat (next h + Z.of_nat (sizeof_MRCHeader pf)
                          + 2 * (nx h * ny h) * i)) bytes)).
Proof.
  intros h (_ & _ & _ & _ & Hnz & Hx & Hy & Hsmall & Hnext & Hsize)
    (_ & Hplanes & Hfit) Hi.
  destruct (plane_sizes h Hx Hy Hsmall) as [Halloc Hps].
  assert (0 <= nx h * ny h) by nia.
  assert (2 * (nx h * ny h) * (i + 1) <= 2 * (nx h * ny h) * nz h) by nia.
  unfold plane_of. simpl em_image. fold h. f_equal. f_equal.
  unfold plane_bytes. rewrite sought_at by (apply plane_offset_nonneg; lia).
  simpl content.
  rewrite plane_offset_exact by (try assumption; try lia; nia).
  rewrite filled_complete by (rewrite ?Hps; nia).
  rewrite Hps, Halloc.
  rewrite (drop_ge (_ <$> _)) by (rewrite length_fmap, length_seq; lia).
  apply app_nil_r.
Qed.

(** The extended header of a plane that the file holds whole. *)
Lemma ext_record_complete junk bytes xs i :
  0 <= i -> 0 <= xs ->
  Z.of_nat (sizeof_MRCHeader pf) + (i + 1) * xs <= Z.of_nat (length bytes) ->
  ext_record pf junk xs bytes i
  = take (Z.to_nat xs) (drop (Z.to_nat (Z.of_nat (sizeof_MRCHeader pf) + i * xs)) bytes)
    ++ drop (Z.to_nat xs) (ind_ext junk (Z.to_nat i) <$> seq 0 (sizeof_MRCExtHeader pf)).
Proof.
  intros Hi Hxs Hlen. unfold ext_record. apply filled_complete; nia.
Qed.

(** A run on a well-formed header, whatever the length of the file. *)
Lemma run_valid files junk c bytes :
  let h := header pf junk bytes in
  files (ctx_filename c) = Some bytes -> valid_header pf h ->
  mrc_read pf (start pf files junk c) = (Ok 0, decoded pf files junk c bytes)
  /\ emitted (trace (decoded pf files junk c bytes))
     = plane_of pf junk c bytes <$> seqZ 0 (nz h).
Proof.
  intros h Hfile Hv. pose proof (valid_header_u32 h Hv) as Hu.
  destruct Hv as (Hmode & Hxs & Hys & Hext & Hnz & Hx & Hy & Hsmall & Hnext & Hsz).
  split.
  - apply run_decoded; try assumption. fold h. rewrite Hu. lia.
  - rewrite decoded_emitted.
    + fold h. now rewrite Hu.
    + assumption.
    + fold h. rewrite Hu. lia.
    + intros i _. now apply plane_offset_nonneg.
Qed.

End MrcReadFiles.

(** ** Invariants of the trace *)

Lemma preserves_ret {A} I (a : A) : preserves I (ret a).
Proof. intros s H. exact H. Qed.

Lemma preserves_gets {A} I (f : state -> A) : preserves I (gets f).
Proof. intros s H. exact H. Qed.

Lemma preserves_undef {A} I u : preserves I (@undef A u).
Proof. intros s H. exact H. Qed.

Lemma preserves_modify I f :
  (forall s, I s -> I (f s)) -> preserves I (modify f).
Proof. intros Hf s H. apply Hf, H. Qed.

Lemma preserves_bind {A B} I (m : M A) (k : A -> M B) :
  preserves I m -> (forall a, preserves I (k a)) -> preserves I (bind m k).
Proof.
  intros Hm Hk s H. unfold bind. specialize (Hm s H).
  destruct (m s) as [[a|u] s']; simpl in *; [apply Hk, Hm | exact Hm].
Qed.

Lemma preserves_for I body n :
  forall i, (forall j, i <= j < i + Z.of_nat n -> preserves I (body j)) ->
            preserves I (for_ n i body).
Proof.
  induction n as [|n IH]; intros i Hbody; [apply preserves_ret|].
  simpl. apply preserves_bind; [apply Hbody; lia|].
  intros _. apply IH. intros j Hj. apply Hbody. lia.
Qed.

Lemma ext_in_bounds_snoc t e :
  ext_in_bounds t ->
  match ext_index e with Some i => 0 <= i < EXT_CAPACITY | None => True end ->
  ext_in_bounds (t ++ [e]).
Proof.
  unfold ext_in_bounds, ext_accesses. intros Ht He.
  rewrite omap_app. apply Forall_app. split; [assumption|].
  simpl. destruct (ext_index e); [|constructor].
  constructor; [assumption | constructor].
Qed.

Lemma preserves_emit e :
  match ext_index e with Some i => 0 <= i < EXT_CAPACITY | None => True end ->
  preserves ext_safe (emit e).
Proof.
  intros He. apply preserves_modify. intros s Hs.
  unfold ext_safe in *. simpl. now apply ext_in_bounds_snoc.
Qed.

Ltac frame_step :=
  first
    [ apply preserves_ret | apply preserves_gets | apply preserves_undef
    | apply preserves_emit; simpl; solve [trivial | lia]
    | apply preserves_modify; intros ? ?; assumption
    | apply preserves_bind; [|intro]
    | match goal with
      | |- preserves _ (match ?x with _ => _ end) => destruct x
      end ].

Lemma preserves_fread dst buf size :
  match dst with Bext i => 0 <= i < EXT_CAPACITY | _ => True end ->
  preserves ext_safe (fread dst buf size).
Proof.
  intros Hd. unfold fread. apply preserves_bind.
  - apply preserves_emit. simpl. destruct dst; trivial.
  - intros _. repeat frame_step.
Qed.

Lemma preserves_fseek offset : preserves ext_safe (fseek offset).
Proof. unfold fseek. repeat frame_step. Qed.

Lemma preserves_fclose : preserves ext_safe fclose.
Proof. unfold fclose. repeat frame_step. Qed.

Section MrcReadBounds.

Variable pf : Platform.

Lemma preserves_fread_ext xs i :
  0 <= i < EXT_CAPACITY -> preserves ext_safe (fread_ext xs i).
Proof.
  intros Hi. unfold fread_ext. repeat frame_step.
Qed.

Lemma preserves_ext_field i field :
  0 <= i < EXT_CAPACITY -> preserves ext_safe (ext_field pf i field).
Proof. intros Hi. unfold ext_field. repeat frame_step. Qed.

Lemma preserves_clip_loops : preserves ext_safe (clip_loops pf).
Proof.
  unfold clip_loops. repeat frame_step. apply preserves_for. intros x _.
  repeat frame_step. apply preserves_for. intros y _.
  unfold clip_at, image_at, uimage_set. repeat frame_step.
Qed.

Lemma preserves_plane_body i :
  0 <= i < EXT_CAPACITY -> preserves ext_safe (plane_body pf i).
Proof.
  intros Hi. unfold plane_body, set_wavelength, fread_image, image_add.
  repeat ((apply preserves_ext_field; assumption)
          || apply preserves_fseek
          || apply preserves_clip_loops
          || (apply preserves_fread; exact I)
          || frame_step).
Qed.

End MrcReadBounds.

(** ** The array [ext] and the count of planes *)

Section MrcReadCapacity.

Variable pf : Platform.
Variable files : string -> option (list Byte.byte).
Variable junk : indeterminate.
Variable c : ControlContext.

(** With at most 1024 planes announced, no access leaves the array,
    however the run ends. *)
Lemma run_in_bounds bytes :
  files (ctx_filename c) = Some bytes ->
  to_u32 (nz (header pf junk bytes)) <= EXT_CAPACITY ->
  ext_in_bounds (trace (snd (mrc_read pf (start pf files junk c)))).
Proof.
  intros Hfile Hnz. unfold mrc_read. rewrite (prefix_ok pf _ _ _ _ _ Hfile).
  unfold bind at 1. unfold gets at 1.
  change (hdr pf _) with (header pf junk bytes).
  set (h := header pf junk bytes) in *.
  pose proof (to_u32_range (nz h)) as Hu.
  match goal with
  | |- ext_in_bounds (trace (snd (?m ?s))) =>
      assert (Hm : preserves ext_safe m); [|apply (Hm s)]
  end.
  - repeat ((apply preserves_ext_field; unfold EXT_CAPACITY; lia)
            || apply preserves_fclose
            || (apply preserves_for; intros j Hj;
                first [apply preserves_fread_ext | apply preserves_plane_body];
                lia)
            || frame_step).
  - unfold ext_safe, ext_in_bounds. simpl. constructor.
Qed.

(** With more planes announced, and the three checks passed, the first
    loop leaves the array at the index 1024. *)
Lemma run_overflow bytes :
  let h := header pf junk bytes in
  files (ctx_filename c) = Some bytes ->
  mode h = 1 -> nxstart h = 0 -> nystart h = 0 ->
  extsize h <= Z.of_nat (sizeof_MRCExtHeader pf) ->
  EXT_CAPACITY < to_u32 (nz h) ->
  exists s, mrc_read pf (start pf files junk c)
            = (Ub OutOfBounds,
               set_trace (trace s ++ [Efread (Bext EXT_CAPACITY) (extsize h)]) s).
Proof.
  intros h Hfile Hmode Hxs Hys Hsize Hnz. unfold mrc_read.
  rewrite (prefix_ok pf _ _ _ _ _ Hfile).
  unfold bind at 1. unfold gets at 1.
  change (hdr pf _) with h.
  unfold bind at 1. unfold emit at 1, modify at 1. norm_state.
  rewrite Hmode, Hxs, Hys. cbn [negb orb Z.eqb Pos.eqb].
  destruct (Z.gtb_spec (extsize h) (Z.of_nat (sizeof_MRCExtHeader pf))); [lia|].
  change (set_trace (_ ++ [Eprintf _]) _) with (opened pf files junk c bytes).
  set (s1 := opened pf files junk c bytes).
  replace (Z.to_nat (to_u32 (nz h)))
    with (Z.to_nat EXT_CAPACITY + S (Z.to_nat (to_u32 (nz h) - EXT_CAPACITY - 1)))%nat
    by (unfold EXT_CAPACITY in *; lia).
  destruct (ext_loop_ok pf (extsize h) (Z.to_nat EXT_CAPACITY) s1
              (advance (Z.of_nat (sizeof_MRCHeader pf)) {| content := bytes; pos := 0 |}))
    as (Hext & Hsh & st2 & Hfh2 & Hc2);
    [reflexivity | apply opened_shaped | unfold EXT_CAPACITY; lia | lia |].
  set (s2 := foldl (ext_done (extsize h)) s1 (seqZ 0 (Z.of_nat (Z.to_nat EXT_CAPACITY)))) in *.
  exists s2. apply bind_ub.
  rewrite for_app. rewrite (bind_ok _ _ _ _ _ Hext).
  replace (0 + Z.of_nat (Z.to_nat EXT_CAPACITY)) with EXT_CAPACITY
    by (unfold EXT_CAPACITY; lia).
  simpl for_. apply bind_ub.
  apply fread_ext_out, ext_elem_out. lia.
Qed.

End MrcReadCapacity.

(** * The claims *)

(** ** File names *)

Lemma char_val_inj c d : char_val c = char_val d -> c = d.
Proof.
  unfold char_val. intros H. apply Nat2Z.inj in H.
  rewrite <- (ascii_nat_embedding c), <- (ascii_nat_embedding d). now rewrite H.
Qed.

Lemma cstring_cons c s :
  cstring (String c s) = true -> char_val c <> 0 /\ cstring s = true.
Proof.
  simpl. intros H. apply andb_true_iff in H as [Hc Hs]. split; [|assumption].
  intros H0. change 0 with (char_val zero) in H0. apply char_val_inj in H0.
  subst c. discriminate.
Qed.

(** On strings, [strcmp] is 0 for equal arguments only. *)
Lemma strcmp_eq a : forall b,
  cstring a = true -> cstring b = true -> (strcmp a b = 0 <-> a = b).
Proof.
  induction a as [|c a IH]; intros [|d b] Ha Hb; cbn [strcmp].
  - tauto.
  - apply cstring_cons in Hb as [Hd _]. split; [intros H; lia | discriminate].
  - apply cstring_cons in Ha as [Hc _]. split; [intros H; lia | discriminate].
  - apply cstring_cons in Ha as [Hc Ha]. apply cstring_cons in Hb as [Hd Hb].
    destruct (Ascii.eqb_spec c d) as [->|Hne].
    + rewrite (IH b Ha Hb). split; [now intros -> | now intros [= ->]].
    + split.
      * intros H. exfalso. apply Hne, char_val_inj. lia.
      * intros [= -> _]. contradiction.
Qed.

Lemma cstring_drop n : forall s, cstring s = true -> cstring (string_drop n s) = true.
Proof.
  induction n as [|n IH]; intros [|c s] H; simpl; try assumption.
  apply IH. now apply cstring_cons in H.
Qed.

(** A name of four characters or more: the answer is 1 when its last four
    characters are ".mrc", else 0. *)
Lemma mrc_is_mrcfile_long filename :
  cstring filename = true -> 4 <= strlen filename < 2 ^ 64 ->
  mrc_is_mrcfile filename
  = Ok (if string_dec (string_drop (String.length filename - 4) filename) ".mrc"
        then 1 else 0).
Proof.
  intros Hc Hlen. unfold mrc_is_mrcfile, ptr_add, strlen in *.
  rewrite to_u64_id by lia.
  destruct (Z.leb_spec (Z.of_nat (String.length filename) - 4)
              (Z.of_nat (String.length filename))); [|lia].
  replace (Z.to_nat (Z.of_nat (String.length filename) - 4))
    with (String.length filename - 4)%nat by lia.
  pose proof (strcmp_eq (string_drop (String.length filename - 4) filename) ".mrc"
                (cstring_drop _ _ Hc) eq_refl) as Heq.
  destruct (string_dec _ ".mrc") as [He|Hne].
  - rewrite (proj2 Heq He). reflexivity.
  - destruct (Z.eqb_spec (strcmp (string_drop (String.length filename - 4) filename) ".mrc") 0)
      as [H0|]; [|reflexivity].
    exfalso. apply Hne, Heq, H0.
Qed.

(** A shorter name: the pointer handed to [strcmp] is outside the
    string. *)
Lemma mrc_is_mrcfile_short filename :
  strlen filename < 4 -> mrc_is_mrcfile filename = Ub OutOfBounds.
Proof.
  intros Hlen. unfold mrc_is_mrcfile, ptr_add, strlen in *.
  assert (Hoff : to_u64 (Z.of_nat (String.length filename) - 4)
                 = Z.of_nat (String.length filename) - 4 + 2 ^ 64).
  { unfold to_u64. symmetry. apply (Z.mod_unique_pos _ _ (-1)); lia. }
  rewrite Hoff.
  destruct (Z.leb_spec (Z.of_nat (String.length filename) - 4 + 2 ^ 64)
              (Z.of_nat (String.length filename))); [lia | reflexivity].
Qed.

Example mrc_is_mrcfile_scan_mrc : mrc_is_mrcfile "scan.mrc" = Ok 1.
Proof. reflexivity. Qed.

Example mrc_is_mrcfile_scan_MRC : mrc_is_mrcfile "scan.MRC" = Ok 0.
Proof. reflexivity. Qed.

(** C4 (code_bug).  The claim asks that a name shorter than four
    characters, such as "mrc", be answered with false, without a fault.
    The function computes [strlen(filename)-4] in [size_t]: for "mrc" this
    is 2^64 - 1, the pointer [filename + (strlen(filename)-4)] is outside
    the string, and [strcmp] reads through it: undefined behaviour, not
    the answer 0. *)
Theorem mrc_is_mrcfile_short_name : mrc_is_mrcfile "mrc" = Ub OutOfBounds.
Proof. reflexivity. Qed.

(** ** The clipping of a plane *)



(** ** The three checks *)

(** The state at an early return: the stream is closed, the only read is
    that of the primary header, nothing went to [image_add] or into
    [ext], and the context is as the caller gave it. *)
Lemma rejected_facts pf files junk c bytes close_first msg :
  let s := rejected close_first msg (opened pf files junk c bytes) in
  fh s = None /\ ctx s = c /\ reads (trace s) = [Bmrc] /\
  emitted (trace s) = [] /\ ext_accesses (trace s) = [] /\
  ext s = ext (start pf files junk c).
Proof. destruct close_first; repeat split. Qed.

Lemma to_u32_i32 z : to_u32 (to_i32 z) = to_u32 z.
Proof.
  unfold to_u32, to_i32.
  rewrite Zminus_mod, Zmod_mod, <- Zminus_mod. f_equal. lia.
Qed.

(** [extsize] is the sum of the two products modulo 2^32. *)
Lemma extsize_mod h :
  extsize h = (4 * numintegers h + 4 * numfloats h) mod 2 ^ 32.
Proof.
  unfold extsize. rewrite to_u32_i32. unfold to_u32.
  rewrite Zplus_mod. fold (to_u32 (to_i32 (4 * numintegers h))).
  fold (to_u32 (to_i32 (4 * numfloats h))). rewrite !to_u32_i32.
  unfold to_u32. now rewrite <- Zplus_mod.
Qed.

(** C5.  Whatever the other fields of the primary header, a mode other
    than 1 makes [mrc_read] return -1 after the message about the mode:
    the stream is closed, the primary header is the only record read, no
    plane goes to [image_add], and the context and [ext] are left as they
    were. *)
Theorem mode_rejected pf files junk c bytes :
  let h := header pf junk bytes in
  let run := mrc_read pf (start pf files junk c) in
  files (ctx_filename c) = Some bytes -> mode h <> 1 ->
  fst run = Ok (-1) /\
  trace (snd run)
  = [Efopen (ctx_filename c); Efread Bmrc (Z.of_nat (sizeof_MRCHeader pf));
     Eprintf "%i images in series";
     Efprintf_stderr "MR: Unknown MRC image mode (must be 16-bit signed)";
     Efclose] /\
  fh (snd run) = None /\ ctx (snd run) = c /\
  reads (trace (snd run)) = [Bmrc] /\ emitted (trace (snd run)) = [] /\
  ext_accesses (trace (snd run)) = [] /\
  ext (snd run) = ext (start pf files junk c).
Proof.
  intros h run Hfile Hmode. unfold run.
  rewrite (run_rejected_mode pf files junk c bytes Hfile Hmode).
  split; [reflexivity|]. split; [reflexivity|]. apply rejected_facts.
Qed.

Lemma mode_rejected_witness :
  mode (header sample_platform sample_junk mode2_file) = 2 /\
  fst (mrc_read sample_platform
         (start sample_platform (only mode2_file) sample_junk sample_ctx))
  = Ok (-1).
Proof.
  split; [reflexivity|].
  refine (proj1 (mode_rejected sample_platform (only mode2_file) sample_junk
                   sample_ctx mode2_file eq_refl _)).
  vm_compute. discriminate.
Defined.

(** C6.  A primary header with [nxstart] or [nystart] other than 0 makes
    [mrc_read] return -1 (after the message about the origin when the
    mode is 1): the stream is closed, no plane goes to [image_add], and
    nothing is corrected: the context and [ext] are left as they were. *)
Theorem origin_rejected pf files junk c bytes :
  let h := header pf junk bytes in
  let run := mrc_read pf (start pf files junk c) in
  files (ctx_filename c) = Some bytes ->
  nxstart h <> 0 \/ nystart h <> 0 ->
  fst run = Ok (-1) /\
  (mode h = 1 ->
   trace (snd run)
   = [Efopen (ctx_filename c); Efread Bmrc (Z.of_nat (sizeof_MRCHeader pf));
      Eprintf "%i images in series"; Efclose;
      Efprintf_stderr "MR: Image origin must be at zero: found at %i,%i"]) /\
  fh (snd run) = None /\ ctx (snd run) = c /\
  reads (trace (snd run)) = [Bmrc] /\ emitted (trace (snd run)) = [] /\
  ext_accesses (trace (snd run)) = [] /\
  ext (snd run) = ext (start pf files junk c).
Proof.
  intros h run Hfile Horigin. unfold run.
  destruct (Z.eq_dec (mode h) 1) as [Hmode|Hmode].
  - rewrite (run_rejected_origin pf files junk c bytes Hfile Hmode Horigin).
    split; [reflexivity|]. split; [reflexivity|]. apply rejected_facts.
  - rewrite (run_rejected_mode pf files junk c bytes Hfile Hmode).
    split; [reflexivity|]. split; [contradiction|]. apply rejected_facts.
Qed.

Lemma origin_rejected_witness :
  nystart (header sample_platform sample_junk origin_file) = 5 /\
  fst (mrc_read sample_platform
         (start sample_platform (only origin_file) sample_junk sample_ctx))
  = Ok (-1).
Proof.
  split; [reflexivity|].
  refine (proj1 (origin_rejected sample_platform (only origin_file) sample_junk
                   sample_ctx origin_file eq_refl _)).
  right. vm_compute. discriminate.
Defined.

(** X13.  The size that line 57 compares is [extsize], an [unsigned
    int]: [4*numintegers + 4*numfloats] modulo 2^32 (the sum itself
    whenever the sum is an [unsigned int]).  A value of [extsize] above
    the size of [MRCExtHeader] makes [mrc_read] return -1 with the
    primary header the only record read: no extended header is read and
    no plane goes to [image_add].  When the two earlier checks pass, the
    message is the one about the extended header. *)
Theorem oversized_ext_rejected pf files junk c bytes :
  let h := header pf junk bytes in
  let run := mrc_read pf (start pf files junk c) in
  files (ctx_filename c) = Some bytes ->
  extsize h > Z.of_nat (sizeof_MRCExtHeader pf) ->
  extsize h = (4 * numintegers h + 4 * numfloats h) mod 2 ^ 32 /\
  (0 <= 4 * numintegers h + 4 * numfloats h < 2 ^ 32 ->
   extsize h = 4 * numintegers h + 4 * numfloats h) /\
  fst run = Ok (-1) /\
  (mode h = 1 -> nxstart h = 0 -> nystart h = 0 ->
   trace (snd run)
   = [Efopen (ctx_filename c); Efread Bmrc (Z.of_nat (sizeof_MRCHeader pf));
      Eprintf "%i images in series"; Efclose;
      Efprintf_stderr "MR: MRC extended header is too big - tweak mrc.h"]) /\
  fh (snd run) = None /\ ctx (snd run) = c /\
  reads (trace (snd run)) = [Bmrc] /\ emitted (trace (snd run)) = [] /\
  ext_accesses (trace (snd run)) = [] /\
  ext (snd run) = ext (start pf files junk c).
Proof.
  intros h run Hfile Hsize. unfold run.
  split; [apply extsize_mod|].
  split; [intros Hsum; rewrite extsize_mod; now apply Z.mod_small|].
  destruct (Z.eq_dec (mode h) 1) as [Hmode|Hmode].
  - destruct (Z.eq_dec (nxstart h) 0) as [Hx|Hx];
      [destruct (Z.eq_dec (nystart h) 0) as [Hy|Hy]|].
    + rewrite (run_rejected_size pf files junk c bytes Hfile Hmode Hx Hy Hsize).
      split; [reflexivity|]. split; [reflexivity|]. apply rejected_facts.
    + rewrite (run_rejected_origin pf files junk c bytes Hfile Hmode (or_intror Hy)).
      split; [reflexivity|]. split; [contradiction|]. apply rejected_facts.
    + rewrite (run_rejected_origin pf files junk c bytes Hfile Hmode (or_introl Hx)).
      split; [reflexivity|]. split; [contradiction|]. apply rejected_facts.
  - rewrite (run_rejected_mode pf files junk c bytes Hfile Hmode).
    split; [reflexivity|]. split; [contradiction|]. apply rejected_facts.
Qed.

Lemma oversized_ext_rejected_witness :
  extsize (header sample_platform sample_junk bigext_file) = 24 /\
  fst (mrc_read sample_platform
         (start sample_platform (only bigext_file) sample_junk sample_ctx))
  = Ok (-1).
Proof.
  split; [reflexivity|].
  refine (proj1 (proj2 (proj2
            (oversized_ext_rejected sample_platform (only bigext_file) sample_junk
               sample_ctx bigext_file eq_refl _)))).
  vm_compute. reflexivity.
Defined.

(** C7 (code bug).  The sample file with [numintegers] = 2^30 and
    [numfloats] = 2.  The size [4*numintegers + 4*numfloats] of an
    extended header is 2^32 + 8 bytes, above the 20 bytes of
    [MRCExtHeader]; computed in 32 bits, [extsize] is 8, the check of
    line 57 passes, the extended headers are read 8 bytes at a time
    ([ext[0]] holds the first one) and [mrc_read] returns 0 after handing
    on both planes. *)
Theorem oversized_ext_wraps :
  let h := header sample_platform sample_junk wrapext_file in
  let run := mrc_read sample_platform
               (start sample_platform (only wrapext_file) sample_junk sample_ctx) in
  numintegers h = 2 ^ 30 /\ numfloats h = 2 /\
  4 * numintegers h + 4 * numfloats h = 2 ^ 32 + 8 /\
  Z.of_nat (sizeof_MRCExtHeader sample_platform)
  < 4 * numintegers h + 4 * numfloats h /\
  extsize h = 8 /\
  fst run = Ok 0 /\
  take 8 <$> ext (snd run) !! 0%nat
  = Some (u32_bytes 0x41200000 ++ u32_bytes 0x3F800000) /\
  em_image <$> emitted (trace (snd run)) = [[1; 0; 3; 0]; [5; 6; 0; 8]].
Proof.
  intros h run.
  assert (Hv : valid_header sample_platform h)
    by (unfold valid_header; repeat split; vm_compute;
        first [reflexivity | discriminate]).
  destruct (run_valid sample_platform (only wrapext_file) sample_junk
              sample_ctx wrapext_file eq_refl Hv) as [Hrun Hem].
  do 5 (split; [vm_compute; reflexivity|]).
  unfold run. rewrite Hrun. cbn [fst snd].
  split; [reflexivity|]. split.
  - vm_compute. reflexivity.
  - rewrite Hem. vm_compute. reflexivity.
Qed.

(** ** The wavelength *)

Open Scope R_scope.

(** The relation of the sample platform does not grow with the voltage. *)
Lemma electron_wavelength_decreasing V1 V2 :
  0 < V1 -> V1 <= V2 -> electron_wavelength V2 <= electron_wavelength V1.
Proof.
  intros H1 H12. unfold electron_wavelength.
  set (m := 9.110e-31). set (h := 6.625e-34). set (e := 1.60e-19).
  set (c := 2.998e8).
  assert (Hm : 0 < m) by (unfold m; lra).
  assert (Hh : 0 <= h) by (unfold h; lra).
  assert (He : 0 < e) by (unfold e; lra).
  assert (Hc : 0 < c) by (unfold c; lra).
  clearbody m h e c.
  assert (Hk : 0 < e / (2 * m * c * c)).
  { apply Rdiv_lt_0_compat; [assumption|].
    repeat apply Rmult_lt_0_compat; lra. }
  set (k := e / (2 * m * c * c)) in *.
  replace (e * V1 / (2 * m * c * c)) with (k * V1)
    by (unfold k, Rdiv; ring).
  replace (e * V2 / (2 * m * c * c)) with (k * V2)
    by (unfold k, Rdiv; ring).
  assert (Ha : 0 < 2 * m * e) by (repeat apply Rmult_lt_0_compat; lra).
  set (a := 2 * m * e) in *. clearbody a k.
  assert (Hkv : 0 < k * V1) by now apply Rmult_lt_0_compat.
  assert (Hd1 : 0 < a * V1 * (1 + k * V1)).
  { apply Rmult_lt_0_compat; [now apply Rmult_lt_0_compat | lra]. }
  assert (Hd : a * V1 * (1 + k * V1) <= a * V2 * (1 + k * V2)).
  { apply Rmult_le_compat.
    - apply Rmult_le_pos; lra.
    - lra.
    - apply Rmult_le_compat_l; lra.
    - apply Rplus_le_compat_l, Rmult_le_compat_l; lra. }
  unfold Rdiv. apply Rmult_le_compat_l; [assumption|].
  apply Rinv_le_contravar.
  - now apply sqrt_lt_R0.
  - now apply sqrt_le_1_alt.
Qed.

Lemma sample_lambda_decreasing : lambda_decreasing sample_platform.
Proof. intros V1 V2. apply electron_wavelength_decreasing. Qed.

Lemma slice_lambda_zero pf : slice_lambda pf 0 = lambda pf 200000.
Proof. unfold slice_lambda. destruct (Req_dec_T 0 0); [reflexivity | contradiction]. Qed.

Lemma slice_lambda_nonzero pf v : v <> 0 -> slice_lambda pf v = lambda pf (1000 * v).
Proof. intros H. unfold slice_lambda. destruct (Req_dec_T v 0); [contradiction | reflexivity]. Qed.

(** C8.  The wavelength [mrc_read] gives the context for a slice is that
    of 200000 V when the voltage of the slice is 0, which is also what a
    voltage of 200 gives; for a voltage above 0 it is that of 1000 times
    the voltage, and it does not grow with the voltage.  [lambda] is a
    function of utils.c; of it the proof uses what the spec says, that the
    wavelength does not grow with the accelerating voltage. *)
Theorem wavelength_of_voltage pf i1 s1 buf1 i2 s2 buf2 :
  let v1 := voltage (decode_MRCExtHeader pf buf1) in
  let v2 := voltage (decode_MRCExtHeader pf buf2) in
  let wl1 := ctx_lambda (ctx (snd (set_wavelength pf i1 s1))) in
  let wl2 := ctx_lambda (ctx (snd (set_wavelength pf i2 s2))) in
  lambda_decreasing pf ->
  ext_elem i1 s1 = Some buf1 -> ext_elem i2 s2 = Some buf2 ->
  (v1 = 0 -> wl1 = lambda pf 200000) /\
  (v1 = 0 -> v2 = 200 -> wl1 = wl2) /\
  (0 < v1 -> wl1 = lambda pf (1000 * v1)) /\
  (0 < v1 -> v1 <= v2 -> wl2 <= wl1).
Proof.
  intros v1 v2 wl1 wl2 Hdec He1 He2.
  assert (H1 : wl1 = slice_lambda pf v1)
    by (unfold wl1; now rewrite (set_wavelength_ok pf _ _ _ He1)).
  assert (H2 : wl2 = slice_lambda pf v2)
    by (unfold wl2; now rewrite (set_wavelength_ok pf _ _ _ He2)).
  rewrite H1, H2. split; [|split; [|split]].
  - intros ->. apply slice_lambda_zero.
  - intros -> ->. rewrite slice_lambda_zero, slice_lambda_nonzero by lra.
    f_equal. lra.
  - intros Hv. apply slice_lambda_nonzero. lra.
  - intros Hv Hle. rewrite !slice_lambda_nonzero by lra.
    apply Hdec; lra.
Qed.

Lemma binary32_100 : binary32 0x42C80000 = 100.
Proof.
  unfold binary32. cbv zeta.
  change (Z.testbit 0x42C80000 31) with false.
  change ((0x42C80000 / 2 ^ 23) mod 2 ^ 8)%Z with 133%Z.
  change (0x42C80000 mod 2 ^ 23)%Z with 4718592%Z.
  change (2 ^ 23 + 4718592)%Z with 13107200%Z.
  simpl. field.
Qed.

Lemma binary32_200 : binary32 0x43480000 = 200.
Proof.
  unfold binary32. cbv zeta.
  change (Z.testbit 0x43480000 31) with false.
  change ((0x43480000 / 2 ^ 23) mod 2 ^ 8)%Z with 134%Z.
  change (0x43480000 mod 2 ^ 23)%Z with 4718592%Z.
  change (2 ^ 23 + 4718592)%Z with 13107200%Z.
  simpl. field.
Qed.

(** Two slices of 100 kV and 200 kV on the sample platform. *)
Lemma wavelength_of_voltage_witness :
  ctx_lambda (ctx (snd (set_wavelength sample_platform 0 (voltage_state 0x43480000))))
  <= ctx_lambda (ctx (snd (set_wavelength sample_platform 0 (voltage_state 0x42C80000)))).
Proof.
  refine (proj2 (proj2 (proj2
            (wavelength_of_voltage sample_platform
               0%Z (voltage_state 0x42C80000) (voltage_record 0x42C80000)
               0%Z (voltage_state 0x43480000) (voltage_record 0x43480000)
               sample_lambda_decreasing eq_refl eq_refl))) _ _).
  - change (0 < binary32 0x42C80000). rewrite binary32_100. lra.
  - change (binary32 0x42C80000 <= binary32 0x43480000).
    rewrite binary32_100, binary32_200. lra.
Defined.

Close Scope R_scope.

(** ** The sample files *)

Ltac by_computation :=
  repeat split; vm_compute; first [reflexivity | discriminate].

Lemma sample_file_valid :
  valid_header sample_platform (header sample_platform sample_junk sample_file)
  /\ complete sample_platform (header sample_platform sample_junk sample_file)
       sample_file.
Proof. unfold valid_header, complete. by_computation. Qed.

Lemma truncated_file_valid :
  valid_header sample_platform (header sample_platform sample_junk truncated_file).
Proof. unfold valid_header. by_computation. Qed.


(** ** The planes *)

Lemma valid_header_checked pf h : valid_header pf h -> checked_header pf h.
Proof. unfold valid_header, checked_header. tauto. Qed.

Lemma overfull_file_complete :
  let h := header sample_platform sample_junk overfull_file in
  mode h = 1 /\ nxstart h = 0 /\ nystart h = 0 /\ extsize h = 8 /\
  nx h = 2 /\ ny h = 2 /\ nz h = 1025 /\ next h = 8200 /\
  Z.of_nat (length overfull_file) = 36 + 1025 * 8 + 1025 * 8 /\
  complete sample_platform h overfull_file.
Proof. unfold complete. by_computation. Qed.

(** The block of a plane has the size of its buffer, wherever the stream
    stands. *)
Lemma length_plane_bytes pf junk h i st :
  0 <= nx h -> 0 <= ny h -> 2 * (nx h * ny h) < 2 ^ 31 ->
  length (plane_bytes pf junk h i st) = (2 * Z.to_nat (nx h * ny h))%nat.
Proof.
  intros Hx Hy Hsmall.
  destruct (plane_sizes h Hx Hy Hsmall) as [Halloc Hsize].
  assert (0 <= nx h * ny h) by nia.
  unfold plane_bytes. rewrite length_filled.
  - rewrite length_fmap, length_seq, Halloc. lia.
  - pose proof (length_transfer (plane_size h) (sought (plane_offset pf h i) st)).
    rewrite length_fmap, length_seq, Halloc. rewrite Hsize in *. lia.
Qed.

Section MrcReadShapes.

Variable pf : Platform.
Variable junk : indeterminate.
Variable bytes : list Byte.byte.
Variable files : string -> option (list Byte.byte).
Variable c : ControlContext.

Let h := header pf junk bytes.
Let s3 := calibrated (ext_loaded pf (opened pf files junk c bytes)).

Hypothesis Hxs : extsize h <= Z.of_nat (sizeof_MRCExtHeader pf).
Hypothesis Hnz : to_u32 (nz h) <= EXT_CAPACITY.
Hypothesis Hx : 0 <= nx h.
Hypothesis Hy : 0 <= ny h.
Hypothesis Hsmall : 2 * (nx h * ny h) < 2 ^ 31.

(** One turn of the second loop hands on one plane, of the shape the
    header gives and with the tilt angle of its extended header, wherever
    the seek has left the stream. *)
Lemma plane_step_shaped s j :
  0 <= j < to_u32 (nz h) -> plane_inv s3 bytes s ->
  exists p, emitted (trace (plane_done pf s j)) = emitted (trace s) ++ [p]
            /\ plane_shaped pf junk bytes j p.
Proof.
  intros Hj (Hm & He & Hi & Hf & Hfm & st & Hfh & Hc).
  destruct (calibrated_facts pf junk bytes files c Hxs Hnz)
    as (Hh3 & _ & _ & Hi3 & Hc3 & _ & Hlo).
  fold h s3 in Hh3, Hi3, Hc3, Hlo.
  assert (Hb : ext_elem j s = Some (ext_record pf junk (extsize h) bytes j)).
  { rewrite <- (Hlo j Hj). unfold ext_elem. now rewrite He. }
  assert (Hh : hdr pf s = h) by (rewrite <- Hh3; unfold hdr; now rewrite Hm).
  unfold plane_done. rewrite Hfh, Hb, Hh. norm_state.
  rewrite emitted_app, emitted_plane_events.
  eexists. split; [reflexivity|].
  unfold plane_shaped. fold h. cbn [em_width em_height em_image em_tilt].
  split; [reflexivity|]. split; [reflexivity|]. split; [|reflexivity].
  assert (0 <= nx h * ny h) by nia.
  rewrite length_fmap.
  rewrite (length_samples pf (Z.to_nat (nx h * ny h))); [lia|].
  now apply length_plane_bytes.
Qed.

(** The second loop hands on one plane a turn, in the order of the
    slices. *)
Lemma plane_loop_shaped (n : nat) :
  Z.of_nat n <= to_u32 (nz h) ->
  let s := foldl (plane_done pf) s3 (seqZ 0 (Z.of_nat n)) in
  plane_inv s3 bytes s /\
  length (emitted (trace s)) = n /\
  forall i, (i < n)%nat ->
    exists p, emitted (trace s) !! i = Some p
              /\ plane_shaped pf junk bytes (Z.of_nat i) p.
Proof.
  destruct (calibrated_facts pf junk bytes files c Hxs Hnz)
    as (_ & Hsh & Hinv & _ & _ & Hem & _).
  fold h s3 in Hsh, Hinv, Hem.
  induction n as [|n IH]; intros Hn; cbv zeta.
  - change (seqZ 0 (Z.of_nat 0)) with (@nil Z).
    change (foldl (plane_done pf) s3 []) with s3. rewrite Hem.
    split; [exact Hinv|]. split; [reflexivity|]. intros i Hi. lia.
  - destruct IH as (IHi & IHl & IHp); [lia|].
    rewrite seqZ_S, foldl_app. cbn [foldl].
    destruct (plane_step_shaped _ (0 + Z.of_nat n) ltac:(lia) IHi)
      as (p & Hp & Hshape).
    rewrite Hp. split; [|split].
    + apply plane_inv_step; [assumption | lia | assumption].
    + rewrite length_app, IHl. simpl. lia.
    + intros i Hi. destruct (Nat.eq_dec i n) as [->|Hne].
      * exists p. split.
        -- rewrite lookup_app_r by lia. rewrite IHl, Nat.sub_diag. reflexivity.
        -- now rewrite Z.add_0_l in Hshape.
      * destruct (IHp i ltac:(lia)) as (q & Hq & Hqs).
        exists q. split; [|assumption].
        rewrite lookup_app_l by lia. assumption.
Qed.

(** The calls of [image_add] of a run that returns 0. *)
Lemma decoded_shaped :
  length (emitted (trace (decoded pf files junk c bytes)))
  = Z.to_nat (to_u32 (nz h)) /\
  forall i, 0 <= i < to_u32 (nz h) ->
    exists p, emitted (trace (decoded pf files junk c bytes)) !! Z.to_nat i = Some p
              /\ plane_shaped pf junk bytes i p.
Proof.
  pose proof (to_u32_range (nz h)) as Hu.
  destruct (calibrated_facts pf junk bytes files c Hxs Hnz) as (Hh3 & _).
  fold h s3 in Hh3.
  destruct (plane_loop_shaped (Z.to_nat (to_u32 (nz h))) ltac:(lia))
    as (_ & Hl & Hp).
  rewrite Z2Nat.id in Hl, Hp by lia.
  unfold decoded, finished, planes_done. norm_state. fold s3.
  rewrite Hh3, emitted_app. cbn [emitted]. rewrite app_nil_r.
  split; [exact Hl|]. intros i Hi.
  destruct (Hp (Z.to_nat i) ltac:(lia)) as (p & Hlk & Hshape).
  exists p. split; [exact Hlk|]. now rewrite Z2Nat.id in Hshape by lia.
Qed.

End MrcReadShapes.

(** C2 (corrected), as the claim has it: on every valid file [mrc_read]
    emits [nz] planes.  A file of 1025 planes of 2 by 2 samples that
    passes the three checks and holds all it announces: the count of
    planes is not tested against the 1024 elements of [ext], the first
    loop leaves the array at [ext[1024]], and no plane is emitted. *)
Lemma crowded_series_not_emitted :
  let h := header sample_platform sample_junk overfull_file in
  let run := mrc_read sample_platform
               (start sample_platform (only overfull_file) sample_junk sample_ctx) in
  (mode h = 1 /\ nxstart h = 0 /\ nystart h = 0 /\
   extsize h <= Z.of_nat (sizeof_MRCExtHeader sample_platform) /\
   nx h = 2 /\ ny h = 2 /\ nz h = 1025 /\
   complete sample_platform h overfull_file) /\
  fst run = Ub OutOfBounds /\
  last (trace (snd run)) = Some (Efread (Bext 1024) 8) /\
  emitted (trace (snd run)) = [] /\
  ~ (fst run = Ok 0 /\ length (emitted (trace (snd run))) = Z.to_nat (nz h)).
Proof.
  intros h run.
  destruct overfull_file_complete
    as (Hmode & Hxs & Hys & Hext & Hnx & Hny & Hnz & Hnext & _ & Hcomplete).
  fold h in Hmode, Hxs, Hys, Hext, Hnx, Hny, Hnz, Hnext, Hcomplete.
  split.
  { split; [exact Hmode|]. split; [exact Hxs|]. split; [exact Hys|].
    split; [rewrite Hext; vm_compute; discriminate|].
    split; [exact Hnx|]. split; [exact Hny|]. split; [exact Hnz|].
    exact Hcomplete. }
  assert (Hrun : fst run = Ub OutOfBounds) by (vm_compute; reflexivity).
  split; [exact Hrun|].
  split; [vm_compute; reflexivity|].
  split; [vm_compute; reflexivity|].
  intros [H0 _]. rewrite Hrun in H0. discriminate.
Qed.

(** C2 (corrected), as amended.  On every file whose primary header
    passes the three checks and announces at most 1024 planes, of
    dimensions that are not negative and of less than 2^31 bytes,
    [mrc_read] returns 0 after [nz] calls of [image_add], one for each
    plane, in the order of the slices: the call number [i] has the width
    [nx], the height [ny], [nx*ny] samples and the tilt angle of the
    extended header number [i].  When moreover [next] is not negative,
    the call number [i] is the one of the plane [i] of the file, and
    when the file holds what the header announces its samples are the
    ones of the [i]-th block of the pixel data, clipped, and its
    extended header the [i]-th record after the primary header. *)
Theorem mrc_read_emits_every_plane pf files junk c bytes :
  let h := header pf junk bytes in
  let run := mrc_read pf (start pf files junk c) in
  files (ctx_filename c) = Some bytes -> checked_header pf h ->
  fst run = Ok 0 /\
  length (emitted (trace (snd run))) = Z.to_nat (nz h) /\
  (forall i, 0 <= i < nz h ->
     exists p,
       emitted (trace (snd run)) !! Z.to_nat i = Some p /\
       em_width p = nx h /\ em_height p = ny h /\
       Z.of_nat (length (em_image p)) = nx h * ny h /\
       em_tilt p
       = deg2rad pf (a_tilt (decode_MRCExtHeader pf
                               (ext_record pf junk (extsize h) bytes i)))) /\
  (0 <= next h < 2 ^ 31 -> Z.of_nat (sizeof_MRCHeader pf) < 2 ^ 31 ->
   emitted (trace (snd run)) = plane_of pf junk c bytes <$> seqZ 0 (nz h) /\
   (complete pf h bytes ->
    forall i, 0 <= i < nz h ->
      let p := plane_of pf junk c bytes i in
      em_image p
      = clip16 <$> samples pf
          (take (Z.to_nat (2 * (nx h * ny h)))
             (drop (Z.to_nat (next h + Z.of_nat (sizeof_MRCHeader pf)
                              + 2 * (nx h * ny h) * i)) bytes)) /\
      em_tilt p
      = deg2rad pf (a_tilt (decode_MRCExtHeader pf
          (take (Z.to_nat (extsize h))
             (drop (Z.to_nat (Z.of_nat (sizeof_MRCHeader pf) + i * extsize h)) bytes)
           ++ drop (Z.to_nat (extsize h))
                (ind_ext junk (Z.to_nat i) <$> seq 0 (sizeof_MRCExtHeader pf))))))).
Proof.
  intros h run Hfile Hv. unfold run.
  pose proof Hv as (Hmode & Hxs & Hys & Hext & Hnz & Hx & Hy & Hsmall).
  assert (Hu : to_u32 (nz h) = nz h)
    by (apply to_u32_id; unfold EXT_CAPACITY in Hnz; lia).
  assert (Hnz' : to_u32 (nz h) <= EXT_CAPACITY) by lia.
  rewrite (run_decoded pf files junk c bytes Hfile Hmode Hxs Hys Hext Hnz'
             Hx Hy Hsmall).
  cbn [fst snd].
  destruct (decoded_shaped pf junk bytes files c Hext Hnz' Hx Hy Hsmall)
    as [Hlen Hshape].
  fold h in Hlen, Hshape. rewrite Hu in Hlen, Hshape.
  split; [reflexivity|]. split; [exact Hlen|]. split.
  { intros i Hi. destruct (Hshape i Hi) as (p & Hp & Hps).
    exists p. split; [exact Hp|]. exact Hps. }
  intros Hnext Hsz.
  assert (Hvalid : valid_header pf h) by (unfold valid_header; tauto).
  destruct (run_valid pf files junk c bytes Hfile Hvalid) as [_ Hem].
  fold h in Hem. split; [exact Hem|].
  intros Hc i Hi. split; [now apply plane_of_complete|].
  unfold plane_of. simpl em_tilt. fold h. do 3 f_equal.
  destruct Hc as (Hexts & _).
  pose proof (extsize_nonneg pf junk bytes) as Hx0. fold h in Hx0.
  apply ext_record_complete; [lia | assumption | nia].
Qed.

Lemma mrc_read_emits_every_plane_witness :
  let run := mrc_read sample_platform
               (start sample_platform (only sample_file) sample_junk sample_ctx) in
  fst run = Ok 0 /\
  em_image <$> emitted (trace (snd run)) = [[1; 0; 3; 0]; [5; 6; 0; 8]].
Proof.
  destruct (mrc_read_emits_every_plane sample_platform (only sample_file)
              sample_junk sample_ctx sample_file eq_refl
              (valid_header_checked _ _ (proj1 sample_file_valid)))
    as (Hrun & _ & _ & Hem).
  split; [exact Hrun|]. simpl.
  rewrite (proj1 (Hem ltac:(vm_compute; split; [discriminate|reflexivity])
                      ltac:(vm_compute; reflexivity))).
  vm_compute. reflexivity.
Defined.




(** ** The file that cannot be opened *)

(** C9 (corrected), as the claim has it: when the file cannot be opened,
    [mrc_read] reports an error and does not try to read the primary
    header.  Without any file, [mrc_read] does not return: it calls
    [fread] for the primary header on the null stream. *)
Lemma open_failure_unreported :
  let run := mrc_read sample_platform
               (start sample_platform no_file sample_junk sample_ctx) in
  no_file (ctx_filename sample_ctx) = None /\
  fst run = Ub NullStream /\
  trace (snd run) = [Efopen "scan.mrc"; Efread Bmrc 36] /\
  ~ (exists code, fst run = Ok code) /\
  reads (trace (snd run)) <> [].
Proof.
  assert (Hrun : fst (mrc_read sample_platform
                        (start sample_platform no_file sample_junk sample_ctx))
                 = Ub NullStream) by (vm_compute; reflexivity).
  assert (Htrace : trace (snd (mrc_read sample_platform
                     (start sample_platform no_file sample_junk sample_ctx)))
                   = [Efopen "scan.mrc"; Efread Bmrc 36])
    by (vm_compute; reflexivity).
  cbv zeta. rewrite Hrun, Htrace.
  split; [reflexivity|]. split; [reflexivity|]. split; [reflexivity|].
  split; [intros [code H]; discriminate | discriminate].
Qed.

(** C9 (corrected), as amended.  [mrc_read] does not test the result of
    [fopen] and has no error for it: when the file cannot be opened, the
    read of the primary header is called on the null stream, which the C
    standard leaves undefined, and no value is returned. *)
Theorem open_failure_not_tested pf files junk c :
  files (ctx_filename c) = None ->
  mrc_read pf (start pf files junk c)
  = (Ub NullStream,
     set_trace [Efopen (ctx_filename c);
                Efread Bmrc (Z.of_nat (sizeof_MRCHeader pf))]
       (start pf files junk c)).
Proof. intros Hfile. unfold mrc_read. now apply prefix_null. Qed.

Lemma open_failure_not_tested_witness :
  fst (mrc_read sample_platform
         (start sample_platform no_file sample_junk sample_ctx))
  = Ub NullStream.
Proof.
  rewrite (open_failure_not_tested sample_platform no_file sample_junk
             sample_ctx eq_refl).
  reflexivity.
Defined.

(** ** The capacity of [ext] *)

Lemma ext_accesses_snoc t e :
  ext_accesses (t ++ [e])
  = ext_accesses t ++ match ext_index e with Some i => [i] | None => [] end.
Proof.
  unfold ext_accesses. rewrite omap_app. simpl. now destruct (ext_index e).
Qed.

(** C10.  [ext] has 1024 elements and [mrc_read] never compares [nz] with
    that number: once the three checks have passed, the first loop runs to
    [nz] (read as an [unsigned int]) and, when [nz] is above 1024 or
    negative, accesses [ext[1024]].  The accesses to [ext] are all inside
    the array when [0 <= nz <= 1024], and in a run that passes the three
    checks only then. *)
Theorem ext_bounds_need_nz_le_1024 pf files junk c bytes :
  let h := header pf junk bytes in
  let run := mrc_read pf (start pf files junk c) in
  files (ctx_filename c) = Some bytes -> is_i32 (nz h) ->
  length (ext (start pf files junk c)) = 1024%nat /\
  (0 <= nz h <= 1024 -> ext_in_bounds (trace (snd run))) /\
  (mode h = 1 -> nxstart h = 0 -> nystart h = 0 ->
   extsize h <= Z.of_nat (sizeof_MRCExtHeader pf) ->
   (1024 < nz h \/ nz h < 0 ->
    fst run = Ub OutOfBounds /\
    last (ext_accesses (trace (snd run))) = Some 1024 /\
    ~ ext_in_bounds (trace (snd run))) /\
   (ext_in_bounds (trace (snd run)) -> 0 <= nz h <= 1024)).
Proof.
  intros h run Hfile Hnz.
  pose proof (to_u32_of_i32 (nz h) Hnz) as Hu. unfold is_i32 in Hnz.
  assert (Hover : mode h = 1 -> nxstart h = 0 -> nystart h = 0 ->
                  extsize h <= Z.of_nat (sizeof_MRCExtHeader pf) ->
                  1024 < nz h \/ nz h < 0 ->
                  fst run = Ub OutOfBounds /\
                  last (ext_accesses (trace (snd run))) = Some 1024 /\
                  ~ ext_in_bounds (trace (snd run))).
  { intros Hmode Hxs Hys Hsize Hbig.
    destruct (run_overflow pf files junk c bytes Hfile Hmode Hxs Hys Hsize)
      as (s & Hrun).
    { fold h. rewrite Hu. unfold EXT_CAPACITY.
      destruct (Z.ltb_spec (nz h) 0); lia. }
    unfold run. rewrite Hrun. simpl fst. simpl snd. norm_state.
    assert (Hlast : last (ext_accesses (trace s ++ [Efread (Bext EXT_CAPACITY) (extsize (header pf junk bytes))]))
                    = Some 1024).
    { rewrite ext_accesses_snoc. simpl. apply last_snoc. }
    split; [reflexivity|]. split; [exact Hlast|].
    intros Hb. unfold ext_in_bounds in Hb. rewrite Forall_forall in Hb.
    specialize (Hb 1024). rewrite ext_accesses_snoc in Hb. simpl in Hb.
    assert (1024 ∈ ext_accesses (trace s) ++ [EXT_CAPACITY]) as Hin
      by (apply elem_of_app; right; apply list_elem_of_singleton; reflexivity).
    specialize (Hb Hin). unfold EXT_CAPACITY in Hb. lia. }
  split.
  { unfold start. norm_state. now rewrite length_fmap, length_seq. }
  split.
  { intros Hle. apply (run_in_bounds pf files junk c bytes Hfile).
    fold h. rewrite Hu. unfold EXT_CAPACITY.
    destruct (Z.ltb_spec (nz h) 0); lia. }
  intros Hmode Hxs Hys Hsize. split; [now apply Hover|].
  intros Hb.
  destruct (Z_le_gt_dec 0 (nz h)) as [H0|H0];
    [destruct (Z_le_gt_dec (nz h) 1024) as [H1|H1]; [lia|]|].
  - assert (Hbig : 1024 < nz h \/ nz h < 0) by lia.
    exfalso. now apply (Hover Hmode Hxs Hys Hsize Hbig).
  - assert (Hbig : 1024 < nz h \/ nz h < 0) by lia.
    exfalso. now apply (Hover Hmode Hxs Hys Hsize Hbig).
Qed.

(** The sample file with 1025 planes announced. *)
Lemma ext_bounds_need_nz_le_1024_witness :
  nz (header sample_platform sample_junk crowded_file) = 1025 /\
  fst (mrc_read sample_platform
         (start sample_platform (only crowded_file) sample_junk sample_ctx))
  = Ub OutOfBounds.
Proof.
  split; [reflexivity|].
  refine (proj1 (proj1 (proj2 (proj2
            (ext_bounds_need_nz_le_1024 sample_platform (only crowded_file)
               sample_junk sample_ctx crowded_file eq_refl _)) _ _ _ _) _));
    try (vm_compute; first [reflexivity | discriminate]).
  - unfold is_i32. by_computation.
  - left. vm_compute. reflexivity.
Defined.

(** * Further properties *)

(** ** File names *)

Lemma string_drop_app (a b : string) :
  string_drop (String.length a) (a ++ b) = b.
Proof. induction a as [|c a IH]; [now destruct b | exact IH]. Qed.

Lemma cstring_app (a b : string) :
  cstring (a ++ b) = (cstring a && cstring b)%bool.
Proof.
  induction a as [|c a IH]; [reflexivity|].
  simpl. rewrite IH. now rewrite andb_assoc.
Qed.

Lemma string_length_app (a b : string) :
  String.length (a ++ b) = (String.length a + String.length b)%nat.
Proof. induction a as [|c a IH]; [reflexivity | simpl; now rewrite IH]. Qed.

(** X1.  For a name without an inner character 0 and shorter than 2^64:
    the answer is 1 exactly when the name has four characters or more
    and ends in ".mrc", 0 exactly when it has four or more and ends
    otherwise, and the pointer given to [strcmp] is outside the string
    exactly when the name has fewer than four characters. *)
Theorem mrc_is_mrcfile_cases filename :
  cstring filename = true -> strlen filename < 2 ^ 64 ->
  let suffix := string_drop (String.length filename - 4) filename in
  (mrc_is_mrcfile filename = Ok 1 <-> 4 <= strlen filename /\ suffix = ".mrc"%string) /\
  (mrc_is_mrcfile filename = Ok 0 <-> 4 <= strlen filename /\ suffix <> ".mrc"%string) /\
  (mrc_is_mrcfile filename = Ub OutOfBounds <-> strlen filename < 4).
Proof.
  intros Hc Hlen suffix.
  destruct (Z_lt_le_dec (strlen filename) 4) as [Hs|Hl].
  - rewrite (mrc_is_mrcfile_short filename Hs).
    split; [|split]; split; try discriminate; try lia; tauto.
  - rewrite (mrc_is_mrcfile_long filename Hc (conj Hl Hlen)). fold suffix.
    destruct (string_dec suffix ".mrc") as [He|Hne].
    + split; [|split]; split; try discriminate; try lia; tauto.
    + split; [|split]; split; try discriminate; try lia; tauto.
Qed.

Lemma mrc_is_mrcfile_cases_witness :
  mrc_is_mrcfile "tilt_series.mrc" = Ok 1 <->
  4 <= strlen "tilt_series.mrc"
  /\ string_drop (String.length "tilt_series.mrc" - 4) "tilt_series.mrc"
     = ".mrc"%string.
Proof.
  refine (proj1 (mrc_is_mrcfile_cases "tilt_series.mrc" eq_refl _)).
  vm_compute. reflexivity.
Defined.

(** X2.  The answer is a function of the last four characters: a name
    made of any stem and a four-character ending is answered 1 when the
    ending is ".mrc" and 0 otherwise, whatever the stem; the comparison
    tells upper from lower case. *)
Theorem mrc_is_mrcfile_ending stem ending :
  cstring stem = true -> cstring ending = true ->
  String.length ending = 4%nat ->
  Z.of_nat (String.length stem) + 4 < 2 ^ 64 ->
  mrc_is_mrcfile (stem ++ ending)
  = Ok (if string_dec ending ".mrc" then 1 else 0).
Proof.
  intros Hs He H4 Hlen.
  rewrite mrc_is_mrcfile_long.
  - rewrite string_length_app, H4.
    replace (String.length stem + 4 - 4)%nat with (String.length stem) by lia.
    now rewrite string_drop_app.
  - rewrite cstring_app, Hs, He. reflexivity.
  - unfold strlen. rewrite string_length_app, H4. lia.
Qed.

Lemma mrc_is_mrcfile_ending_witness :
  mrc_is_mrcfile ("scan" ++ ".MRC") = Ok 0.
Proof.
  refine (mrc_is_mrcfile_ending "scan" ".MRC" eq_refl eq_refl eq_refl _).
  vm_compute. reflexivity.
Defined.

(** ** The value returned *)

Lemma bind_inv {A B} (m : M A) (k : A -> M B) s r s' :
  bind m k s = (Ok r, s') ->
  exists a s1, m s = (Ok a, s1) /\ k a s1 = (Ok r, s').
Proof.
  unfold bind. destruct (m s) as [[a|u] s1]; [eauto | discriminate].
Qed.

Lemma fclose_inv s s' :
  fclose s = (Ok tt, s') -> fh s' = None.
Proof.
  unfold fclose, bind, emit, modify, gets, undef. norm_state.
  destruct (fh s); [|discriminate]. now intros [= <-].
Qed.

(** X3.  Whenever [mrc_read] returns, the file had been opened and the
    stream is closed again, and the value is -1 or 0: -1 exactly when one
    of the three checks on the primary header fails, and then the context
    is untouched and nothing went to [image_add]; 0 exactly when the
    three pass, and then the header announces at most 1024 planes. *)
Theorem mrc_read_returns pf files junk c code s' :
  mrc_read pf (start pf files junk c) = (Ok code, s') ->
  exists bytes,
    files (ctx_filename c) = Some bytes /\ fh s' = None /\
    let h := header pf junk bytes in
    (code = -1 /\ ctx s' = c /\ emitted (trace s') = [] /\
     (mode h <> 1 \/ nxstart h <> 0 \/ nystart h <> 0
      \/ extsize h > Z.of_nat (sizeof_MRCExtHeader pf)))
    \/ (code = 0 /\ mode h = 1 /\ nxstart h = 0 /\ nystart h = 0 /\
        extsize h <= Z.of_nat (sizeof_MRCExtHeader pf) /\
        to_u32 (nz h) <= EXT_CAPACITY).
Proof.
  intros Hrun.
  destruct (files (ctx_filename c)) as [bytes|] eqn:Hfile.
  2:{ unfold mrc_read in Hrun. rewrite prefix_null in Hrun by assumption.
      discriminate. }
  exists bytes. split; [reflexivity|]. cbv zeta.
  set (h := header pf junk bytes).
  destruct (Z.eq_dec (mode h) 1) as [Hmode|Hmode].
  2:{ rewrite (run_rejected_mode pf files junk c bytes Hfile Hmode) in Hrun.
      injection Hrun as <- <-. split; [reflexivity|]. left.
      repeat split; tauto. }
  destruct (Z.eq_dec (nxstart h) 0) as [Hx|Hx].
  2:{ rewrite (run_rejected_origin pf files junk c bytes Hfile Hmode
                 (or_introl Hx)) in Hrun.
      injection Hrun as <- <-. split; [reflexivity|]. left.
      repeat split; tauto. }
  destruct (Z.eq_dec (nystart h) 0) as [Hy|Hy].
  2:{ rewrite (run_rejected_origin pf files junk c bytes Hfile Hmode
                 (or_intror Hy)) in Hrun.
      injection Hrun as <- <-. split; [reflexivity|]. left.
      repeat split; tauto. }
  destruct (Z_gt_le_dec (extsize h) (Z.of_nat (sizeof_MRCExtHeader pf)))
    as [Hbig|Hsize].
  { rewrite (run_rejected_size pf files junk c bytes Hfile Hmode Hx Hy Hbig)
      in Hrun.
    injection Hrun as <- <-. split; [reflexivity|]. left.
      repeat split; tauto. }
  destruct (Z_lt_le_dec EXT_CAPACITY (to_u32 (nz h))) as [Hover|Hnz].
  { destruct (run_overflow pf files junk c bytes Hfile Hmode Hx Hy Hsize Hover)
      as (s & Hs).
    rewrite Hs in Hrun. discriminate. }
  unfold mrc_read in Hrun. rewrite (prefix_ok pf _ _ _ _ _ Hfile) in Hrun.
  unfold bind at 1 in Hrun. unfold gets at 1 in Hrun.
  change (hdr pf _) with h in Hrun.
  unfold bind at 1 in Hrun. unfold emit at 1, modify at 1 in Hrun.
  rewrite Hmode, Hx, Hy in Hrun. cbn [negb orb Z.eqb Pos.eqb] in Hrun.
  destruct (Z.gtb_spec (extsize h) (Z.of_nat (sizeof_MRCExtHeader pf)));
    [lia|].
  do 5 (apply bind_inv in Hrun as (? & ? & _ & Hrun)).
  apply bind_inv in Hrun as ([] & s6 & Hclose & Hret).
  unfold ret in Hret. injection Hret as <- <-.
  split; [now apply fclose_inv in Hclose|]. right. tauto.
Qed.

Lemma mrc_read_returns_witness :
  exists bytes,
    only sample_file (ctx_filename sample_ctx) = Some bytes /\
    fh (decoded sample_platform (only sample_file) sample_junk sample_ctx
          sample_file) = None.
Proof.
  destruct (mrc_read_returns sample_platform (only sample_file) sample_junk
              sample_ctx 0
              (decoded sample_platform (only sample_file) sample_junk
                 sample_ctx sample_file)
              (proj1 (run_valid sample_platform (only sample_file) sample_junk
                        sample_ctx sample_file eq_refl
                        (proj1 sample_file_valid))))
    as (bytes & Hfile & Hfh & _).
  exists bytes. split; assumption.
Defined.

(** ** The trace of a run that returns 0 *)

Lemma io_calls_app t1 t2 : io_calls (t1 ++ t2) = io_calls t1 ++ io_calls t2.
Proof. unfold io_calls. apply omap_app. Qed.

Lemma ext_done_trace xs s j st buf :
  fh s = Some st -> ext_elem j s = Some buf ->
  trace (ext_done xs s j) = trace s ++ [Efread (Bext j) xs].
Proof. intros Hfh He. unfold ext_done. now rewrite Hfh, He. Qed.

Section MrcReadTrace.

Variable pf : Platform.
Variable junk : indeterminate.
Variable bytes : list Byte.byte.
Variable files : string -> option (list Byte.byte).
Variable c : ControlContext.

Let h := header pf junk bytes.
Let s1 := opened pf files junk c bytes.
Let s3 := calibrated (ext_loaded pf s1).

Hypothesis Hxs : extsize h <= Z.of_nat (sizeof_MRCExtHeader pf).
Hypothesis Hnz : to_u32 (nz h) <= EXT_CAPACITY.
Hypothesis Hoff : forall i, 0 <= i < to_u32 (nz h) -> 0 <= plane_offset pf h i.

(** The first loop adds its reads to the trace, in the order of the
    slices. *)
Lemma ext_loop_trace (n : nat) :
  Z.of_nat n <= EXT_CAPACITY ->
  trace (foldl (ext_done (extsize h)) s1 (seqZ 0 (Z.of_nat n)))
  = trace s1 ++ ((fun i => Efread (Bext i) (extsize h)) <$> seqZ 0 (Z.of_nat n)).
Proof.
  pose proof (extsize_nonneg pf junk bytes) as Hx0. fold h in Hx0.
  induction n as [|n IH]; intros Hn.
  - reflexivity.
  - rewrite seqZ_S, foldl_app, fmap_app. simpl foldl.
    pose proof (ext_inv_loop pf junk bytes (extsize h) n s1 ltac:(lia) ltac:(lia)
                  (opened_ext_inv pf junk bytes files c (extsize h)))
      as (Hfh & _ & _ & _ & Hhi).
    erewrite ext_done_trace; [| exact Hfh |].
    + rewrite IH by lia. rewrite <- app_assoc. reflexivity.
    + unfold ext_elem.
      destruct (Z.leb_spec 0 (0 + Z.of_nat n)); [|lia].
      destruct (Z.ltb_spec (0 + Z.of_nat n) EXT_CAPACITY); [|lia].
      simpl andb. cbv iota. apply Hhi. lia.
Qed.

(** One turn of the second loop adds the events of its plane and leaves
    the context of its plane. *)
Lemma plane_step_trace s j :
  0 <= j < to_u32 (nz h) -> plane_inv s3 bytes s ->
  trace (plane_done pf s j) = trace s ++ plane_trace pf junk c bytes j
  /\ ctx (plane_done pf s j) = em_ctx (plane_of pf junk c bytes j).
Proof.
  intros Hj (Hm & He & Hi & Hf & Hfm & st & Hfh & Hc).
  destruct (calibrated_facts pf junk bytes files c Hxs Hnz)
    as (Hh3 & _ & _ & Hi3 & Hc3 & _ & Hlo).
  fold h s1 s3 in Hh3, Hi3, Hc3, Hlo.
  assert (Hb : ext_elem j s = Some (ext_record pf junk (extsize h) bytes j)).
  { rewrite <- (Hlo j Hj). unfold ext_elem. now rewrite He. }
  assert (Hh : hdr pf s = h) by (rewrite <- Hh3; unfold hdr; now rewrite Hm).
  assert (Hctx : slice_ctx pf (decode_MRCExtHeader pf (ext_record pf junk (extsize h) bytes j)) (ctx s)
                 = em_ctx (plane_of pf junk c bytes j)).
  { unfold plane_of. simpl em_ctx. fold h.
    apply slice_ctx_same; rewrite <- Hc3; assumption. }
  unfold plane_done. rewrite Hfh, Hb, Hh. norm_state. rewrite Hctx.
  split; [|reflexivity]. f_equal. unfold plane_trace. fold h. f_equal.
  unfold plane_of. simpl em_image. fold h. do 2 f_equal.
  rewrite Hi, Hi3. unfold plane_bytes.
  rewrite !sought_at by (apply Hoff; assumption). simpl content.
  now rewrite Hc.
Qed.

Lemma plane_loop_trace (n : nat) :
  Z.of_nat n <= to_u32 (nz h) ->
  trace (foldl (plane_done pf) s3 (seqZ 0 (Z.of_nat n)))
  = trace s3 ++ concat (plane_trace pf junk c bytes <$> seqZ 0 (Z.of_nat n))
  /\ ctx (foldl (plane_done pf) s3 (seqZ 0 (Z.of_nat n)))
     = ctx_after pf junk c bytes (Z.of_nat n)
  /\ plane_inv s3 bytes (foldl (plane_done pf) s3 (seqZ 0 (Z.of_nat n))).
Proof.
  destruct (calibrated_facts pf junk bytes files c Hxs Hnz)
    as (_ & Hsh & Hinv & _ & Hc3 & _ & _).
  fold h s1 s3 in Hsh, Hinv, Hc3.
  induction n as [|n IH]; intros Hn.
  - change (seqZ 0 (Z.of_nat 0)) with (@nil Z).
    change (foldl (plane_done pf) s3 []) with s3.
    change (concat _) with (@nil event). rewrite app_nil_r.
    split; [reflexivity|]. split; [exact Hc3 | exact Hinv].
  - destruct IH as (IHt & IHc & IHi); [lia|].
    rewrite seqZ_S, foldl_app, fmap_app, concat_app. simpl foldl.
    destruct (plane_step_trace _ (0 + Z.of_nat n) ltac:(lia) IHi) as [Ht Hc].
    split; [|split].
    + rewrite Ht, IHt. simpl. rewrite app_nil_r, <- app_assoc. reflexivity.
    + rewrite Hc. unfold ctx_after.
      destruct (Z.leb_spec (Z.of_nat (S n)) 0); [lia|]. do 2 f_equal. lia.
    + apply plane_inv_step; [assumption | lia | assumption].
Qed.

(** The trace and the context at the return of 0. *)
Lemma decoded_trace :
  trace (decoded pf files junk c bytes)
  = [Efopen (ctx_filename c); Efread Bmrc (Z.of_nat (sizeof_MRCHeader pf));
     Eprintf "%i images in series"]
    ++ ((fun i => Efread (Bext i) (extsize h)) <$> seqZ 0 (to_u32 (nz h)))
    ++ [Eext_load 0; Eprintf "pixel_size = %f m^-1"]
    ++ concat (plane_trace pf junk c bytes <$> seqZ 0 (to_u32 (nz h)))
    ++ [Efclose]
  /\ ctx (decoded pf files junk c bytes)
     = ctx_after pf junk c bytes (to_u32 (nz h))
  /\ ext (decoded pf files junk c bytes) = ext (ext_loaded pf s1).
Proof.
  pose proof (to_u32_range (nz h)) as Hu.
  destruct (calibrated_facts pf junk bytes files c Hxs Hnz) as (Hh3 & _).
  fold h s1 s3 in Hh3.
  destruct (plane_loop_trace (Z.to_nat (to_u32 (nz h))) ltac:(lia))
    as (Ht & Hc & Hinv).
  pose proof (ext_loop_trace (Z.to_nat (to_u32 (nz h))) ltac:(lia)) as Hte.
  rewrite Z2Nat.id in * by lia.
  unfold decoded, finished, planes_done. norm_state. fold s1 s3.
  rewrite Hh3, Ht, Hc. split; [|split; [reflexivity|]].
  - unfold s3 at 1, calibrated. norm_state. unfold ext_loaded.
    change (hdr pf s1) with h. rewrite Hte.
    unfold s1 at 1, opened. norm_state.
    rewrite <- !app_assoc. reflexivity.
  - destruct Hinv as (_ & He & _). rewrite He. reflexivity.
Qed.

End MrcReadTrace.

(** ** The calls on the stream *)

Lemma io_calls_concat {A} (f : A -> list event) (l : list A) :
  io_calls (concat (f <$> l)) = concat ((fun a => io_calls (f a)) <$> l).
Proof.
  induction l as [|a l IH]; [reflexivity|].
  rewrite !fmap_cons. cbn [concat]. now rewrite io_calls_app, IH.
Qed.

Lemma io_calls_plane_events pf h e i us c :
  io_calls (plane_events pf h e i us c)
  = [Efseek (plane_offset pf h i); Efread Bimage (plane_size h)].
Proof. unfold plane_events. now destruct (Req_dec_T (voltage e) 0). Qed.

Lemma io_calls_ext_reads xs (l : list Z) :
  io_calls ((fun i => Efread (Bext i) xs) <$> l)
  = (fun i => Efread (Bext i) xs) <$> l.
Proof. induction l as [|i l IH]; [reflexivity|]. simpl. now f_equal. Qed.

(** The offset of a plane: the product [nx*ny*2*i] is taken modulo 2^32,
    the sum is not. *)
Lemma plane_offset_mod pf h i :
  0 <= next h < 2 ^ 31 -> Z.of_nat (sizeof_MRCHeader pf) < 2 ^ 31 ->
  0 <= nx h -> 0 <= ny h -> 2 * (nx h * ny h) < 2 ^ 31 ->
  plane_offset pf h i
  = next h + Z.of_nat (sizeof_MRCHeader pf) + (2 * (nx h * ny h) * i) mod 2 ^ 32.
Proof.
  intros Hnext Hsize Hx Hy Hsmall. unfold plane_offset.
  assert (0 <= nx h * ny h) by nia.
  rewrite (to_i32_id (nx h * ny h)) by (unfold is_i32; lia).
  rewrite (to_i32_id (nx h * ny h * 2)) by (unfold is_i32; lia).
  rewrite (to_u32_id (nx h * ny h * 2)) by lia.
  pose proof (to_u32_range (nx h * ny h * 2 * i)) as Hr.
  rewrite (to_u64_id (next h)) by lia.
  rewrite (to_u64_id (next h + _)) by lia.
  rewrite to_u64_id by lia. rewrite to_i64_id by lia.
  unfold to_u32. do 2 f_equal. lia.
Qed.

(** X4.  The calls on the stream of a run on a well-formed header, in
    order: the file is opened, the primary header read, then the [nz]
    extended headers one after the other, [extsize] bytes each, then for
    each plane in turn a seek from the start of the file and one read of
    [2*nx*ny] bytes, and the stream is closed.  No plane is read before
    the last extended header, and every plane is reached by an absolute
    seek. *)
Theorem mrc_read_io_calls pf files junk c bytes :
  let h := header pf junk bytes in
  let run := mrc_read pf (start pf files junk c) in
  files (ctx_filename c) = Some bytes -> valid_header pf h ->
  io_calls (trace (snd run))
  = [Efopen (ctx_filename c); Efread Bmrc (Z.of_nat (sizeof_MRCHeader pf))]
    ++ ((fun i => Efread (Bext i) (extsize h)) <$> seqZ 0 (nz h))
    ++ concat ((fun i =>
                  [Efseek (next h + Z.of_nat (sizeof_MRCHeader pf)
                           + (2 * (nx h * ny h) * i) mod 2 ^ 32);
                   Efread Bimage (2 * (nx h * ny h))]) <$> seqZ 0 (nz h))
    ++ [Efclose].
Proof.
  intros h run Hfile Hv. unfold run.
  destruct (run_valid pf files junk c bytes Hfile Hv) as [Hrun _].
  pose proof (valid_header_u32 pf h Hv) as Hu.
  destruct Hv as (Hmode & Hxs & Hys & Hext & Hnz & Hx & Hy & Hsmall & Hnext & Hsz).
  rewrite Hrun. simpl snd.
  destruct (decoded_trace pf junk bytes files c) as (Ht & _).
  - exact Hext.
  - fold h. rewrite Hu. lia.
  - intros i _. now apply plane_offset_nonneg.
  - rewrite Ht. fold h. rewrite Hu.
    rewrite !io_calls_app, io_calls_ext_reads, io_calls_concat.
    change (io_calls [Eext_load 0; Eprintf _]) with (@nil event).
    rewrite app_nil_l.
    apply (f_equal2 app); [reflexivity|].
    apply (f_equal2 app); [reflexivity|].
    apply (f_equal2 app); [|reflexivity]. f_equal.
    apply list_fmap_ext. intros _ i _.
    unfold plane_trace. fold h. rewrite io_calls_plane_events.
    rewrite (proj2 (plane_sizes h Hx Hy Hsmall)).
    now rewrite plane_offset_mod.
Qed.

Lemma mrc_read_io_calls_witness :
  io_calls (trace (snd (mrc_read sample_platform
     (start sample_platform (only sample_file) sample_junk sample_ctx))))
  = [Efopen "scan.mrc"; Efread Bmrc 36;
     Efread (Bext 0) 8; Efread (Bext 1) 8;
     Efseek 52; Efread Bimage 8; Efseek 60; Efread Bimage 8;
     Efclose].
Proof.
  rewrite (mrc_read_io_calls sample_platform (only sample_file) sample_junk
             sample_ctx sample_file eq_refl (proj1 sample_file_valid)).
  vm_compute. reflexivity.
Defined.

(** X5.  The offset given to [fseek] for the plane [i] is
    [next + sizeof(MRCHeader) + (2*nx*ny*i mod 2^32)]: it is the place of
    the plane while [2*nx*ny*i] is below 2^32, and falls short of it by a
    multiple of 2^32 from there on. *)
Theorem plane_offset_wraps pf h i :
  0 <= next h < 2 ^ 31 -> Z.of_nat (sizeof_MRCHeader pf) < 2 ^ 31 ->
  0 <= nx h -> 0 <= ny h -> 2 * (nx h * ny h) < 2 ^ 31 -> 0 <= i ->
  let place := next h + Z.of_nat (sizeof_MRCHeader pf) + 2 * (nx h * ny h) * i in
  plane_offset pf h i = place - 2 ^ 32 * ((2 * (nx h * ny h) * i) / 2 ^ 32) /\
  (2 * (nx h * ny h) * i < 2 ^ 32 -> plane_offset pf h i = place) /\
  (2 ^ 32 <= 2 * (nx h * ny h) * i -> plane_offset pf h i <= place - 2 ^ 32).
Proof.
  intros Hnext Hsize Hx Hy Hsmall Hi place.
  rewrite plane_offset_mod by assumption.
  assert (0 <= 2 * (nx h * ny h) * i) by nia.
  pose proof (Z.div_mod (2 * (nx h * ny h) * i) (2 ^ 32) ltac:(lia)) as Hdm.
  split; [unfold place; lia|]. split.
  - intros Hfit. rewrite Z.mod_small by lia. reflexivity.
  - intros Hbig.
    assert (1 <= (2 * (nx h * ny h) * i) / 2 ^ 32)
      by (apply Z.div_le_lower_bound; lia).
    unfold place. lia.
Qed.

(** A header of planes of 2^30 bytes: the plane 4 is sought where the
    plane 0 is. *)
Lemma plane_offset_wraps_witness :
  plane_offset sample_platform
    {| nx := 32768; ny := 16384; nz := 8; mode := 1; nxstart := 0;
       nystart := 0; numintegers := 0; numfloats := 2; next := 64 |} 4
  = 64 + 36.
Proof.
  refine (eq_trans (proj1 (plane_offset_wraps sample_platform
            {| nx := 32768; ny := 16384; nz := 8; mode := 1; nxstart := 0;
               nystart := 0; numintegers := 0; numfloats := 2; next := 64 |} 4
            _ _ _ _ _ _)) _);
    vm_compute; first [reflexivity | discriminate | split; discriminate | split; [discriminate | reflexivity]].
Defined.

(** ** The calibration of the planes *)

(** X6.  In a run on a well-formed header, the context handed to
    [image_add] with the plane [i] carries the calibration of the slice
    [i], read from [ext[i]]: the magnification as camera length, the
    wavelength of its voltage, its tilt axis and tilt angle in radians,
    its pixel size; the mode of formulation is [FORMULATION_PIXELSIZE] and
    the file name is the caller's.  The context the caller gets back is
    the one of the last plane; with no plane at all, only the mode of
    formulation has changed. *)
Theorem mrc_read_calibration pf files junk c bytes :
  let h := header pf junk bytes in
  let run := mrc_read pf (start pf files junk c) in
  files (ctx_filename c) = Some bytes -> valid_header pf h ->
  (forall i, 0 <= i < nz h ->
     exists p, emitted (trace (snd run)) !! Z.to_nat i = Some p /\
       let e := decode_MRCExtHeader pf (ext_record pf junk (extsize h) bytes i) in
       ext (snd run) !! Z.to_nat i = Some (ext_record pf junk (extsize h) bytes i) /\
       em_tilt p = deg2rad pf (a_tilt e) /\
       ctx_camera_length (em_ctx p) = magnification e /\
       ctx_lambda (em_ctx p)
       = (if Req_dec_T (voltage e) 0 then lambda pf 200000
          else lambda pf (1000 * voltage e))%R /\
       ctx_omega (em_ctx p) = deg2rad pf (tilt_axis e) /\
       ctx_pixel_size (em_ctx p) = pixel_size e /\
       ctx_fmode (em_ctx p) = FORMULATION_PIXELSIZE /\
       ctx_filename (em_ctx p) = ctx_filename c) /\
  (0 < nz h ->
   em_ctx <$> last (emitted (trace (snd run))) = Some (ctx (snd run))) /\
  (nz h = 0 -> ctx (snd run) = set_fmode FORMULATION_PIXELSIZE c).
Proof.
  intros h run Hfile Hv. unfold run.
  destruct (run_valid pf files junk c bytes Hfile Hv) as [Hrun Hem].
  pose proof (valid_header_u32 pf h Hv) as Hu. fold h in Hem.
  pose proof Hv as (Hmode & Hxs & Hys & Hext & Hnz & Hx & Hy & Hsmall & Hnext & Hsz).
  rewrite Hrun. simpl snd. rewrite Hem.
  destruct (decoded_trace pf junk bytes files c) as (_ & Hc & Hext').
  { exact Hext. }
  { fold h. rewrite Hu. lia. }
  { intros i _. now apply plane_offset_nonneg. }
  fold h in Hc. rewrite Hu in Hc.
  split; [|split].
  - intros i Hi. exists (plane_of pf junk c bytes i). split.
    { rewrite list_lookup_fmap.
      rewrite (proj2 (lookup_seqZ 0 (nz h) (Z.to_nat i) i)) by lia.
      reflexivity. }
    split; [|repeat split].
    rewrite Hext'.
    pose proof (extsize_nonneg pf junk bytes) as Hx0. fold h in Hx0.
    pose proof (ext_inv_loop pf junk bytes (extsize h) (Z.to_nat (nz h))
                  (opened pf files junk c bytes) ltac:(lia) ltac:(lia)
                  (opened_ext_inv pf junk bytes files c (extsize h)))
      as (_ & _ & _ & Hlo & _).
    rewrite Z2Nat.id in Hlo by lia.
    unfold ext_loaded. change (hdr pf (opened pf files junk c bytes)) with h.
    rewrite Hu. apply Hlo. lia.
  - intros Hpos. rewrite Hc. unfold ctx_after.
    destruct (Z.leb_spec (nz h) 0); [lia|].
    replace (nz h) with (Z.of_nat (S (Z.to_nat (nz h - 1)))) at 1 by lia.
    rewrite seqZ_S, fmap_app.
    change ((plane_of pf junk c bytes <$> [0 + Z.of_nat (Z.to_nat (nz h - 1))]))
      with [plane_of pf junk c bytes (0 + Z.of_nat (Z.to_nat (nz h - 1)))].
    rewrite last_snoc. cbn [fmap option_fmap option_map].
    do 3 f_equal. lia.
  - intros H0. rewrite Hc. unfold ctx_after. now rewrite H0.
Qed.

Lemma mrc_read_calibration_witness :
  em_ctx <$> last (emitted (trace (snd (mrc_read sample_platform
     (start sample_platform (only sample_file) sample_junk sample_ctx)))))
  = Some (ctx (snd (mrc_read sample_platform
     (start sample_platform (only sample_file) sample_junk sample_ctx)))).
Proof.
  refine (proj1 (proj2 (mrc_read_calibration sample_platform (only sample_file)
             sample_junk sample_ctx sample_file eq_refl
             (proj1 sample_file_valid))) _).
  vm_compute. reflexivity.
Defined.

(** ** The samples handed on *)

(** X7.  In a run on a well-formed header, complete file or not, every
    sample of every plane handed to [image_add] is between 0 and 32767:
    the upper half of the range of [uint16_t] is never used. *)
Theorem mrc_read_sample_range pf files junk c bytes :
  let h := header pf junk bytes in
  let run := mrc_read pf (start pf files junk c) in
  files (ctx_filename c) = Some bytes -> valid_header pf h ->
  forall p v, p ∈ emitted (trace (snd run)) -> v ∈ em_image p ->
              0 <= v < 2 ^ 15.
Proof.
  intros h run Hfile Hv p v Hp Hin. unfold run in Hp.
  destruct (run_valid pf files junk c bytes Hfile Hv) as [Hrun Hem].
  rewrite Hrun in Hp. simpl snd in Hp. rewrite Hem in Hp.
  apply list_elem_of_fmap in Hp as (i & -> & _).
  unfold plane_of in Hin. simpl em_image in Hin.
  apply list_elem_of_fmap in Hin as (w & -> & Hw).
  apply list_elem_of_lookup in Hw as (k & Hk).
  pose proof (samples_in_range pf _ _ _ Hk) as Hr.
  rewrite clip16_max by assumption. unfold is_i16 in Hr. lia.
Qed.

Lemma mrc_read_sample_range_witness :
  Forall (fun p => Forall (fun v => 0 <= v < 2 ^ 15) (em_image p))
    (emitted (trace (snd (mrc_read sample_platform
       (start sample_platform (only truncated_file) sample_junk sample_ctx))))).
Proof.
  apply Forall_forall. intros p Hp. apply Forall_forall. intros v Hv.
  exact (mrc_read_sample_range sample_platform (only truncated_file)
           sample_junk sample_ctx truncated_file eq_refl truncated_file_valid
           p v Hp Hv).
Defined.

(** ** The array [ext] at the return *)

(** X8.  After a run on a well-formed header, [ext[i]] for a slice [i]
    holds the bytes the file has at [sizeof(MRCHeader) + i*extsize],
    [extsize] of them at most, and behind them the bytes it held before
    the call: what lies in [ext[i]] from [extsize] on is never written.
    The elements from [nz] on are as they were before the call. *)
Theorem mrc_read_ext_array pf files junk c bytes :
  let h := header pf junk bytes in
  let run := mrc_read pf (start pf files junk c) in
  let before i := ind_ext junk (Z.to_nat i) <$> seq 0 (sizeof_MRCExtHeader pf) in
  files (ctx_filename c) = Some bytes -> valid_header pf h ->
  length (ext (snd run)) = 1024%nat /\
  (forall i, 0 <= i < nz h ->
     exists r, ext (snd run) !! Z.to_nat i = Some r /\
       length r = sizeof_MRCExtHeader pf /\
       let got := take (Z.to_nat (extsize h))
                    (drop (Z.to_nat (Z.of_nat (sizeof_MRCHeader pf)
                                     + i * extsize h)) bytes) in
       take (length got) r = got /\
       drop (length got) r = drop (length got) (before i) /\
       drop (Z.to_nat (extsize h)) r = drop (Z.to_nat (extsize h)) (before i)) /\
  (forall i, nz h <= i < 1024 ->
     ext (snd run) !! Z.to_nat i = Some (before i)).
Proof.
  intros h run before Hfile Hv. unfold run.
  destruct (run_valid pf files junk c bytes Hfile Hv) as [Hrun _].
  pose proof (valid_header_u32 pf h Hv) as Hu.
  pose proof Hv as (Hmode & Hxs & Hys & Hext & Hnz & Hx & Hy & Hsmall & Hnext & Hsz).
  rewrite Hrun. simpl snd.
  destruct (decoded_trace pf junk bytes files c) as (_ & _ & Hext').
  { exact Hext. }
  { fold h. rewrite Hu. lia. }
  { intros i _. now apply plane_offset_nonneg. }
  rewrite Hext'.
  pose proof (extsize_nonneg pf junk bytes) as Hx0. fold h in Hx0.
  pose proof (ext_inv_loop pf junk bytes (extsize h) (Z.to_nat (nz h))
                (opened pf files junk c bytes) ltac:(lia) ltac:(lia)
                (opened_ext_inv pf junk bytes files c (extsize h)))
    as (_ & [Hlen Hall] & _ & Hlo & Hhi).
  rewrite Z2Nat.id in * by lia.
  unfold ext_loaded. change (hdr pf (opened pf files junk c bytes)) with h.
  rewrite Hu.
  split; [exact Hlen|]. split.
  - intros i Hi. exists (ext_record pf junk (extsize h) bytes i).
    split; [apply Hlo; assumption|].
    split.
    { rewrite Forall_lookup in Hall. eapply Hall, Hlo, Hi. }
    unfold ext_record, filled, transfer. simpl content. simpl pos.
    fold (before i).
    set (got := take (Z.to_nat (extsize h)) _).
    split; [apply take_app_length|]. split; [apply drop_app_length|].
    assert (length got <= Z.to_nat (extsize h))%nat
      by (unfold got; rewrite length_take; lia).
    rewrite drop_app_ge by assumption. rewrite drop_drop. f_equal. lia.
  - intros i Hi. apply Hhi. unfold EXT_CAPACITY. lia.
Qed.

Lemma mrc_read_ext_array_witness :
  length (ext (snd (mrc_read sample_platform
     (start sample_platform (only sample_file) sample_junk sample_ctx))))
  = 1024%nat.
Proof.
  exact (proj1 (mrc_read_ext_array sample_platform (only sample_file)
                  sample_junk sample_ctx sample_file eq_refl
                  (proj1 sample_file_valid))).
Defined.

(** ** Negative fields in the primary header *)

(** X9.  [extsize] is an [unsigned int]: a negative sum
    [4*numintegers + 4*numfloats] becomes a size of 2^31 or more, above
    the size of any structure, and [mrc_read] returns -1 with the
    primary header the only record read, the stream closed, the context
    untouched and no plane emitted. *)
Theorem negative_ext_rejected pf files junk c bytes :
  let h := header pf junk bytes in
  let run := mrc_read pf (start pf files junk c) in
  let sum := 4 * numintegers h + 4 * numfloats h in
  files (ctx_filename c) = Some bytes ->
  - 2 ^ 31 <= sum < 0 ->
  Z.of_nat (sizeof_MRCExtHeader pf) < 2 ^ 31 ->
  extsize h = sum + 2 ^ 32 /\
  fst run = Ok (-1) /\ fh (snd run) = None /\ ctx (snd run) = c /\
  reads (trace (snd run)) = [Bmrc] /\ emitted (trace (snd run)) = [] /\
  ext (snd run) = ext (start pf files junk c).
Proof.
  intros h run sum Hfile Hsum Hsz.
  assert (Hext : extsize h = sum + 2 ^ 32).
  { rewrite extsize_mod. fold sum. symmetry.
    apply (Z.mod_unique_pos _ _ (-1)); lia. }
  split; [exact Hext|].
  assert (Hbig : extsize h > Z.of_nat (sizeof_MRCExtHeader pf)) by lia.
  unfold run.
  destruct (Z.eq_dec (mode h) 1) as [Hmode|Hmode].
  - destruct (Z.eq_dec (nxstart h) 0) as [Hx|Hx];
      [destruct (Z.eq_dec (nystart h) 0) as [Hy|Hy]|].
    + rewrite (run_rejected_size pf files junk c bytes Hfile Hmode Hx Hy Hbig).
      split; [reflexivity|].
      pose proof (rejected_facts pf files junk c bytes true
                    "MR: MRC extended header is too big - tweak mrc.h"). tauto.
    + rewrite (run_rejected_origin pf files junk c bytes Hfile Hmode (or_intror Hy)).
      split; [reflexivity|].
      pose proof (rejected_facts pf files junk c bytes true
                    "MR: Image origin must be at zero: found at %i,%i"). tauto.
    + rewrite (run_rejected_origin pf files junk c bytes Hfile Hmode (or_introl Hx)).
      split; [reflexivity|].
      pose proof (rejected_facts pf files junk c bytes true
                    "MR: Image origin must be at zero: found at %i,%i"). tauto.
  - rewrite (run_rejected_mode pf files junk c bytes Hfile Hmode).
    split; [reflexivity|].
    pose proof (rejected_facts pf files junk c bytes false
                  "MR: Unknown MRC image mode (must be 16-bit signed)"). tauto.
Qed.

Lemma negative_ext_rejected_witness :
  extsize (header sample_platform sample_junk negext_file) = 2 ^ 32 - 4 /\
  fst (mrc_read sample_platform
         (start sample_platform (only negext_file) sample_junk sample_ctx))
  = Ok (-1).
Proof.
  split; [reflexivity|].
  refine (proj1 (proj2
            (negative_ext_rejected sample_platform (only negext_file) sample_junk
               sample_ctx negext_file eq_refl _ _)));
    vm_compute; repeat split; discriminate.
Defined.

(** The sizes of a plane whose area [nx*ny] is a non-negative [int]. *)
Lemma plane_sizes_area h :
  0 <= nx h * ny h -> 2 * (nx h * ny h) < 2 ^ 31 ->
  plane_alloc h = 2 * (nx h * ny h) /\ plane_size h = 2 * (nx h * ny h).
Proof.
  intros Hp Hsmall. unfold plane_alloc, plane_size.
  replace (ny h * nx h) with (nx h * ny h) by lia.
  rewrite (to_i32_id (nx h * ny h)) by (unfold is_i32; lia).
  rewrite (to_i32_id (nx h * ny h * 2)) by (unfold is_i32; lia).
  rewrite (to_u64_id (nx h * ny h)) by lia.
  rewrite !to_u64_id by lia. lia.
Qed.

(** The request to [malloc] for a plane whose area is a negative [int]. *)
Lemma plane_alloc_negative h :
  - 2 ^ 31 <= nx h * ny h < 0 ->
  plane_alloc h = 2 ^ 64 + 2 * (nx h * ny h).
Proof.
  intros Hp. unfold plane_alloc.
  replace (ny h * nx h) with (nx h * ny h) by lia.
  rewrite (to_i32_id (nx h * ny h)) by (unfold is_i32; lia).
  assert (H1 : to_u64 (nx h * ny h) = 2 ^ 64 + nx h * ny h).
  { unfold to_u64. symmetry. apply (Z.mod_unique_pos _ _ (-1)); lia. }
  rewrite H1. unfold to_u64. symmetry.
  apply (Z.mod_unique_pos _ _ 1); lia.
Qed.

(** The run up to the second loop, when the three checks pass and the
    counter stays inside [ext]. *)
Lemma run_calibrated pf files junk c bytes :
  let h := header pf junk bytes in
  files (ctx_filename c) = Some bytes ->
  mode h = 1 -> nxstart h = 0 -> nystart h = 0 ->
  extsize h <= Z.of_nat (sizeof_MRCExtHeader pf) ->
  to_u32 (nz h) <= EXT_CAPACITY ->
  mrc_read pf (start pf files junk c)
  = (for_ (Z.to_nat (to_u32 (nz h))) 0 (plane_body pf) ;; fclose ;; ret 0)
      (calibrated (ext_loaded pf (opened pf files junk c bytes))).
Proof.
  intros h Hfile Hmode Hxs Hys Hsize Hnz. unfold mrc_read.
  rewrite (prefix_ok pf _ _ _ _ _ Hfile).
  unfold bind at 1. unfold gets at 1.
  change (hdr pf _) with h.
  unfold bind at 1. unfold emit at 1, modify at 1. norm_state.
  rewrite Hmode, Hxs, Hys. cbn [negb orb Z.eqb Pos.eqb].
  destruct (Z.gtb_spec (extsize h) (Z.of_nat (sizeof_MRCExtHeader pf))); [lia|].
  pose proof (to_u32_range (nz h)) as Hu.
  change (set_trace (_ ++ [Eprintf _]) _) with (opened pf files junk c bytes).
  set (s1 := opened pf files junk c bytes).
  destruct (ext_loop_ok pf (extsize h) (Z.to_nat (to_u32 (nz h))) s1
              (advance (Z.of_nat (sizeof_MRCHeader pf)) {| content := bytes; pos := 0 |}))
    as (Hext & Hsh & st2 & Hfh2 & Hc2);
    [reflexivity | apply opened_shaped | lia | lia |].
  rewrite Z2Nat.id in * by lia.
  rewrite (bind_ok _ _ _ _ _ Hext).
  change (foldl _ s1 _) with (ext_loaded pf s1) in *.
  set (s2 := ext_loaded pf s1) in *.
  destruct (ext_elem_in pf s2 0 Hsh ltac:(unfold EXT_CAPACITY; lia)) as (buf0 & He0 & _).
  erewrite bind_ok; [|apply ext_field_ok; exact He0].
  unfold bind at 1. unfold emit at 1, modify at 1. norm_state.
  unfold bind at 1. unfold modify at 1. norm_state.
  rewrite <- app_assoc. reflexivity.
Qed.

(** One turn of the second loop when [malloc] cannot serve the request:
    both pointers are null, the context is assigned all the same, and
    [fread] is called with the null pointer. *)
Lemma plane_body_null pf h i s st buf :
  hdr pf s = h -> fh s = Some st -> ext_elem i s = Some buf ->
  MALLOC_MAX < plane_alloc h ->
  exists s',
    plane_body pf i s = (Ub NullBuffer, s') /\
    trace s'
    = trace s
      ++ [Eext_load i; Eext_load i; Eext_load i;
          Eprintf "Image #%3i: tilt=%f deg omega=%f deg L=%f m";
          Eext_load i; Eext_load i]
      ++ (if Req_dec_T (voltage (decode_MRCExtHeader pf buf)) 0
          then [] else [Eext_load i])
      ++ [Eext_load i; Eext_load i;
          Efseek (plane_offset pf h i); Efread Bimage (plane_size h)] /\
    fh s' = Some (sought (plane_offset pf h i) st).
Proof.
  intros Hh Hfh He Hbig.
  assert (Hm : forall j, malloc j (plane_alloc h) = None).
  { intros j. unfold malloc.
    destruct (Z.leb_spec (plane_alloc h) MALLOC_MAX); [lia|reflexivity]. }
  unfold plane_body.
  unfold bind at 1. unfold gets at 1. rewrite Hh.
  unfold bind at 1. unfold modify at 1.
  unfold bind at 1. unfold modify at 1.
  rewrite !Hm. norm_state.
  do 3 (erewrite bind_ok; [|apply ext_field_ok; exact He]; norm_state).
  unfold bind at 1. unfold emit at 1. unfold modify at 1. norm_state.
  erewrite bind_ok; [|apply ext_field_ok; exact He]. norm_state.
  unfold bind at 1. unfold modify at 1. norm_state.
  erewrite bind_ok; [|apply set_wavelength_ok; exact He]. norm_state.
  erewrite bind_ok; [|apply ext_field_ok; exact He]. norm_state.
  unfold bind at 1. unfold modify at 1. norm_state.
  erewrite bind_ok; [|apply ext_field_ok; exact He]. norm_state.
  unfold bind at 1. unfold modify at 1. norm_state.
  erewrite bind_ok; [|apply fseek_ok; exact Hfh]. norm_state.
  eexists. split.
  { apply bind_ub. unfold fread_image.
    unfold bind at 1. unfold gets at 1.
    change (hdr pf _) with (hdr pf s). rewrite Hh.
    unfold bind at 1. unfold gets at 1. norm_state.
    unfold bind, emit, modify, undef. norm_state. reflexivity. }
  norm_state. split; [|reflexivity].
  rewrite <- !app_assoc. reflexivity.
Qed.

(** X10.  The sign of [nx] and [ny] is not checked.  When the area
    [nx*ny] is negative, the three checks pass and there is a plane to
    read, the request to [malloc] is [2^64 + 2*nx*ny] bytes, which it
    cannot serve; its result is not tested, and the run ends in the
    [fread] of the first plane, called with the null pointer: the
    extended headers are read, nothing goes to [image_add] and the
    stream is left open. *)
Theorem negative_area_null_buffer pf files junk c bytes :
  let h := header pf junk bytes in
  let run := mrc_read pf (start pf files junk c) in
  files (ctx_filename c) = Some bytes ->
  mode h = 1 -> nxstart h = 0 -> nystart h = 0 ->
  extsize h <= Z.of_nat (sizeof_MRCExtHeader pf) ->
  0 < to_u32 (nz h) <= EXT_CAPACITY ->
  - 2 ^ 31 <= nx h * ny h < 0 ->
  plane_alloc h = 2 ^ 64 + 2 * (nx h * ny h) /\
  malloc (ind_image junk 0) (plane_alloc h) = None /\
  fst run = Ub NullBuffer /\
  emitted (trace (snd run)) = [] /\
  io_calls (trace (snd run))
  = [Efopen (ctx_filename c); Efread Bmrc (Z.of_nat (sizeof_MRCHeader pf))]
    ++ ((fun i => Efread (Bext i) (extsize h)) <$> seqZ 0 (to_u32 (nz h)))
    ++ [Efseek (plane_offset pf h 0); Efread Bimage (plane_size h)] /\
  fh (snd run) <> None.
Proof.
  intros h run Hfile Hmode Hxs Hys Hsize Hnz Harea.
  pose proof (plane_alloc_negative h Harea) as Halloc.
  assert (Hbig : MALLOC_MAX < plane_alloc h)
    by (rewrite Halloc; unfold MALLOC_MAX; lia).
  split; [exact Halloc|]. split.
  { unfold malloc.
    destruct (Z.leb_spec (plane_alloc h) MALLOC_MAX); [lia|reflexivity]. }
  destruct (calibrated_facts pf junk bytes files c Hsize (proj2 Hnz))
    as (Hh3 & _ & Hinv & _ & _ & Hem & Hlo).
  fold h in Hh3, Hlo.
  destruct Hinv as (_ & _ & _ & _ & _ & st & Hfh & _).
  set (s3 := calibrated (ext_loaded pf (opened pf files junk c bytes))) in *.
  destruct (plane_body_null pf h 0 s3 st _ Hh3 Hfh (Hlo 0 ltac:(lia)) Hbig)
    as (s' & Hbody & Ht & Hfh').
  assert (Hrun : run = (Ub NullBuffer, s')).
  { unfold run.
    rewrite (run_calibrated pf files junk c bytes Hfile Hmode Hxs Hys Hsize
               (proj2 Hnz)).
    fold h s3.
    destruct (Z.to_nat (to_u32 (nz h))) as [|n] eqn:Hn; [lia|].
    apply bind_ub. cbn [for_]. apply bind_ub. exact Hbody. }
  rewrite Hrun. cbn [fst snd].
  split; [reflexivity|]. split; [|split].
  - rewrite Ht, !emitted_app, Hem.
    now destruct (Req_dec_T _ 0).
  - rewrite Ht, !io_calls_app.
    pose proof (to_u32_range (nz h)) as Hu.
    pose proof (ext_loop_trace pf junk bytes files c Hsize
                  (Z.to_nat (to_u32 (nz h))) ltac:(lia)) as Hte.
    rewrite Z2Nat.id in Hte by lia.
    unfold s3 at 1, calibrated. norm_state. unfold ext_loaded.
    change (hdr pf (opened pf files junk c bytes)) with h.
    fold h in Hte. rewrite Hte, !io_calls_app, io_calls_ext_reads.
    destruct (Req_dec_T _ 0); rewrite <- !app_assoc; reflexivity.
  - rewrite Hfh'. discriminate.
Qed.

Lemma negative_area_null_buffer_witness :
  plane_alloc (header sample_platform sample_junk negwidth_file) = 2 ^ 64 - 8 /\
  fst (mrc_read sample_platform
         (start sample_platform (only negwidth_file) sample_junk sample_ctx))
  = Ub NullBuffer.
Proof.
  split; [reflexivity|].
  refine (proj1 (proj2 (proj2
            (negative_area_null_buffer sample_platform (only negwidth_file)
               sample_junk sample_ctx negwidth_file eq_refl _ _ _ _ _ _))));
    vm_compute; repeat split; first [reflexivity | discriminate].
Defined.

(** The two loops over [x] and [y] with a dimension that is not
    positive: no turn of the inner body. *)
Lemma clip_loops_skip pf s :
  nx (hdr pf s) <= 0 \/ ny (hdr pf s) <= 0 ->
  clip_loops pf s = (Ok tt, s).
Proof.
  intros Hdim. unfold clip_loops. unfold bind at 1. unfold gets at 1.
  destruct (for_inv (fun _ s' => s' = s)
              (fun x => h <- gets (hdr pf) ;;
                        for_ (Z.to_nat (ny h)) 0 (fun y => clip_at pf x y))
              (Z.to_nat (nx (hdr pf s))) 0 s) as (s' & Hrun & ->).
  - intros j s' Hj ->. exists s. split; [|reflexivity].
    unfold bind at 1. unfold gets at 1.
    replace (Z.to_nat (ny (hdr pf s))) with 0%nat by lia. reflexivity.
  - reflexivity.
  - exact Hrun.
Qed.

(** X11.  One turn of the loop over the planes when a dimension is not
    positive while the area [nx*ny] is a non-negative [int] (both
    negative, say): the two blocks are allocated and the plane is read,
    but neither loop over [x] and [y] has a turn, so [uimage] goes to
    [image_add] as [malloc] returned it, indeterminate, together with the
    dimensions as they are in the header. *)
Theorem plane_body_unwritten pf i s st buf :
  let h := hdr pf s in
  let e := decode_MRCExtHeader pf buf in
  fh s = Some st -> ext_elem i s = Some buf ->
  nx h <= 0 \/ ny h <= 0 ->
  0 <= nx h * ny h -> 2 * (nx h * ny h) < 2 ^ 31 ->
  exists s',
    plane_body pf i s = (Ok tt, s') /\
    emitted (trace s')
    = emitted (trace s)
      ++ [{| em_image := words pf (ind_uimage (ind s) i
                                   <$> seq 0 (Z.to_nat (2 * (nx h * ny h))));
             em_width := nx h; em_height := ny h;
             em_tilt := deg2rad pf (a_tilt e);
             em_ctx := slice_ctx pf e (ctx s) |}] /\
    io_calls (trace s')
    = io_calls (trace s)
      ++ [Efseek (plane_offset pf h i); Efread Bimage (2 * (nx h * ny h))].
Proof.
  intros h e Hfh He Hdim Hp Hsmall.
  destruct (plane_sizes_area h Hp Hsmall) as [Halloc Hsize].
  assert (Hh : hdr pf s = h) by reflexivity. clearbody h.
  unfold plane_body.
  unfold bind at 1. unfold gets at 1. rewrite Hh.
  unfold bind at 1. unfold modify at 1.
  unfold bind at 1. unfold modify at 1.
  rewrite !malloc_ok by (rewrite Halloc; unfold MALLOC_MAX; lia).
  norm_state.
  do 3 (erewrite bind_ok; [|apply ext_field_ok; exact He]; norm_state).
  unfold bind at 1. unfold emit at 1. unfold modify at 1. norm_state.
  erewrite bind_ok; [|apply ext_field_ok; exact He]. norm_state.
  unfold bind at 1. unfold modify at 1. norm_state.
  erewrite bind_ok; [|apply set_wavelength_ok; exact He]. norm_state.
  erewrite bind_ok; [|apply ext_field_ok; exact He]. norm_state.
  unfold bind at 1. unfold modify at 1. norm_state.
  erewrite bind_ok; [|apply ext_field_ok; exact He]. norm_state.
  unfold bind at 1. unfold modify at 1. norm_state.
  erewrite bind_ok; [|apply fseek_ok; exact Hfh]. norm_state.
  erewrite bind_ok.
  2:{ unfold fread_image. unfold bind at 1. unfold gets at 1.
      change (hdr pf _) with (hdr pf s). rewrite Hh.
      unfold bind at 1. unfold gets at 1. norm_state.
      erewrite bind_ok.
      2:{ apply fread_ok; [reflexivity|].
          rewrite length_fmap, length_seq, Halloc, Hsize. lia. }
      reflexivity. }
  norm_state.
  erewrite bind_ok.
  2:{ apply clip_loops_skip. change (hdr pf _) with (hdr pf s).
      rewrite Hh. exact Hdim. }
  unfold bind at 1. unfold modify at 1. norm_state.
  erewrite bind_ok; [|apply ext_field_ok; exact He]. norm_state.
  eexists. split.
  { unfold image_add, bind, gets, emit, modify. norm_state. reflexivity. }
  norm_state. unfold hdr. norm_state. fold (hdr pf s). rewrite Hh.
  rewrite Halloc, Hsize.
  split.
  - rewrite !emitted_app. cbn [emitted].
    destruct (Req_dec_T _ 0); cbn [emitted app]; rewrite ?app_nil_r;
      reflexivity.
  - rewrite !io_calls_app.
    destruct (Req_dec_T _ 0); cbn; rewrite ?app_nil_r, <- ?app_assoc;
      reflexivity.
Qed.

Lemma plane_body_unwritten_witness :
  exists s',
    plane_body sample_platform 0
      (opened sample_platform (only negboth_file) sample_junk sample_ctx
         negboth_file)
    = (Ok tt, s') /\
    em_image <$> emitted (trace s') = [[65535; 65535; 65535; 65535]].
Proof.
  destruct (plane_body_unwritten sample_platform 0
              (opened sample_platform (only negboth_file) sample_junk
                 sample_ctx negboth_file) _ _ eq_refl eq_refl)
    as (s' & Hrun & Hem & _).
  - left. vm_compute. discriminate.
  - vm_compute. discriminate.
  - vm_compute. reflexivity.
  - exists s'. split; [exact Hrun|]. rewrite Hem. reflexivity.
Defined.

(** ** A seek that fails *)

(** The offset of the first plane when [next] is so negative that the sum
    with the size of the primary header is. *)
Lemma plane_offset_first pf h :
  - 2 ^ 63 <= next h + Z.of_nat (sizeof_MRCHeader pf) < 0 ->
  plane_offset pf h 0 = next h + Z.of_nat (sizeof_MRCHeader pf).
Proof.
  intros Hneg. unfold plane_offset. rewrite Z.mul_0_r.
  change (to_u32 0) with 0. rewrite Z.add_0_r.
  unfold to_u64, to_i64.
  rewrite Zmod_mod, Zplus_mod_idemp_l, <- Z.add_assoc, Zplus_mod_idemp_l.
  rewrite Z.mod_small by lia. lia.
Qed.

(** The second loop only adds to the trace. *)
Lemma plane_loop_extends pf (l : list Z) :
  forall s, exists t, trace (foldl (plane_done pf) s l) = trace s ++ t.
Proof.
  induction l as [|i l IH]; intros s.
  - exists []. now rewrite app_nil_r.
  - destruct (IH (plane_done pf s i)) as (t & Ht).
    cbn [foldl]. rewrite Ht. unfold plane_done.
    destruct (fh s), (ext_elem i s); norm_state;
      [rewrite <- app_assoc|..]; eauto.
Qed.

(** X12.  The value of [fseek] is not tested either.  When [next] is
    negative, below minus the size of the primary header, the offset of
    the first plane is negative, the seek fails and leaves the stream
    where the first loop left it; the run goes on and returns 0, and the
    first plane handed to [image_add] is made of the bytes that follow
    the last extended header, not of the bytes at [next]. *)
Theorem failed_seek_reads_on pf files junk c bytes :
  let h := header pf junk bytes in
  let run := mrc_read pf (start pf files junk c) in
  let area := nx h * ny h in
  files (ctx_filename c) = Some bytes ->
  mode h = 1 -> nxstart h = 0 -> nystart h = 0 ->
  extsize h <= Z.of_nat (sizeof_MRCExtHeader pf) ->
  0 < to_u32 (nz h) <= EXT_CAPACITY ->
  0 <= nx h -> 0 <= ny h -> 2 * area < 2 ^ 31 ->
  - 2 ^ 31 <= next h -> next h + Z.of_nat (sizeof_MRCHeader pf) < 0 ->
  plane_offset pf h 0 = next h + Z.of_nat (sizeof_MRCHeader pf) /\
  fst run = Ok 0 /\
  exists p,
    emitted (trace (snd run)) !! 0%nat = Some p /\
    em_image p
    = clip16 <$> samples pf
        (filled (ind_image junk 0 <$> seq 0 (Z.to_nat (2 * area))) (2 * area)
           {| content := bytes;
              pos := Z.of_nat (sizeof_MRCHeader pf)
                     + to_u32 (nz h) * extsize h |}).
Proof.
  intros h run area Hfile Hmode Hxs Hys Hsize Hnz Hx Hy Hsmall Hlow Hneg.
  pose proof (plane_offset_first pf h ltac:(lia)) as Hoff.
  split; [exact Hoff|].
  unfold run.
  rewrite (run_decoded pf files junk c bytes Hfile Hmode Hxs Hys Hsize
             (proj2 Hnz) Hx Hy Hsmall).
  split; [reflexivity|]. cbn [snd].
  destruct (calibrated_facts pf junk bytes files c Hsize (proj2 Hnz))
    as (Hh3 & _ & _ & Hi3 & _ & Hem & Hlo).
  fold h in Hh3, Hlo.
  pose proof (extsize_nonneg pf junk bytes) as Hx0. fold h in Hx0.
  pose proof (ext_inv_loop pf junk bytes (extsize h) (Z.to_nat (to_u32 (nz h)))
                (opened pf files junk c bytes) ltac:(lia) ltac:(lia)
                (opened_ext_inv pf junk bytes files c (extsize h)))
    as (Hfh & _).
  rewrite Z2Nat.id in Hfh by lia.
  change (foldl _ _ _) with (ext_loaded pf (opened pf files junk c bytes)) in Hfh.
  unfold decoded, finished, planes_done. norm_state.
  set (s3 := calibrated (ext_loaded pf (opened pf files junk c bytes))) in *.
  change (fh (ext_loaded pf (opened pf files junk c bytes))) with (fh s3) in Hfh.
  rewrite Hh3.
  rewrite (seqZ_cons 0 (to_u32 (nz h))) by lia. cbn [foldl].
  destruct (plane_loop_extends pf (seqZ (Z.succ 0) (Z.pred (to_u32 (nz h))))
              (plane_done pf s3 0)) as (t & ->).
  unfold plane_done at 1. rewrite Hfh, (Hlo 0 ltac:(lia)), Hh3, Hi3. norm_state.
  rewrite !emitted_app, Hem, emitted_plane_events. cbn [app lookup list_lookup].
  eexists. split; [reflexivity|]. cbn [em_image].
  unfold plane_bytes.
  destruct (plane_sizes h Hx Hy Hsmall) as [-> ->].
  unfold sought. destruct (Z.ltb_spec (plane_offset pf h 0) 0); [|lia].
  rewrite filled_clamped by lia. reflexivity.
Qed.

Lemma failed_seek_reads_on_witness :
  plane_offset sample_platform
    (header sample_platform sample_junk seekless_file) 0 = -64 /\
  fst (mrc_read sample_platform
         (start sample_platform (only seekless_file) sample_junk sample_ctx))
  = Ok 0.
Proof.
  split; [reflexivity|].
  refine (proj1 (proj2
            (failed_seek_reads_on sample_platform (only seekless_file)
               sample_junk sample_ctx seekless_file
               eq_refl _ _ _ _ _ _ _ _ _ _)));
    vm_compute; repeat split; first [reflexivity | discriminate].
Defined.
